(** * PrepLoot backend: ingestion ledger, response cache, deduplicator,
      batcher and artifact generators

    A shallow embedding of the Python sources

      - [utils/quiz_generator.py], [utils/notes_generator.py]
      - [utils/cache_manager.py]
      - [utils/pdf_processor.py], [utils/user_manager.py]
      - [utils/youtube.py] (the transcript fetch)
      - [app.py] (the YouTube and quiz handlers)

    Python floats (timestamps, modification times, similarity scores,
    thresholds) are read as the rationals they denote; [dict]s persisted as
    JSON are finite maps; the file system, the clock, the LLM client, the
    vector store and scikit-learn are explicit state or explicit oracles. *)

From Stdlib Require Import QArith Ascii String Lqa.
From stdpp Require Import gmap strings list fin_maps pretty.

Open Scope string_scope.
Set Warnings "-register-all".

(* ===================================================================== *)
(** * Part I: the programs                                                *)
(* ===================================================================== *)

(** ** Python values and built-ins shared by the modules *)
Module Py.

(** The JSON data model, as [json.loads] produces it and [json.dump]
    accepts it: [None], [bool], numbers, [str], [list], and [dict] with
    string keys (kept in insertion order). *)
Inductive json : Type :=
| JNull  : json
| JBool  : bool -> json
| JNum   : Q -> json
| JStr   : string -> json
| JArr   : list json -> json
| JObj   : list (string * json) -> json.

(** [bool(v)]: Python truthiness. *)
Definition truthy (v : json) : bool :=
  match v with
  | JNull => false
  | JBool b => b
  | JNum q => negb (Qeq_bool q 0)
  | JStr s => negb (String.eqb s "")
  | JArr l => match l with [] => false | _ => true end
  | JObj l => match l with [] => false | _ => true end
  end.

(** [d.get(k)] / [k in d] / [d[k]] on a [dict] given by its items. *)
Fixpoint dict_get (k : string) (d : list (string * json)) : option json :=
  match d with
  | [] => None
  | (k', v) :: d' => if String.eqb k k' then Some v else dict_get k d'
  end.

(** [l[:n]] for a Python [int] [n]: a negative bound counts from the end. *)
Definition slice_to {A} (l : list A) (n : Z) : list A :=
  if (n <? 0)%Z then take (length l - Z.to_nat (- n)) l
  else take (Z.to_nat n) l.

(** [l[i:j]] for two indices that are not negative. *)
Definition slice {A} (l : list A) (i j : nat) : list A :=
  take (j - i) (drop i l).

(** [range(start, stop, step)] for a positive [step]; [fuel] bounds the
    number of elements, [stop - start] is always enough. *)
Fixpoint range_from (fuel start stop step : nat) : list nat :=
  match fuel with
  | O => []
  | S fuel' =>
      if (start <? stop)%nat
      then start :: range_from fuel' (start + step) stop step
      else []
  end.

Definition range3 (start stop step : nat) : list nat :=
  range_from (stop - start) start stop step.

(** [range(start, stop)]. *)
Definition range2 (start stop : nat) : list nat := seq start (stop - start).

(** The characters of a string, each as a one-character string (what
    iterating over a [str] yields). *)
Fixpoint chars (s : string) : list string :=
  match s with
  | EmptyString => []
  | String c s' => String c EmptyString :: chars s'
  end.

(** [s.strip(cs)]: drop from both ends every character that occurs in
    [cs]. *)
Fixpoint char_in (c : ascii) (cs : string) : bool :=
  match cs with
  | EmptyString => false
  | String c' cs' => if Ascii.eqb c c' then true else char_in c cs'
  end.

Fixpoint lstrip (cs s : string) : string :=
  match s with
  | EmptyString => EmptyString
  | String c s' => if char_in c cs then lstrip cs s' else s
  end.

Fixpoint rstrip (cs s : string) : string :=
  match s with
  | EmptyString => EmptyString
  | String c s' =>
      match rstrip cs s' with
      | EmptyString => if char_in c cs then EmptyString else String c EmptyString
      | r => String c r
      end
  end.

Definition strip (cs s : string) : string := rstrip cs (lstrip cs s).

(** [s.endswith(suffix)]. *)
Definition endswith (s suffix : string) : bool :=
  let n := String.length s in
  let k := String.length suffix in
  (k <=? n)%nat && String.eqb (substring (n - k) k s) suffix.

Definition NL : string := String "010"%char EmptyString.

(** A call either returns or raises. *)
Inductive outcome (A : Type) : Type :=
| Ret   : A -> outcome A
| Raise : outcome A.
Arguments Ret {A} _.
Arguments Raise {A}.

Definition bind {A B} (c : outcome A) (k : A -> outcome B) : outcome B :=
  match c with
  | Ret a => k a
  | Raise => Raise
  end.

(** [for x in xs: acc = step(acc, x)], stopping at the first raise. *)
Fixpoint for_each {A S} (step : S -> A -> outcome S) (xs : list A) (acc : S)
    : outcome S :=
  match xs with
  | [] => Ret acc
  | x :: xs' => bind (step acc x) (for_each step xs')
  end.

(** What [list.extend(v)] appends: the elements of a [list], the
    characters of a [str], the keys of a [dict]; anything else is not
    iterable. *)
Definition iter_items (v : json) : outcome (list json) :=
  match v with
  | JArr l => Ret l
  | JStr s => Ret (JStr <$> chars s)
  | JObj d => Ret ((fun kv => JStr kv.1) <$> d)
  | _ => Raise
  end.

(** [s[:n]] on a [str]. *)
Definition str_slice_to (s : string) (n : Z) : string :=
  string_of_list_ascii (slice_to (list_ascii_of_string s) n).

(** The ASCII characters [str.strip()] removes. *)
Definition WHITESPACE : string :=
  string_of_list_ascii
    (ascii_of_nat <$> [9; 10; 11; 12; 13; 28; 29; 30; 31; 32]%nat).

(** [os.path.join(a, b)] (POSIX). *)
Definition path_join (a b : string) : string :=
  if String.prefix "/" b then b
  else if String.eqb a "" || endswith a "/" then a ++ b
  else a ++ "/" ++ b.

End Py.

(** ** Deduplicator and batcher
    ([QuizGenerator] and [NotesGenerator] carry the same two methods,
    character for character) *)
Module Chunks.
Import Py.

(** [similarities[i][j]] on the matrix scikit-learn returns (square, one
    row per chunk). *)
Definition sim_at (similarities : list (list Q)) (i j : nat) : Q :=
  match similarities !! i with
  | Some row => match row !! j with Some x => x | None => 0%Q end
  | None => 0%Q
  end.

(** [x > threshold] on floats. *)
Definition exceeds (x threshold : Q) : bool :=
  if Qlt_le_dec threshold x then true else false.

Section Deduplicate.
(** [cosine_similarity(TfidfVectorizer().fit_transform(chunks))]:
    scikit-learn's doing, taken as an oracle.  [None] stands for the
    [ValueError] that [fit_transform] raises on an empty vocabulary. *)
Variable tfidf_cosine : list string -> option (list (list Q)).

(** The inner loop: [for j in range(i + 1, len(chunks))]. *)
Definition mark_similar (similarities : list (list Q)) (threshold : Q)
    (n i : nat) (seen : gset nat) : gset nat :=
  foldl (fun seen j =>
           if exceeds (sim_at similarities i j) threshold
           then {[ j ]} ∪ seen else seen)
        seen (range2 (i + 1) n).

(** The outer loop: [for i in range(len(chunks))], carrying
    [(keep_indices, seen)]. *)
Definition dedup_loop (similarities : list (list Q)) (threshold : Q)
    (n : nat) : list nat * gset nat :=
  foldl (fun '((keep_indices, seen) : list nat * gset nat) i =>
           if bool_decide (i ∈ seen) then (keep_indices, seen)
           else ((keep_indices ++ [i])%list,
                 mark_similar similarities threshold n i seen))
        ([], ∅) (range2 0 n).

Definition deduplicate_chunks (chunks : list string) (threshold : Q)
    : option (list string) :=
  if (length chunks <=? 1)%nat then Some chunks
  else
    match tfidf_cosine chunks with
    | None => None
    | Some similarities =>
        let keep_indices :=
          fst (dedup_loop similarities threshold (length chunks)) in
        Some ((fun i => chunks !!! i) <$> keep_indices)
    end.
End Deduplicate.

Definition SEPARATOR : string := NL ++ NL ++ "--- SECTION ---" ++ NL ++ NL.

(** [batch_chunks] for a positive [batch_size]. *)
Definition batch_chunks_pos (chunks : list string) (batch_size : nat)
    : list string :=
  (fun i => String.concat SEPARATOR (slice chunks i (i + batch_size)))
    <$> range3 0 (length chunks) batch_size.

(** [batch_chunks]: [range] raises [ValueError] on a zero step ([None]),
    and is empty on a negative one. *)
Definition batch_chunks (chunks : list string) (batch_size : Z)
    : option (list string) :=
  if (batch_size =? 0)%Z then None
  else if (batch_size <? 0)%Z then Some []
  else Some (batch_chunks_pos chunks (Z.to_nat batch_size)).

End Chunks.

(** ** Content cache ([utils/cache_manager.py]) *)
Module Cache.
Import Py.

(** [Config.CACHE_TIMEOUT], in seconds. *)
Definition CACHE_TIMEOUT : Q := 3600.

(** The regular files the cache manager can reach: file to the JSON
    document the file holds ([json.dump] and [json.load] are each
    other's inverse on the JSON data model).  A file is named by the
    directory it lies in and its name there, see [locate]. *)
Abbreviation store := (gmap string json).

(** [float - x] accepts a number, and a [bool] as 0 or 1. *)
Definition as_number (v : json) : option Q :=
  match v with
  | JNum q => Some q
  | JBool b => Some (if b then 1%Q else 0%Q)
  | _ => None
  end.

(** What [open], [os.path.exists] and [os.remove] make of a path: the
    text up to the last ["/"], that ["/"] included, is the directory
    walked to (the empty text is the working directory), the text after
    it the name looked up there. *)
Fixpoint dirname (path : string) : string :=
  match path with
  | EmptyString => EmptyString
  | String c rest =>
      if char_in "/" path then String c (dirname rest) else EmptyString
  end.

Fixpoint basename (path : string) : string :=
  match path with
  | EmptyString => EmptyString
  | String c rest => if char_in "/" path then basename rest else path
  end.

(** What the cache manager meets of the file system (POSIX, names told
    apart by case, no links): the directory a directory path leads to,
    [None] when there is no such directory; and whether the file system
    takes the path at all (it refuses one that is too long, or holds a
    NUL).  The cache manager makes one directory, [self.cache_dir] in
    [__init__], and removes none, so both are the same at every call. *)
Record filesystem : Type := Filesystem {
  resolve_dir : string -> option string;
  accepts     : string -> bool
}.

Section CacheManager.
Variable fs : filesystem.
(** [self.cache_dir]. *)
Variable cache_dir : string.

(** The file a path names: two paths name the same file when they lead
    to the same directory and end in the same name.  [None]: the path
    is refused or a directory on the way is missing; [open] raises
    ([ValueError], [OSError]) and [os.path.exists] is [False]. *)
Definition locate (path : string) : option string :=
  if accepts fs path then
    match resolve_dir fs (dirname path) with
    | Some directory => Some (directory ++ "/" ++ basename path)
    | None => None
    end
  else None.

(** The document in the file at [path], when there is such a file. *)
Definition file_at (files : store) (path : string) : option json :=
  match locate path with
  | Some file => files !! file
  | None => None
  end.

Definition _get_cache_path (cache_id : string) : string :=
  path_join cache_dir (cache_id ++ ".json").

(** [save_to_cache(data, cache_id)] at clock reading [now]: whether it
    raised, and the files afterwards.  [open(..., 'w')] creates the
    file or truncates it; it raises, and writes nothing, when the path
    names no file. *)
Definition save_to_cache (files : store) (now : Q) (data : json)
    (cache_id : string) : outcome unit * store :=
  let cache_data := JObj [("timestamp", JNum now); ("data", data)] in
  match locate (_get_cache_path cache_id) with
  | Some file => (Ret tt, <[file := cache_data]> files)
  | None => (Raise, files)
  end.

(** [get_from_cache(cache_id)] at clock reading [now]: the value
    returned ([JNull] is Python's [None]) or a raise, and the files
    afterwards. *)
Definition get_from_cache (files : store) (now : Q) (cache_id : string)
    : outcome json * store :=
  let cache_path := _get_cache_path cache_id in
  match locate cache_path with
  | None => (Ret JNull, files)
  | Some file =>
      match files !! file with
      | None => (Ret JNull, files)
      | Some (JObj cache_data) =>
          match dict_get "timestamp" cache_data with
          | None => (Raise, files)
          | Some ts =>
              match as_number ts with
              | None => (Raise, files)
              | Some timestamp =>
                  if Qlt_le_dec CACHE_TIMEOUT (now - timestamp)
                  then (Ret JNull, delete file files)
                  else
                    match dict_get "data" cache_data with
                    | Some data => (Ret data, files)
                    | None => (Raise, files)
                    end
              end
          end
      | Some _ => (Raise, files)
      end
  end.

(** One turn of [for filename in os.listdir(self.cache_dir)].  A file
    that is gone makes [open] raise [OSError], and the [os.remove] of
    the handler raise it again; a document that is no [dict], or whose
    time stamp is no number, raises [TypeError], which is not caught. *)
Definition sweep_file (current_time : Q) (files : store) (filename : string)
    : outcome store :=
  if negb (endswith filename ".json") then Ret files
  else
    let file_path := path_join cache_dir filename in
    match locate file_path with
    | None => Raise
    | Some file =>
        match files !! file with
        | None => Raise
        | Some (JObj cache_data) =>
            match dict_get "timestamp" cache_data with
            | None => Ret (delete file files)
            | Some ts =>
                match as_number ts with
                | None => Raise
                | Some timestamp =>
                    if Qlt_le_dec CACHE_TIMEOUT (current_time - timestamp)
                    then Ret (delete file files)
                    else Ret files
                end
            end
        | Some _ => Raise
        end
    end.

(** [clear_expired_cache()] at clock reading [current_time], over the
    names [os.listdir] returns: whether it raised, and the files
    afterwards (those removed before a raise stay removed). *)
Fixpoint clear_expired_cache (files : store) (listing : list string)
    (current_time : Q) : outcome unit * store :=
  match listing with
  | [] => (Ret tt, files)
  | filename :: rest =>
      match sweep_file current_time files filename with
      | Ret files => clear_expired_cache files rest current_time
      | Raise => (Raise, files)
      end
  end.
End CacheManager.

End Cache.

(** ** Transcript fetch ([utils/youtube.py]) *)
Module Youtube.
Import Py.

Section Transcript.
(** [YouTubeTranscriptApi().fetch(video_id)]: the texts of the snippets,
    in order, or a raise. *)
Variable fetch : string -> outcome (list string).

(** [get_transcript]: a raise of the fetch is raised again (under another
    message). *)
Definition get_transcript (video_id : string) : outcome string :=
  match fetch video_id with
  | Raise => Raise
  | Ret fetched_transcript =>
      Ret (foldl (fun full_text snippet => full_text ++ snippet ++ " ")
                 "" fetched_transcript)
  end.
End Transcript.

End Youtube.

(** ** Quiz generator ([utils/quiz_generator.py]) *)
Module Quiz.
Import Py Chunks.

(** The merged [params] dictionary of [generate_quiz]. *)
Record params : Type := Params {
  num_questions        : Z;
  difficulty           : string;
  similarity_threshold : Q;
  batch_size           : Z
}.

Definition set_num_questions (p : params) (n : Z) : params :=
  {| num_questions := n; difficulty := difficulty p;
     similarity_threshold := similarity_threshold p;
     batch_size := batch_size p |}.

(** [response_text.strip("```json").strip("```").strip()]. *)
Definition FENCE : string := String "096"%char (String "096"%char (String "096"%char "")).

Definition clean_response (response_text : string) : string :=
  strip WHITESPACE (strip FENCE (strip (FENCE ++ "json") response_text)).

(** One turn of [[q for q in questions if q['difficulty'] == d]]: the
    subscript raises unless [q] is a [dict] that has the key. *)
Definition keep_if_difficulty (d : string) (kept : list json) (q : json)
    : outcome (list json) :=
  match q with
  | JObj items =>
      match dict_get "difficulty" items with
      | Some (JStr s) => Ret (if String.eqb s d then (kept ++ [q])%list else kept)
      | Some _ => Ret kept
      | None => Raise
      end
  | _ => Raise
  end.

(** The comprehension over whatever [json.loads] returned: a [list] is
    filtered; a non-empty [str] or [dict] yields strings, whose subscript
    raises; other values are not iterable. *)
Definition filter_difficulty (d : string) (questions : json) : outcome json :=
  match questions with
  | JArr qs => bind (for_each (keep_if_difficulty d) qs []) (fun l => Ret (JArr l))
  | JStr "" => Ret (JArr [])
  | JObj [] => Ret (JArr [])
  | _ => Raise
  end.

(** [questions[:n]]. *)
Definition truncate (n : Z) (questions : json) : outcome json :=
  match questions with
  | JArr qs => Ret (JArr (slice_to qs n))
  | JStr s => Ret (JStr (str_slice_to s n))
  | _ => Raise
  end.

Section Generator.
Variable tfidf_cosine : list string -> option (list (list Q)).
(** The f-string around [batch_text]. *)
Variable transcript_prompt : string -> string.
(** [self.client.models.generate_content(...).text]. *)
Variable generate_content : string -> outcome string.
(** [json.loads]; [None] is [JSONDecodeError]. *)
Variable json_loads : string -> option json.

(** [generate_quiz_from_batch]: every raise inside the [try] ends in
    [return []]. *)
Definition generate_quiz_from_batch (batch_text : string) (p : params) : json :=
  match generate_content (transcript_prompt batch_text) with
  | Raise => JArr []
  | Ret response_text =>
      match json_loads (clean_response response_text) with
      | None => JArr []
      | Some questions =>
          let filtered :=
            if negb (String.eqb (difficulty p) "")
               && negb (String.eqb (difficulty p) "mixed")
            then filter_difficulty (difficulty p) questions
            else Ret questions in
          let truncated :=
            bind filtered (fun questions =>
              if negb (num_questions p =? 0)%Z
              then truncate (num_questions p) questions
              else Ret questions) in
          match truncated with
          | Ret questions => questions
          | Raise => JArr []
          end
      end
  end.

(** [for batch in batched_chunks: ...], carrying [all_questions] and
    the batch calls made so far, each with the [num_questions] it was
    given. *)
Fixpoint quiz_loop (p : params) (questions_needed : Z) (batches : list string)
    (all_questions : list json) (calls : list (string * Z))
    : outcome (list json) * list (string * Z) :=
  match batches with
  | [] => (Ret all_questions, calls)
  | batch :: rest =>
      if (questions_needed <=? Z.of_nat (length all_questions))%Z
      then (Ret all_questions, calls)
      else
        let remaining := (questions_needed - Z.of_nat (length all_questions))%Z in
        let p := set_num_questions p (Z.min remaining 5) in
        let questions := generate_quiz_from_batch batch p in
        let calls := (calls ++ [(batch, num_questions p)])%list in
        match iter_items questions with
        | Raise => (Raise, calls)
        | Ret items => quiz_loop p questions_needed rest
                         (all_questions ++ items)%list calls
        end
  end.

(** [generate_quiz(text_chunks, params)], [params] already merged with
    the defaults. *)
Definition generate_quiz (text_chunks : list string) (p : params)
    : outcome (list json) * list (string * Z) :=
  match deduplicate_chunks tfidf_cosine text_chunks (similarity_threshold p) with
  | None => (Raise, [])
  | Some unique_chunks =>
      match batch_chunks unique_chunks (batch_size p) with
      | None => (Raise, [])
      | Some batched_chunks =>
          let questions_needed := num_questions p in
          match quiz_loop p questions_needed batched_chunks [] [] with
          | (Ret all_questions, calls) =>
              (Ret (slice_to all_questions questions_needed), calls)
          | (Raise, calls) => (Raise, calls)
          end
      end
  end.
End Generator.

End Quiz.

(** ** Notes generator ([utils/notes_generator.py]) *)
Module Notes.
Import Py Chunks.

(** [{"sections": []}]. *)
Definition EMPTY_NOTES : list (string * json) := [("sections", JArr [])].

(** [len(v)] is defined on [str], [list] and [dict]. *)
Definition has_len (v : json) : bool :=
  match v with
  | JStr _ | JArr _ | JObj _ => true
  | _ => false
  end.

Section Generator.
Variable tfidf_cosine : list string -> option (list (list Q)).
Variable notes_prompt : string -> string.
Variable generate_content : string -> outcome string.
(** [clean_json_response]: the three regular-expression passes, left
    open. *)
Variable clean_json_response : string -> string.
Variable json_loads : string -> option json.

(** [generate_notes_from_batch]: the [dict] returned.  [notes_data] is
    returned only if [notes_data.get('sections', [])] and its [len] did
    not raise, so only if it is a [dict]. *)
Definition generate_notes_from_batch (batch_text : string)
    (batch_index total_batches : nat) : list (string * json) :=
  match generate_content (notes_prompt batch_text) with
  | Raise => EMPTY_NOTES
  | Ret response_text =>
      match json_loads (clean_json_response response_text) with
      | None => EMPTY_NOTES
      | Some (JObj notes_data) =>
          match dict_get "sections" notes_data with
          | None => notes_data
          | Some sections => if has_len sections then notes_data else EMPTY_NOTES
          end
      | Some _ => EMPTY_NOTES
      end
  end.

(** One turn of [for batch_notes in all_notes_batches]. *)
Definition merge_step (sections : list json) (batch_notes : list (string * json))
    : outcome (list json) :=
  match dict_get "sections" batch_notes with
  | None => Ret sections
  | Some v => bind (iter_items v) (fun items => Ret (sections ++ items)%list)
  end.

Definition merge_notes (all_notes_batches : list (list (string * json)))
    : outcome json :=
  bind (for_each merge_step all_notes_batches [])
       (fun sections =>
          Ret (JObj [("title", JStr "Generated Notes");
                     ("sections", JArr sections)])).

(** [for idx, batch in enumerate(batched_chunks)]. *)
Definition notes_of_batches (batched_chunks : list string)
    : list (list (string * json)) :=
  imap (fun idx batch =>
          generate_notes_from_batch batch idx (length batched_chunks))
       batched_chunks.

(** [generate_notes(text_chunks, params)]. *)
Definition generate_notes (text_chunks : list string)
    (similarity_threshold : Q) (batch_size : Z) : outcome json :=
  match deduplicate_chunks tfidf_cosine text_chunks similarity_threshold with
  | None => Raise
  | Some unique_chunks =>
      match batch_chunks unique_chunks batch_size with
      | None => Raise
      | Some batched_chunks => merge_notes (notes_of_batches batched_chunks)
      end
  end.
End Generator.

(** [re.sub(fence + r'\s*', '', text)] for a literal, non-empty [fence]:
    scanning from the left, every occurrence of [fence] goes, with the
    white space that follows it.  [pending] counts the characters of a
    matched fence still to drop; [spaces] tells that a fence has just
    been dropped. *)
Fixpoint remove_fences (fence : string) (pending : nat) (spaces : bool)
    (text : string) : string :=
  match text with
  | EmptyString => EmptyString
  | String c rest =>
      match pending with
      | S pending' => remove_fences fence pending' true rest
      | O =>
          if spaces && char_in c WHITESPACE
          then remove_fences fence 0 true rest
          else if String.prefix fence text
          then remove_fences fence (String.length fence - 1) true rest
          else String c (remove_fences fence 0 false rest)
      end
  end.

(** The text from the first ["{"] on. *)
Fixpoint from_first_brace (text : string) : option string :=
  match text with
  | EmptyString => None
  | String c rest =>
      if Ascii.eqb c "{" then Some text else from_first_brace rest
  end.

(** The text up to the last ["}"], with it. *)
Fixpoint upto_last_brace (text : string) : option string :=
  match text with
  | EmptyString => None
  | String c rest =>
      match upto_last_brace rest with
      | Some found => Some (String c found)
      | None => if Ascii.eqb c "}" then Some (String c EmptyString) else None
      end
  end.

(** [re.search(r'\{.*\}', text, re.DOTALL)]: from the first ["{"] to the
    last ["}"] after it. *)
Definition search_object (text : string) : option string :=
  match from_first_brace text with
  | Some rest => upto_last_brace rest
  | None => None
  end.

(** [clean_json_response]. *)
Definition clean_json_response (response_text : string) : string :=
  let response_text :=
    remove_fences (Quiz.FENCE ++ "json") 0 false response_text in
  let response_text := remove_fences Quiz.FENCE 0 false response_text in
  let response_text :=
    match search_object response_text with
    | Some found => found
    | None => response_text
    end in
  strip WHITESPACE response_text.

(** [d.get(key, default)]. *)
Definition get_or (d : list (string * json)) (key : string) (default : json)
    : json :=
  match dict_get key d with
  | Some v => v
  | None => default
  end.

Section Markdown.
(** [str(v)] of a value that is not a [str], inside an f-string. *)
Variable py_str : json -> string.

Definition fmt (v : json) : string :=
  match v with
  | JStr s => s
  | _ => py_str v
  end.

(** ["- {point}\n"] for each point. *)
Definition render_point (markdown : string) (point : json) : outcome string :=
  Ret (markdown ++ "- " ++ fmt point ++ NL).

(** One turn of [for subsection in section.get('subsections', [])]. *)
Definition render_subsection (markdown : string) (subsection : json)
    : outcome string :=
  match subsection with
  | JObj sub =>
      let markdown :=
        markdown ++ "### "
          ++ fmt (get_or sub "subtitle" (JStr "Untitled Subsection"))
          ++ NL ++ NL in
      bind (iter_items (get_or sub "points" (JArr [])))
        (fun points =>
           bind (for_each render_point points markdown)
             (fun markdown => Ret (markdown ++ NL)))
  | _ => Raise
  end.

(** One turn of [for term_obj in section['key_terms']]. *)
Definition render_term (markdown : string) (term_obj : json) : outcome string :=
  match term_obj with
  | JObj t =>
      Ret (markdown ++ "**" ++ fmt (get_or t "term" (JStr "")) ++ "**: "
             ++ fmt (get_or t "definition" (JStr "")) ++ NL ++ NL)
  | _ => Raise
  end.

(** One turn of [for idx, example in enumerate(section['examples'], 1)],
    carrying the text and the next index. *)
Definition render_example (acc : string * nat) (example : json)
    : outcome (string * nat) :=
  let '(markdown, idx) := acc in
  Ret (markdown ++ pretty idx ++ ". " ++ fmt example ++ NL, S idx).

(** One turn of [for section in notes_data.get('sections', [])]. *)
Definition render_section (markdown : string) (section : json) : outcome string :=
  match section with
  | JObj sec =>
      let markdown :=
        markdown ++ "## " ++ fmt (get_or sec "title" (JStr "Untitled Section"))
          ++ NL ++ NL in
      let markdown :=
        if truthy (get_or sec "content" JNull)
        then markdown ++ fmt (get_or sec "content" JNull) ++ NL ++ NL
        else markdown in
      bind (iter_items (get_or sec "subsections" (JArr [])))
        (fun subsections =>
      bind (for_each render_subsection subsections markdown)
        (fun markdown =>
      bind (if truthy (get_or sec "key_terms" JNull)
            then bind (iter_items (get_or sec "key_terms" JNull))
                   (fun terms =>
                      for_each render_term terms
                        (markdown ++ "#### Key Terms" ++ NL ++ NL))
            else Ret markdown)
        (fun markdown =>
      bind (if truthy (get_or sec "examples" JNull)
            then bind (iter_items (get_or sec "examples" JNull))
                   (fun examples =>
                      bind (for_each render_example examples
                              (markdown ++ "#### Examples" ++ NL ++ NL, 1%nat))
                        (fun acc => Ret (acc.1 ++ NL)))
            else Ret markdown)
        (fun markdown => Ret (markdown ++ "---" ++ NL ++ NL)))))
  | _ => Raise
  end.

(** [convert_notes_to_markdown(notes_data)]. *)
Definition convert_notes_to_markdown (notes_data : json) : outcome string :=
  match notes_data with
  | JObj notes =>
      let markdown := "# " ++ fmt (get_or notes "title" (JStr "Notes")) ++ NL ++ NL in
      bind (iter_items (get_or notes "sections" (JArr [])))
        (fun sections => for_each render_section sections markdown)
  | _ => Raise
  end.
End Markdown.

End Notes.

(** ** Ingestion tracker and document pipeline
    ([utils/pdf_processor.py], [utils/user_manager.py]) *)
Module Ingest.
Import Py.

(** What one user's [PDFProcessor] sees of the world: the two [glob.glob]
    listings of the document folder, [os.path.getmtime], the ledger file
    [processed_files_<user>.json] (absent, or a JSON object from path to
    modification time) and whether the vector-index folder exists. *)
Record world : Type := World {
  glob_pdf        : list string;
  glob_docx       : list string;
  getmtime        : string -> Q;
  state_file      : option (gmap string Q);
  vectordb_exists : bool
}.

Definition set_state_file (w : world) (f : option (gmap string Q)) : world :=
  {| glob_pdf := glob_pdf w; glob_docx := glob_docx w;
     getmtime := getmtime w; state_file := f;
     vectordb_exists := vectordb_exists w |}.

Definition set_vectordb_exists (w : world) (b : bool) : world :=
  {| glob_pdf := glob_pdf w; glob_docx := glob_docx w;
     getmtime := getmtime w; state_file := state_file w;
     vectordb_exists := b |}.

(** [get_user_processed_files]: the ledger, [{}] when the file is absent. *)
Definition get_user_processed_files (w : world) : gmap string Q :=
  match state_file w with
  | Some ledger => ledger
  | None => ∅
  end.

(** [save_user_processed_files]. *)
Definition save_user_processed_files (w : world) (processed_files : gmap string Q)
    : world :=
  set_state_file w (Some processed_files).

(** One turn of [for file in all_files], carrying
    [(new_files, processed_files)]. *)
Definition scan_file (mtime : string -> Q)
    (acc : list string * gmap string Q) (file : string)
    : list string * gmap string Q :=
  let '(new_files, processed_files) := acc in
  let last_modified := mtime file in
  match processed_files !! file with
  | None => ((new_files ++ [file])%list, <[file := last_modified]> processed_files)
  | Some recorded =>
      if Qlt_le_dec recorded last_modified
      then ((new_files ++ [file])%list, <[file := last_modified]> processed_files)
      else (new_files, processed_files)
  end.

(** [check_new_files]: returns [(new_files, removed_files)] and the world
    with the ledger written back.  The keys of the ledger are enumerated
    in the map's order, not in the [dict]'s insertion order. *)
Definition check_new_files (w : world)
    : (list string * list string) * world :=
  let all_files := (glob_pdf w ++ glob_docx w)%list in
  let processed_files := get_user_processed_files w in
  let removed_files :=
    filter (fun f => f ∉ all_files) (fst <$> map_to_list processed_files) in
  let processed_files :=
    foldl (fun m f => delete f m) processed_files removed_files in
  let '(new_files, processed_files) :=
    foldl (scan_file (getmtime w)) ([], processed_files) all_files in
  ((new_files, removed_files), save_user_processed_files w processed_files).

(** The calls [store_chroma_function] makes on its collaborators. *)
Inductive event : Type :=
| OpenStore                                   (* Chroma(persist_directory=...) *)
| DeleteSource (source : string)              (* vectorstore.delete(where=...) *)
| DeleteAll                                   (* _collection.delete(where={}) *)
| CloseStore                                  (* _client._conn.close() *)
| RemoveTree                                  (* shutil.rmtree(vectordb_folder) *)
| RemoveStateFile                             (* os.remove(state_file) *)
| ExtractText (file : string)                 (* get_text_from_file(f) *)
| SplitDocuments (docs : list (string * string))
| AddDocuments (chunks : list (string * string))   (* embeds and upserts *)
| FromDocuments (chunks : list (string * string)). (* embeds into a new index *)

(** Text extraction, chunking, embedding and upsert calls. *)
Definition is_ingest_call (e : event) : bool :=
  match e with
  | ExtractText _ | SplitDocuments _ | AddDocuments _ | FromDocuments _ => true
  | _ => false
  end.

(** The handle [Chroma(persist_directory=self.vectordb_folder, ...)]. *)
Inductive vectorstore : Type := Chroma.

Section Pipeline.
(** [get_text_from_file] (PyPDF2 / python-docx), which may raise. *)
Variable get_text_from_file : string -> outcome string.
(** [RecursiveCharacterTextSplitter(...).split_documents], on documents
    given as (text, source) pairs. *)
Variable split_documents : list (string * string) -> list (string * string).
(** [bool(vectorstore)], as it stands after the calls made so far. *)
Variable store_truthy : list event -> bool.

(** [docs = []; for f in new_files: ...], with the extraction calls;
    stops at the first file whose extraction raises. *)
Fixpoint extract_all (new_files : list string)
    (docs : list (string * string)) (log : list event)
    : outcome (list (string * string)) * list event :=
  match new_files with
  | [] => (Ret docs, log)
  | f :: rest =>
      let log := (log ++ [ExtractText f])%list in
      match get_text_from_file f with
      | Ret text => extract_all rest (docs ++ [(text, f)])%list log
      | Raise => (Raise, log)
      end
  end.

(** [store_chroma_function]: the returned handle ([None] or the store),
    the world afterwards and the calls made, in order. *)
Definition store_chroma_function (w : world)
    : outcome (option vectorstore) * world * list event :=
  let '((new_files, removed_files), w) := check_new_files w in
  let '(vs, log) :=
    if vectordb_exists w then (Some Chroma, [OpenStore]) else (None, []) in
  let is_true (vs : option vectorstore) (log : list event) :=
    match vs with Some _ => store_truthy log | None => false end in
  let log :=
    if negb (bool_decide (removed_files = [])) && is_true vs log
    then (log ++ (DeleteSource <$> removed_files))%list else log in
  let all_files := (glob_pdf w ++ glob_docx w)%list in
  if bool_decide (all_files = []) then
    let '(vs, log) :=
      if is_true vs log then (None, (log ++ [DeleteAll; CloseStore])%list)
      else (vs, log) in
    let '(w, log) :=
      if vectordb_exists w
      then (set_vectordb_exists w false, (log ++ [RemoveTree])%list)
      else (w, log) in
    let '(w, log) :=
      match state_file w with
      | Some _ => (set_state_file w None, (log ++ [RemoveStateFile])%list)
      | None => (w, log)
      end in
    (Ret None, w, log)
  else if bool_decide (new_files = []) then
    (Ret vs, w, log)
  else
    match extract_all new_files [] log with
    | (Raise, log) => (Raise, w, log)
    | (Ret docs, log) =>
        let chunks := split_documents docs in
        let log := (log ++ [SplitDocuments docs])%list in
        let '(vs, w, log) :=
          if is_true vs log
          then (vs, w, (log ++ [AddDocuments chunks])%list)
          else (Some Chroma, set_vectordb_exists w true,
                (log ++ [FromDocuments chunks])%list) in
        let processed_files := get_user_processed_files w in
        (Ret vs, save_user_processed_files w processed_files, log)
    end.
End Pipeline.

End Ingest.

(** ** Request handlers ([app.py]: [process_youtube], [generate_quiz]) *)
Module App.
Import Py Cache.

Definition DEFAULT_BATCH_SIZE : Z := 7.
Definition DEFAULT_SIMILARITY_THRESHOLD : Q := 85 # 100.
Definition MAX_QUESTIONS_PER_QUIZ : Z := 50.

(** [jsonify(body), status]; [ServerError] is the reply of the handler's
    [except Exception as e], [jsonify({'error': str(e)}), 500]. *)
Inductive response : Type :=
| Reply (status : nat) (body : list (string * json))
| ServerError.

Definition error (status : nat) (message : string) : response :=
  Reply status [("error", JStr message)].

(** What the document branch finds in the user's vector store. *)
Inductive doc_lookup : Type :=
| NoStore                       (* [not vectorstore] *)
| NoDocuments                   (* [not all_docs or 'documents' not in all_docs] *)
| Documents (documents : list string)
| LookupRaises.

(** [data.get(key, default)]. *)
Definition get_default (data : list (string * json)) (key : string)
    (default : json) : json :=
  match dict_get key data with
  | Some v => v
  | None => default
  end.

(** [params['difficulty'] in ['mixed', 'easy', 'medium', 'hard']]. *)
Definition is_difficulty (v : json) : option string :=
  match v with
  | JStr s =>
      if existsb (String.eqb s) ["mixed"; "easy"; "medium"; "hard"]
      then Some s else None
  | _ => None
  end.

(** [s.lower()], on ASCII letters. *)
Definition lower_char (c : ascii) : ascii :=
  let n := nat_of_ascii c in
  if (65 <=? n)%nat && (n <=? 90)%nat then ascii_of_nat (n + 32) else c.

Fixpoint lower (s : string) : string :=
  match s with
  | EmptyString => EmptyString
  | String c s' => String (lower_char c) (lower s')
  end.

(** [filename.rsplit('.', 1)[1]]: the text after the last dot; [None]
    when [filename] has no dot. *)
Fixpoint after_last_dot (filename : string) : option string :=
  match filename with
  | EmptyString => None
  | String c rest =>
      match after_last_dot rest with
      | Some extension => Some extension
      | None => if Ascii.eqb c "." then Some rest else None
      end
  end.

(** [allowed_file(filename)], with [Config.ALLOWED_EXTENSIONS]. *)
Definition allowed_file (filename : string) : bool :=
  match after_last_dot filename with
  | Some extension =>
      existsb (String.eqb (lower extension)) ["pdf"; "docx"]
  | None => false
  end.

Section Handlers.
(** The file system, and [Config.CACHE_FOLDER]. *)
Variable fs : filesystem.
Variable cache_dir : string.
(** [utils/youtube.py]: the two URL patterns, and the transcript fetch. *)
Variable extract_video_id : string -> option string.
Variable get_transcript : string -> outcome string.
(** The quiz generator's collaborators. *)
Variable tfidf_cosine : list string -> option (list (list Q)).
Variable transcript_prompt : string -> string.
Variable generate_content : string -> outcome string.
Variable json_loads : string -> option json.
(** [PDFProcessor(user_id).get_vectorstore()] and [vectorstore.get()]. *)
Variable vectorstore_documents : string -> doc_lookup.
(** [int(s)] and [float(s)] on a [str], and [str(v)] on a value that is
    not a [str] (inside an f-string). *)
Variable int_of_string : string -> option Z.
Variable float_of_string : string -> option Q.
Variable py_str : json -> string.

Definition py_int (v : json) : outcome Z :=
  match v with
  | JNum q => Ret (Z.quot (Qnum q) (Z.pos (Qden q)))
  | JBool b => Ret (if b then 1 else 0)%Z
  | JStr s => match int_of_string s with Some z => Ret z | None => Raise end
  | _ => Raise
  end.

Definition py_float (v : json) : outcome Q :=
  match v with
  | JNum q => Ret q
  | JBool b => Ret (if b then 1 else 0)%Q
  | JStr s => match float_of_string s with Some q => Ret q | None => Raise end
  | _ => Raise
  end.

(** [f"{v}"]. *)
Definition format (v : json) : string :=
  match v with
  | JStr s => s
  | _ => py_str v
  end.

(** [process_youtube(user_id)] on the request body [data] ([None], or a
    JSON object): the reply, the cache files afterwards, and the video
    ids whose transcript was fetched.  [now_read] and [now_write] are
    the clock readings of the cache lookup and of the cache write. *)
Definition process_youtube (user_id : string)
    (data : option (list (string * json)))
    (files : store) (now_read now_write : Q)
    : response * store * list string :=
  match data with
  | None | Some [] => (error 400 "No URL provided", files, [])
  | Some data =>
      match dict_get "url" data with
      | None => (error 400 "No URL provided", files, [])
      | Some (JStr url) =>
          match extract_video_id url with
          | None | Some "" => (error 400 "Invalid YouTube URL", files, [])
          | Some video_id =>
              let cache_id := "yt_" ++ user_id ++ "_" ++ video_id in
              match get_from_cache fs cache_dir files now_read cache_id with
              | (Raise, files) => (ServerError, files, [])
              | (Ret cached_transcript, files) =>
                  if truthy cached_transcript then
                    (Reply 200 [("message", JStr "Transcript retrieved from cache");
                                ("cache_id", JStr cache_id);
                                ("user_id", JStr user_id)],
                     files, [])
                  else
                    match get_transcript video_id with
                    | Raise => (ServerError, files, [video_id])
                    | Ret transcript =>
                        match save_to_cache fs cache_dir files now_write
                                (JStr transcript) cache_id with
                        | (Raise, files) => (ServerError, files, [video_id])
                        | (Ret _, files) =>
                            (Reply 200
                               [("message",
                                 JStr "YouTube transcript processed successfully");
                                ("cache_id", JStr cache_id);
                                ("user_id", JStr user_id)],
                             files, [video_id])
                        end
                    end
              end
          end
      | Some _ => (ServerError, files, [])
      end
  end.

(** The [params] dictionary of the quiz handler: [int(...)], the
    difficulty as sent, [float(...)]. *)
Definition quiz_params (data : list (string * json)) : outcome (Z * json * Q) :=
  bind (py_int (get_default data "num_questions" (JNum 10)))
    (fun n =>
       bind (py_float (get_default data "similarity_threshold"
                         (JNum DEFAULT_SIMILARITY_THRESHOLD)))
         (fun threshold =>
            Ret (n, get_default data "difficulty" (JStr "mixed"), threshold))).

(** [quiz_generator.generate_quiz(chunks, params)], then the cache
    write and the reply. *)
Definition run_quiz (user_id : string) (chunks : list string) (p : Quiz.params)
    (quiz_cache_id : string) (files : store) (now_write : Q)
    : response * store * list (string * Z) :=
  match Quiz.generate_quiz tfidf_cosine transcript_prompt generate_content
          json_loads chunks p with
  | (Raise, calls) => (ServerError, files, calls)
  | (Ret quiz, calls) =>
      match save_to_cache fs cache_dir files now_write (JArr quiz)
              quiz_cache_id with
      | (Raise, files) => (ServerError, files, calls)
      | (Ret _, files) =>
          (Reply 200 [("message", JStr "Quiz generated successfully");
                      ("quiz", JArr quiz);
                      ("user_id", JStr user_id)],
           files, calls)
      end
  end.

(** The handler from [# Generate new quiz] on. *)
Definition generate_new_quiz (user_id : string) (cache_id : json)
    (p : Quiz.params) (quiz_cache_id : string)
    (files : store) (now_read now_write : Q)
    : response * store * list (string * Z) :=
  match cache_id with
  | JStr cache_id =>
      if String.prefix ("yt_" ++ user_id ++ "_") cache_id then
        match get_from_cache fs cache_dir files now_read cache_id with
        | (Raise, files) => (ServerError, files, [])
        | (Ret transcript, files) =>
            if negb (truthy transcript)
            then (error 404 "Transcript not found", files, [])
            else
              match transcript with
              | JStr transcript =>
                  run_quiz user_id [transcript] p quiz_cache_id files now_write
              | _ => (ServerError, files, [])
              end
        end
      else if String.prefix ("doc_" ++ user_id ++ "_") cache_id then
        match vectorstore_documents user_id with
        | NoStore => (error 404 "No documents in vector store", files, [])
        | NoDocuments => (error 404 "No documents found", files, [])
        | Documents documents =>
            run_quiz user_id documents p quiz_cache_id files now_write
        | LookupRaises => (ServerError, files, [])
        end
      else (error 400 "Invalid cache ID format", files, [])
  | _ => (ServerError, files, [])
  end.

(** [generate_quiz(user_id)] on the request body: the reply, the cache
    files afterwards, and the batch calls made on the model.  [now_quiz]
    and [now_transcript] are the clock readings of the two cache
    lookups, [now_write] that of the cache write. *)
Definition generate_quiz (user_id : string)
    (data : option (list (string * json)))
    (files : store) (now_quiz now_transcript now_write : Q)
    : response * store * list (string * Z) :=
  match data with
  | None | Some [] => (error 400 "No cache ID provided", files, [])
  | Some data =>
      match dict_get "cache_id" data with
      | None => (error 400 "No cache ID provided", files, [])
      | Some cache_id =>
          match quiz_params data with
          | Raise => (ServerError, files, [])
          | Ret (n, difficulty, threshold) =>
              if (MAX_QUESTIONS_PER_QUIZ <? n)%Z then
                (error 400 ("Maximum " ++ pretty MAX_QUESTIONS_PER_QUIZ
                            ++ " questions allowed"), files, [])
              else
                match is_difficulty difficulty with
                | None => (error 400 "Invalid difficulty level", files, [])
                | Some difficulty =>
                    let p := {| Quiz.num_questions := n;
                                Quiz.difficulty := difficulty;
                                Quiz.similarity_threshold := threshold;
                                Quiz.batch_size := DEFAULT_BATCH_SIZE |} in
                    let quiz_cache_id :=
                      format cache_id ++ "_" ++ pretty n ++ "_" ++ difficulty in
                    match get_from_cache fs cache_dir files now_quiz
                            quiz_cache_id with
                    | (Raise, files) => (ServerError, files, [])
                    | (Ret cached_quiz, files) =>
                        if truthy cached_quiz then
                          (Reply 200 [("message", JStr "Quiz retrieved from cache");
                                      ("quiz", cached_quiz);
                                      ("user_id", JStr user_id)],
                           files, [])
                        else
                          generate_new_quiz user_id cache_id p quiz_cache_id
                            files now_transcript now_write
                    end
                end
          end
      end
  end.
End Handlers.

End App.

(* ===================================================================== *)
(** * Part II: the vocabulary of the properties                           *)
(* ===================================================================== *)

Module Terms.
Import Py Chunks Cache Ingest.

(** *** Batcher *)

(** The groups the batcher joins: [chunks] cut every [n] elements. *)
Fixpoint groups_of (fuel n : nat) (rest : list string) : list (list string) :=
  match fuel with
  | O => []
  | S fuel' =>
      match rest with
      | [] => []
      | _ => take n rest :: groups_of fuel' n (drop n rest)
      end
  end.

(** *** Ingestion tracker *)

(** What the scan leaves for a listed file. *)
Definition recorded_after (mtime : string -> Q) (m : gmap string Q) (f : string)
    : option Q :=
  match m !! f with
  | None => Some (mtime f)
  | Some t => if Qlt_le_dec t (mtime f) then Some (mtime f) else Some t
  end.

(** A user folder holding one freshly uploaded file and no ledger yet. *)
Definition fresh_upload : world :=
  {| glob_pdf := ["user_data/u1/data_files_u1/notes.pdf"];
     glob_docx := [];
     getmtime := fun _ => 1700000000%Q;
     state_file := None;
     vectordb_exists := true |}.

(** The ledger, as [check_new_files] reads it, is in step with the
    folder: its keys are the listed files, and each is recorded with a
    time that is not older than the file. *)
Definition in_step (w : world) : Prop :=
  dom (get_user_processed_files w)
    = list_to_set (glob_pdf w ++ glob_docx w)%list /\
  forall f t, get_user_processed_files w !! f = Some t -> (getmtime w f <= t)%Q.

(** The world once the PDF [file] has been put into the document
    folder. *)
Definition with_upload (file : string) (w : world) : world :=
  {| glob_pdf := (glob_pdf w ++ [file])%list; glob_docx := glob_docx w;
     getmtime := getmtime w; state_file := state_file w;
     vectordb_exists := vectordb_exists w |}.

(** A folder that was diffed, and into which a second file was put
    afterwards. *)
Definition uploaded_after_diff : world :=
  with_upload "user_data/u1/data_files_u1/slides.pdf"
    (check_new_files fresh_upload).2.

(** *** Content cache *)

(** The file [save_to_cache] writes for [data] at clock reading [t0]. *)
Definition entry (t0 : Q) (data : json) : json :=
  JObj [("timestamp", JNum t0); ("data", data)].

(** The paths a file system takes: no name of more than 255 characters,
    no NUL. *)
Definition short_names (path : string) : bool :=
  (String.length (basename path) <=? 255)%nat && negb (char_in "000"%char path).

(** A file system whose one directory is the cache folder ["cache"]. *)
Definition only_cache_folder : filesystem :=
  {| resolve_dir := fun directory =>
       if String.eqb directory "cache/" then Some "cache" else None;
     accepts := short_names |}.

(** The files after [save_to_cache(data, cache_id)] in that folder. *)
Definition saved (files : store) (now : Q) (data : json) (cache_id : string)
    : store :=
  (save_to_cache only_cache_folder "cache" files now data cache_id).2.

(** A video without captions (its transcript is the empty string), and a
    model that answers every batch with the empty quiz. *)
Definition silent_video_cache : store :=
  saved ∅ 1700000000 (JStr "") "yt_u1_abc".

Definition empty_quiz_cache : store :=
  saved (saved ∅ 1700000000 (JStr "lecture text") "yt_u1_abc")
    1700000005 (JArr []) "yt_u1_abc_3_mixed".

(** *** Quiz generator *)

Section QuizTerms.
Import Quiz.
Variable transcript_prompt : string -> string.
Variable generate_content : string -> outcome string.
Variable json_loads : string -> option json.

(** The questions one batch call adds to [all_questions]. *)
Definition contribution (p : params) (call : string * Z) : list json :=
  match iter_items (generate_quiz_from_batch transcript_prompt generate_content json_loads
                      call.1 (set_num_questions p call.2)) with
  | Ret items => items
  | Raise => []
  end.

(** The parsed answer of the model for a batch, when it is a list. *)
Definition raw_questions (batch : string) : option (list json) :=
  match generate_content (transcript_prompt batch) with
  | Ret response_text =>
      match json_loads (clean_response response_text) with
      | Some (JArr qs) => Some qs
      | _ => None
      end
  | Raise => None
  end.

(** The questions of a parsed answer that the difficulty filter lets
    through: all of them when no filter is set, and none when the filter
    raises on one of them. *)
Definition kept (d : string) (raw : list json) : list json :=
  if negb (String.eqb d "") && negb (String.eqb d "mixed")
  then match for_each (keep_if_difficulty d) raw [] with
       | Ret questions => questions
       | Raise => []
       end
  else raw.

(** The model answered, and the answer is not JSON. *)
Definition quiz_parse_fails (batch : string) : Prop :=
  exists response_text,
    generate_content (transcript_prompt batch) = Ret response_text /\
    json_loads (clean_response response_text) = None.
End QuizTerms.

(** Two chunks with no term in common, one chunk per batch, and a model
    that answers every batch with the same five questions. *)
Definition two_by_five_tfidf (chunks : list string) : option (list (list Q)) :=
  Some [[1; 0]; [0; 1]]%Q.

Definition five_questions : list json :=
  (fun s => JObj [("question", JStr s); ("difficulty", JStr "easy")])
    <$> ["q1"; "q2"; "q3"; "q4"; "q5"].

Definition three_of_ten : Quiz.params :=
  {| Quiz.num_questions := 3; Quiz.difficulty := "mixed";
     Quiz.similarity_threshold := 85 # 100; Quiz.batch_size := 1 |}.

(** The same request, for hard questions only. *)
Definition three_hard_of_ten : Quiz.params :=
  {| Quiz.num_questions := 3; Quiz.difficulty := "hard";
     Quiz.similarity_threshold := 85 # 100; Quiz.batch_size := 1 |}.

(** *** Notes generator *)

Section NotesTerms.
Variable notes_prompt : string -> string.
Variable generate_content : string -> outcome string.
Variable clean_json_response : string -> string.
Variable json_loads : string -> option json.

(** The model answered, and the cleaned answer is not JSON. *)
Definition notes_parse_fails (batch : string) : Prop :=
  exists response_text,
    generate_content (notes_prompt batch) = Ret response_text /\
    json_loads (clean_json_response response_text) = None.
End NotesTerms.

(** A model whose answer to the batch ["bad"] is not JSON, and whose
    answer to any other batch is a one-question quiz, or a one-section
    set of notes. *)
Definition garbled_on_bad (prompt : string) : outcome string :=
  if String.eqb prompt "bad" then Ret "I cannot help with that" else Ret "{...}".

Definition loads_ok (text : string) : option json :=
  if String.eqb text "{...}"
  then Some (JObj [("sections", JArr [JObj [("title", JStr "T")]])])
  else None.

Definition loads_ok_quiz (text : string) : option json :=
  if String.eqb text "{...}"
  then Some (JArr [JObj [("question", JStr "Q"); ("difficulty", JStr "easy")]])
  else None.

End Terms.

(** ** Further vocabulary

    Terms of the statements on the parts of the code the specification
    is silent on, and the inputs of their examples. *)
Module MoreTerms.
Import Py Cache Terms.

(** *** Quiz generator *)

(** A question that carries the difficulty [d]. *)
Definition has_difficulty (d : string) (q : json) : Prop :=
  exists items, q = JObj items /\ dict_get "difficulty" items = Some (JStr d).

(** A question the filter cannot read: not a [dict], or a [dict] without
    the key. *)
Definition unreadable (q : json) : Prop :=
  forall items, q = JObj items -> dict_get "difficulty" items = None.

(** Five hard questions. *)
Definition hard_only : Quiz.params :=
  {| Quiz.num_questions := 5; Quiz.difficulty := "hard";
     Quiz.similarity_threshold := 85 # 100; Quiz.batch_size := 7 |}.

(** An answer of the model with questions of two difficulties. *)
Definition mixed_answer : list json :=
  [JObj [("question", JStr "Q1"); ("difficulty", JStr "hard")];
   JObj [("question", JStr "Q2"); ("difficulty", JStr "easy")];
   JObj [("question", JStr "Q3"); ("difficulty", JStr "hard")]].

(** Ten questions of any difficulty. *)
Definition ten_from_one : Quiz.params :=
  {| Quiz.num_questions := 10; Quiz.difficulty := "mixed";
     Quiz.similarity_threshold := 85 # 100; Quiz.batch_size := 7 |}.

(** *** Notes generator *)

(** The document [merge_notes] builds around a list of sections. *)
Definition notes_document (sections : list json) : json :=
  JObj [("title", JStr "Generated Notes"); ("sections", JArr sections)].

(** [text] holds [part] somewhere. *)
Definition occurs (part text : string) : Prop :=
  exists before after, text = before ++ part ++ after.

(** The heading line of a section. *)
Definition heading (py_str : json -> string) (sec : list (string * json)) : string :=
  "## " ++ Notes.fmt py_str (Notes.get_or sec "title" (JStr "Untitled Section"))
  ++ NL ++ NL.

(** *** Cache manager *)

(** Every listed [.json] file of [files] is an entry written by
    [save_to_cache]. *)
Definition holds_entries (fs : filesystem)
    (cache_dir : string) (files : store) (listing : list string) : Prop :=
  forall name, name ∈ listing -> endswith name ".json" = true ->
    exists t d,
      file_at fs files (path_join cache_dir name) = Some (entry t d).

(** A cache folder with an entry that is an hour and a half old, one
    that is a minute old, and a file that is no cache entry. *)
Definition mixed_cache : store :=
  <["cache/README.txt" := JStr "notes"]>
    (saved (saved ∅ 1700000000 (JStr "old") "yt_u1_old")
       1700005340 (JStr "new") "yt_u1_new").

(** A file system in which the cache folder is reached as ["cache/"]
    and as ["cache/./"]. *)
Definition cache_folder_and_dot : filesystem :=
  {| resolve_dir := fun directory =>
       if String.eqb directory "cache/" || String.eqb directory "cache/./"
       then Some "cache" else None;
     accepts := short_names |}.

(** The quiz of user [u1], cached a moment ago. *)
Definition cached_quiz_of_u1 : store :=
  saved ∅ 1700000005 (JArr five_questions) "yt_u1_abc_3_mixed".

(** A name is none of the finitely many listed ones. *)
Ltac not_listed :=
  let H := fresh in
  intros H;
  repeat (apply elem_of_cons in H; destruct H as [H|H]; [discriminate H|]);
  apply elem_of_nil in H; exact H.

(** *** Ingestion *)

(** The ledger holds no record of [f], or an older one. *)
Definition newer_on_disk (mtime : string -> Q) (m : gmap string Q) (f : string)
    : Prop :=
  m !! f = None \/ exists t, m !! f = Some t /\ (t < mtime f)%Q.

(** The same, as the test [check_new_files] makes. *)
Definition is_newer (mtime : string -> Q) (m : gmap string Q) (f : string) : bool :=
  match m !! f with
  | None => true
  | Some t => if Qlt_le_dec t (mtime f) then true else false
  end.

(** A user who has removed every document, with the index folder and
    the ledger still in place. *)
Definition emptied_folder : Ingest.world :=
  {| Ingest.glob_pdf := []; Ingest.glob_docx := [];
     Ingest.getmtime := fun _ => 1700000000%Q;
     Ingest.state_file :=
       Some (<["user_data/u1/data_files_u1/notes.pdf" := 1700000000%Q]> ∅);
     Ingest.vectordb_exists := true |}.

End MoreTerms.

(* ===================================================================== *)
(** * Part III: the properties                                            *)
(* ===================================================================== *)

Module ChunksSpec.
Import Py Chunks Terms.

(** *** Batcher *)

Lemma batch_loop_groups (chunks : list string) (n : nat) :
  (0 < n)%nat ->
  forall fuel i,
    (length (drop i chunks) <= fuel)%nat ->
    (fun i => String.concat SEPARATOR (slice chunks i (i + n)))
      <$> range_from fuel i (length chunks) n
    = String.concat SEPARATOR <$> groups_of fuel n (drop i chunks).
Proof.
  intros Hn fuel. induction fuel as [|fuel IH]; intros i Hlen; [reflexivity|].
  cbn [range_from groups_of].
  destruct (Nat.ltb_spec i (length chunks)) as [Hlt|Hge].
  - destruct (drop i chunks) as [|x rest] eqn:Hd.
    { apply (f_equal length) in Hd. rewrite length_drop in Hd. simpl in Hd. lia. }
    rewrite !fmap_cons. f_equal.
    + unfold slice. rewrite Hd. f_equal. f_equal. lia.
    + rewrite IH.
      * rewrite <- Hd, drop_drop. reflexivity.
      * rewrite <- drop_drop, Hd. rewrite length_drop.
        simpl in *. lia.
  - rewrite drop_ge by lia. reflexivity.
Qed.

Lemma groups_of_concat (n : nat) :
  (0 < n)%nat ->
  forall fuel (rest : list string),
    (length rest <= fuel)%nat -> concat (groups_of fuel n rest) = rest.
Proof.
  intros Hn fuel. induction fuel as [|fuel IH]; intros rest Hlen.
  - destruct rest; [reflexivity | simpl in Hlen; lia].
  - destruct rest as [|x rest]; [reflexivity|].
    cbn [groups_of concat]. rewrite IH.
    + apply take_drop.
    + rewrite length_drop. simpl in *. lia.
Qed.

Lemma groups_of_sizes (n : nat) :
  (0 < n)%nat ->
  forall fuel (rest : list string) k g,
    groups_of fuel n rest !! k = Some g ->
    (0 < length g <= n)%nat /\
    (S k < length (groups_of fuel n rest) -> length g = n)%nat.
Proof.
  intros Hn fuel. induction fuel as [|fuel IH]; intros rest k g Hk.
  - discriminate.
  - destruct rest as [|x rest]; [discriminate|].
    cbn [groups_of] in *. destruct k as [|k]; simpl in Hk.
    + injection Hk as <-. rewrite length_take. split; [simpl; lia|].
      intros Hmore. simpl in Hmore.
      destruct fuel as [|fuel']; [simpl in Hmore; lia|].
      destruct (drop n (x :: rest)) as [|y rest'] eqn:Hd.
      { simpl in Hmore. lia. }
      apply (f_equal length) in Hd. rewrite length_drop in Hd.
      simpl in Hd |- *. lia.
    + destruct (IH _ _ _ Hk) as [Hsz Hfull]. split; [exact Hsz|].
      intros Hmore. apply Hfull. simpl in Hmore. lia.
Qed.

(** C7. For a positive [batch_size], [batch_chunks] returns the join (with
    the literal separator, two newlines, [--- SECTION ---], two newlines)
    of consecutive groups that concatenate back to the input in its
    order; every group holds between 1 and [batch_size] chunks and every
    group but the last holds exactly [batch_size]; no chunks give no
    batches; and ["a","b","c","d","e"] by 2 gives the three batches of
    the specification. *)
Theorem batch_chunks_consecutive_groups (chunks : list string) (batch_size : Z) :
  (0 < batch_size)%Z ->
  (exists groups : list (list string),
      batch_chunks chunks batch_size
        = Some (String.concat SEPARATOR <$> groups) /\
      concat groups = chunks /\
      (forall k g, groups !! k = Some g ->
         (0 < Z.of_nat (length g) <= batch_size)%Z /\
         ((S k < length groups)%nat -> Z.of_nat (length g) = batch_size)) /\
      (chunks = [] -> groups = [])) /\
  batch_chunks [] batch_size = Some [] /\
  batch_chunks ["a"; "b"; "c"; "d"; "e"] 2
    = Some ["a" ++ NL ++ NL ++ "--- SECTION ---" ++ NL ++ NL ++ "b";
            "c" ++ NL ++ NL ++ "--- SECTION ---" ++ NL ++ NL ++ "d";
            "e"].
Proof.
  intros Hpos.
  assert (Hn : (0 < Z.to_nat batch_size)%nat) by lia.
  assert (Hbc : forall l, batch_chunks l batch_size
                          = Some (batch_chunks_pos l (Z.to_nat batch_size))).
  { intros l. unfold batch_chunks.
    destruct (Z.eqb_spec batch_size 0); [lia|].
    destruct (Z.ltb_spec batch_size 0); [lia|]. reflexivity. }
  split; [|split; [rewrite Hbc; reflexivity | reflexivity]].
  exists (groups_of (length chunks) (Z.to_nat batch_size) chunks).
  split; [|split; [|split]].
  - rewrite Hbc. unfold batch_chunks_pos, range3. f_equal.
    rewrite Nat.sub_0_r.
    rewrite (batch_loop_groups chunks _ Hn (length chunks) 0)
      by (rewrite drop_0; lia).
    rewrite drop_0. reflexivity.
  - apply groups_of_concat; [exact Hn | lia].
  - intros k g Hk.
    destruct (groups_of_sizes _ Hn _ _ _ _ Hk) as [Hsz Hfull].
    split; [lia|]. intros Hmore. specialize (Hfull Hmore). lia.
  - intros ->. reflexivity.
Qed.

Lemma batch_chunks_consecutive_groups_witness :
  (0 < 2)%Z /\
  exists groups : list (list string),
    batch_chunks ["a"; "b"; "c"; "d"; "e"] 2
      = Some (String.concat SEPARATOR <$> groups) /\
    concat groups = ["a"; "b"; "c"; "d"; "e"].
Proof.
  split; [reflexivity|].
  destruct (batch_chunks_consecutive_groups ["a"; "b"; "c"; "d"; "e"] 2 eq_refl)
    as [[groups [Hrun [Hcat _]]] _].
  exists groups. split; [exact Hrun | exact Hcat].
Defined.

(** *** Deduplicator *)

Lemma exceeds_true (x t : Q) : (t < x)%Q -> exceeds x t = true.
Proof.
  intros H. unfold exceeds. destruct (Qlt_le_dec t x) as [_|Hle]; [reflexivity|].
  exfalso. exact (Qlt_not_le _ _ H Hle).
Qed.

Lemma exceeds_false (x t : Q) : (x <= t)%Q -> exceeds x t = false.
Proof.
  intros H. unfold exceeds. destruct (Qlt_le_dec t x) as [Hlt|_]; [|reflexivity].
  exfalso. exact (Qlt_not_le _ _ Hlt H).
Qed.

Section TwoChunks.
Variable tfidf_cosine : list string -> option (list (list Q)).
Variables (a b : string) (similarities : list (list Q)).
Hypothesis fitted : tfidf_cosine [a; b] = Some similarities.

Lemma dedup_two_above (t : Q) :
  (t < sim_at similarities 0 1)%Q ->
  deduplicate_chunks tfidf_cosine [a; b] t = Some [a].
Proof.
  intros H. unfold deduplicate_chunks. cbn [length Nat.leb]. rewrite fitted.
  unfold dedup_loop, mark_similar, range2. cbn [seq Nat.sub Nat.add foldl].
  rewrite bool_decide_eq_false_2 by set_solver.
  rewrite (exceeds_true _ _ H).
  rewrite bool_decide_eq_true_2 by set_solver.
  reflexivity.
Qed.

Lemma dedup_two_below (t : Q) :
  (sim_at similarities 0 1 <= t)%Q ->
  deduplicate_chunks tfidf_cosine [a; b] t = Some [a; b].
Proof.
  intros H. unfold deduplicate_chunks. cbn [length Nat.leb]. rewrite fitted.
  unfold dedup_loop, mark_similar, range2. cbn [seq Nat.sub Nat.add foldl].
  rewrite bool_decide_eq_false_2 by set_solver.
  rewrite (exceeds_false _ _ H).
  rewrite bool_decide_eq_false_2 by set_solver.
  reflexivity.
Qed.
End TwoChunks.

(** C1 (as the code has it).  On two chunks, whatever the two strings
    are, the second one is dropped exactly when the similarity computed
    for the pair is strictly above the threshold.  So at threshold 1.0
    two identical strings collapse to one entry exactly when their
    similarity is computed above 1.0, and are both kept when it is
    computed as 1.0; and two strings of similarity 0 (no shared term)
    are both kept for every threshold from 0 up. *)
Theorem dedup_two_chunks
    (tfidf_cosine : list string -> option (list (list Q)))
    (a b : string) (similarities : list (list Q)) (threshold : Q) :
  tfidf_cosine [a; b] = Some similarities ->
  (deduplicate_chunks tfidf_cosine [a; b] threshold = Some [a]
   <-> (threshold < sim_at similarities 0 1)%Q) /\
  (deduplicate_chunks tfidf_cosine [a; b] threshold = Some [a; b]
   <-> (sim_at similarities 0 1 <= threshold)%Q) /\
  ((threshold == 1)%Q ->
   (deduplicate_chunks tfidf_cosine [a; b] threshold = Some [a]
    <-> (1 < sim_at similarities 0 1)%Q)) /\
  ((sim_at similarities 0 1 == 0)%Q -> (0 <= threshold)%Q ->
   deduplicate_chunks tfidf_cosine [a; b] threshold = Some [a; b]).
Proof.
  intros Hfit.
  assert (Hdrop : deduplicate_chunks tfidf_cosine [a; b] threshold = Some [a]
                  <-> (threshold < sim_at similarities 0 1)%Q).
  { split; [|apply dedup_two_above; exact Hfit].
    intros Hone.
    destruct (Qlt_le_dec threshold (sim_at similarities 0 1)) as [Hlt|Hle];
      [exact Hlt|].
    rewrite (dedup_two_below _ _ _ _ Hfit _ Hle) in Hone. discriminate. }
  split; [exact Hdrop|]. split; [|split].
  - split; [|apply dedup_two_below; exact Hfit].
    intros Hboth.
    destruct (Qlt_le_dec threshold (sim_at similarities 0 1)) as [Hlt|Hle];
      [|exact Hle].
    rewrite (dedup_two_above _ _ _ _ Hfit _ Hlt) in Hboth. discriminate.
  - intros Ht. rewrite Hdrop, Ht. reflexivity.
  - intros Hzero Ht. apply (dedup_two_below _ _ _ _ Hfit).
    rewrite Hzero. exact Ht.
Qed.

Lemma dedup_two_chunks_witness :
  (fun _ : list string => Some [[1; 1]; [1; 1]]%Q) ["hello"; "hello"]
    = Some [[1; 1]; [1; 1]]%Q /\
  deduplicate_chunks (fun _ => Some [[1; 1]; [1; 1]]%Q)
    ["hello"; "hello"] (85 # 100) = Some ["hello"].
Proof.
  split; [reflexivity|].
  refine (proj2 (proj1 (dedup_two_chunks (fun _ => Some [[1; 1]; [1; 1]]%Q)
                          "hello" "hello" [[1; 1]; [1; 1]]%Q (85 # 100) eq_refl)) _).
  reflexivity.
Defined.

(** C1 as the specification words it fails twice.  ["hello", "hello"] has
    the one-term TF-IDF rows [[1.0], [1.0]] and the all-ones similarity
    matrix; at threshold 1.0 the test [1.0 > 1.0] is false and both
    copies are kept.  And two strings of similarity about 0.34 (below
    1.0) lose the second one at threshold 0.25. *)
Lemma dedup_threshold_one_keeps_identical :
  deduplicate_chunks (fun _ => Some [[1; 1]; [1; 1]]%Q)
    ["hello"; "hello"] 1 = Some ["hello"; "hello"] /\
  deduplicate_chunks (fun _ => Some [[1; 34 # 100]; [34 # 100; 1]]%Q)
    ["alpha beta"; "alpha gamma"] (25 # 100) = Some ["alpha beta"].
Proof. split; vm_compute; reflexivity. Qed.

End ChunksSpec.

Module IngestSpec.
Import Py Ingest Terms MoreTerms.

(** *** The ledger after pruning and after the scan *)

Lemma prune_lookup (removed : list string) :
  forall (m : gmap string Q) (k : string),
    foldl (fun m f => delete f m) m removed !! k
    = if decide (k ∈ removed) then None else m !! k.
Proof.
  induction removed as [|f removed IH]; intros m k; simpl.
  - destruct (decide (k ∈ [])) as [Hin|_]; [|reflexivity].
    apply elem_of_nil in Hin. destruct Hin.
  - rewrite IH.
    destruct (decide (k ∈ removed)) as [Hin|Hnin].
    + rewrite decide_True by (apply elem_of_cons; auto). reflexivity.
    + destruct (decide (k = f)) as [->|Hne].
      * rewrite decide_True by (apply elem_of_cons; auto).
        apply lookup_delete_eq.
      * rewrite decide_False
          by (intros [?|?]%elem_of_cons; [apply Hne|apply Hnin]; assumption).
        apply lookup_delete_ne. congruence.
Qed.

Lemma removed_files_spec (ledger : gmap string Q) (all_files : list string) f :
  f ∈ filter (fun f => f ∉ all_files) (fst <$> map_to_list ledger)
  <-> is_Some (ledger !! f) /\ f ∉ all_files.
Proof.
  rewrite list_elem_of_filter, list_elem_of_fmap. split.
  - intros [Hnin [[k t] [-> Hin]]]. split; [|exact Hnin].
    apply elem_of_map_to_list in Hin. simpl. eauto.
  - intros [[t Ht] Hnin]. split; [exact Hnin|].
    exists (f, t). split; [reflexivity|]. apply elem_of_map_to_list. exact Ht.
Qed.

Lemma scan_file_lookup mtime new (m : gmap string Q) file f :
  (scan_file mtime (new, m) file).2 !! f
  = if decide (f = file) then recorded_after mtime m f else m !! f.
Proof.
  unfold scan_file, recorded_after.
  destruct (decide (f = file)) as [->|Hne].
  - destruct (m !! file) as [t|] eqn:Hm.
    + destruct (Qlt_le_dec t (mtime file)); simpl.
      * apply lookup_insert_eq.
      * exact Hm.
    + simpl. apply lookup_insert_eq.
  - destruct (m !! file) as [t|] eqn:Hm.
    + destruct (Qlt_le_dec t (mtime file)); simpl; [|reflexivity].
      apply lookup_insert_ne. congruence.
    + simpl. apply lookup_insert_ne. congruence.
Qed.

Lemma recorded_after_idem mtime (m m' : gmap string Q) f :
  m' !! f = recorded_after mtime m f ->
  recorded_after mtime m' f = recorded_after mtime m f.
Proof.
  intros Hm'. unfold recorded_after at 1. rewrite Hm'.
  unfold recorded_after.
  destruct (m !! f) as [t|].
  - destruct (Qlt_le_dec t (mtime f)) as [Hlt|Hle].
    + destruct (Qlt_le_dec (mtime f) (mtime f)) as [Habs|_]; [|reflexivity].
      exfalso. exact (Qlt_irrefl _ Habs).
    + destruct (Qlt_le_dec t (mtime f)) as [Habs|_]; [|reflexivity].
      exfalso. exact (Qlt_not_le _ _ Habs Hle).
  - destruct (Qlt_le_dec (mtime f) (mtime f)) as [Habs|_]; [|reflexivity].
    exfalso. exact (Qlt_irrefl _ Habs).
Qed.

Lemma scan_lookup mtime (files : list string) :
  forall new (m : gmap string Q) f,
    (foldl (scan_file mtime) (new, m) files).2 !! f
    = if decide (f ∈ files) then recorded_after mtime m f else m !! f.
Proof.
  induction files as [|file files IH]; intros new m f.
  - simpl. destruct (decide (f ∈ [])) as [Hin|_]; [|reflexivity].
    apply elem_of_nil in Hin. destruct Hin.
  - cbn [foldl].
    destruct (scan_file mtime (new, m) file) as [new1 m1] eqn:Hstep.
    assert (Hm1 : m1 !! f
                  = if decide (f = file) then recorded_after mtime m f else m !! f).
    { rewrite <- (scan_file_lookup mtime new m file f), Hstep. reflexivity. }
    rewrite IH.
    destruct (decide (f = file)) as [->|Hne].
    + rewrite (decide_True (P := file ∈ file :: files))
        by (apply elem_of_cons; auto).
      destruct (decide (file ∈ files)); [|exact Hm1].
      apply recorded_after_idem. exact Hm1.
    + destruct (decide (f ∈ files)) as [Hin|Hnin].
      * rewrite decide_True by (apply elem_of_cons; auto).
        unfold recorded_after. rewrite Hm1. reflexivity.
      * rewrite decide_False
          by (intros [?|?]%elem_of_cons; [apply Hne|apply Hnin]; assumption).
        exact Hm1.
Qed.

(** Files recorded with a time that is not older than the file are left
    alone by the scan. *)
Lemma scan_stable mtime (files : list string) :
  forall new (m : gmap string Q),
    (forall f, f ∈ files -> exists t, m !! f = Some t /\ (mtime f <= t)%Q) ->
    foldl (scan_file mtime) (new, m) files = (new, m).
Proof.
  induction files as [|file files IH]; intros new m Hrec; [reflexivity|].
  cbn [foldl].
  destruct (Hrec file) as [t [Ht Hle]]; [apply elem_of_cons; auto|].
  assert (Hstep : scan_file mtime (new, m) file = (new, m)).
  { unfold scan_file. rewrite Ht.
    destruct (Qlt_le_dec t (mtime file)) as [Hlt|_]; [|reflexivity].
    exfalso. exact (Qlt_not_le _ _ Hlt Hle). }
  rewrite Hstep. apply IH.
  intros f Hin. apply Hrec. apply elem_of_cons; auto.
Qed.

Lemma recorded_after_ge mtime (m : gmap string Q) f :
  exists t, recorded_after mtime m f = Some t /\ (mtime f <= t)%Q /\
            (t = mtime f \/ m !! f = Some t).
Proof.
  unfold recorded_after. destruct (m !! f) as [t|].
  - destruct (Qlt_le_dec t (mtime f)) as [Hlt|Hle].
    + exists (mtime f). split; [reflexivity|]. split; [apply Qle_refl|auto].
    + exists t. auto.
  - exists (mtime f). split; [reflexivity|]. split; [apply Qle_refl|auto].
Qed.

(** The ledger [check_new_files] writes, key by key. *)
Lemma check_new_files_ledger (w : world) :
  exists ledger,
    state_file (check_new_files w).2 = Some ledger /\
    forall f,
      ledger !! f =
      if decide (f ∈ glob_pdf w ++ glob_docx w)%list
      then recorded_after (getmtime w) (get_user_processed_files w) f
      else None.
Proof.
  unfold check_new_files.
  set (all_files := (glob_pdf w ++ glob_docx w)%list).
  set (ledger0 := get_user_processed_files w).
  set (removed := filter (fun f => f ∉ all_files) (fst <$> map_to_list ledger0)).
  set (pruned := foldl (fun m f => delete f m) ledger0 removed).
  destruct (foldl (scan_file (getmtime w)) ([], pruned) all_files)
    as [new ledger] eqn:Hscan.
  exists ledger. split; [reflexivity|]. intros f.
  assert (Hl : ledger = (foldl (scan_file (getmtime w)) ([], pruned) all_files).2)
    by (rewrite Hscan; reflexivity).
  rewrite Hl, scan_lookup.
  assert (Hpruned : forall k, k ∈ all_files -> pruned !! k = ledger0 !! k).
  { intros k Hk. unfold pruned. rewrite prune_lookup.
    rewrite decide_False; [reflexivity|].
    intros Hin. apply removed_files_spec in Hin. tauto. }
  destruct (decide (f ∈ all_files)) as [Hin|Hnin].
  - unfold recorded_after. rewrite Hpruned by exact Hin. reflexivity.
  - unfold pruned. rewrite prune_lookup.
    destruct (decide (f ∈ removed)) as [_|Hnr]; [reflexivity|].
    destruct (ledger0 !! f) as [t|] eqn:Hf; [|reflexivity].
    exfalso. apply Hnr. apply removed_files_spec. split; [eauto|exact Hnin].
Qed.

(** After the diff the ledger is in step with the listing. *)
Lemma check_new_files_in_step (w : world) :
  exists ledger : gmap string Q,
    state_file (check_new_files w).2 = Some ledger /\
    dom ledger = list_to_set (glob_pdf w ++ glob_docx w)%list /\
    (forall f t, ledger !! f = Some t -> (getmtime w f <= t)%Q).
Proof.
  destruct (check_new_files_ledger w) as [ledger [Hst Hl]].
  exists ledger. split; [exact Hst|]. split.
  - apply set_eq. intros f.
    rewrite elem_of_dom, elem_of_list_to_set, Hl.
    destruct (decide (f ∈ (glob_pdf w ++ glob_docx w)%list)) as [Hin|Hnin].
    + split; [intros _; exact Hin|]. intros _.
      destruct (recorded_after_ge (getmtime w) (get_user_processed_files w) f)
        as [t [-> _]]. eauto.
    + split; [intros [t Ht]; discriminate | intros Hin; contradiction].
  - intros f t. rewrite Hl.
    destruct (decide (f ∈ (glob_pdf w ++ glob_docx w)%list)) as [_|_];
      [|discriminate].
    destruct (recorded_after_ge (getmtime w) (get_user_processed_files w) f)
      as [t' [-> [Hle _]]].
    intros Ht. injection Ht as <-. exact Hle.
Qed.

(** C9. Whatever the ledger held before, the ledger that
    [check_new_files] persists has exactly the listed .pdf/.docx paths as
    its keys: a path that is no longer listed is gone, and every listed
    path is recorded with a time that is not older than the file's
    modification time (that very time, or the newer one already on
    record). *)
Theorem check_new_files_ledger_keys (w : world) :
  exists ledger : gmap string Q,
    state_file (check_new_files w).2 = Some ledger /\
    dom ledger = list_to_set (glob_pdf w ++ glob_docx w)%list /\
    (forall f, f ∈ (check_new_files w).1.2 -> ledger !! f = None) /\
    (forall f, f ∈ (glob_pdf w ++ glob_docx w)%list ->
       exists t, ledger !! f = Some t /\ (getmtime w f <= t)%Q /\
                 (t = getmtime w f \/ get_user_processed_files w !! f = Some t)).
Proof.
  destruct (check_new_files_ledger w) as [ledger [Hst Hl]].
  exists ledger. split; [exact Hst|]. split; [|split].
  - apply set_eq. intros f.
    rewrite elem_of_dom, elem_of_list_to_set, Hl.
    destruct (decide (f ∈ (glob_pdf w ++ glob_docx w)%list)) as [Hin|Hnin].
    + split; [intros _; exact Hin|]. intros _.
      destruct (recorded_after_ge (getmtime w) (get_user_processed_files w) f)
        as [t [-> _]]. eauto.
    + split; [intros [t Ht]; discriminate | intros Hin; contradiction].
  - intros f Hrem. rewrite Hl.
    destruct (decide (f ∈ (glob_pdf w ++ glob_docx w)%list)) as [Hin|_];
      [|reflexivity].
    exfalso. revert Hrem. unfold check_new_files.
    destruct (foldl _ _ _) as [new ledger']. simpl.
    intros Hrem. apply removed_files_spec in Hrem. tauto.
  - intros f Hin. rewrite Hl, decide_True by exact Hin.
    apply recorded_after_ge.
Qed.

(** *** What the diff reports *)

Lemma is_newer_spec mtime (m : gmap string Q) f :
  is_newer mtime m f = true <-> newer_on_disk mtime m f.
Proof.
  unfold is_newer, newer_on_disk. destruct (m !! f) as [t|].
  - destruct (Qlt_le_dec t (mtime f)) as [Hlt|Hle].
    + split; [eauto|reflexivity].
    + split; [discriminate|]. intros [H|[t' [[= <-] Hlt]]]; [discriminate|].
      exfalso. exact (Qlt_not_le _ _ Hlt Hle).
  - split; [auto|reflexivity].
Qed.

Lemma scan_file_cases mtime new (m : gmap string Q) file :
  scan_file mtime (new, m) file
  = if is_newer mtime m file
    then ((new ++ [file])%list, <[file := mtime file]> m)
    else (new, m).
Proof.
  unfold scan_file, is_newer. destruct (m !! file) as [t|]; [|reflexivity].
  destruct (Qlt_le_dec t (mtime file)); reflexivity.
Qed.

Lemma scan_new_spec mtime (files : list string) :
  forall new (m : gmap string Q) f,
    f ∈ (foldl (scan_file mtime) (new, m) files).1
    <-> f ∈ new \/ (f ∈ files /\ is_newer mtime m f = true).
Proof.
  induction files as [|file files IH]; intros new m f.
  - simpl. split; [auto|]. intros [H|[H _]]; [exact H|].
    apply elem_of_nil in H. destruct H.
  - cbn [foldl]. rewrite scan_file_cases.
    destruct (is_newer mtime m file) eqn:Hfile.
    + rewrite IH, elem_of_cons, elem_of_app, list_elem_of_singleton.
      destruct (decide (f = file)) as [->|Hne]; [tauto|].
      assert (Hsame : is_newer mtime (<[file := mtime file]> m) f
                      = is_newer mtime m f).
      { unfold is_newer. rewrite lookup_insert_ne by congruence. reflexivity. }
      rewrite Hsame. tauto.
    + rewrite IH, elem_of_cons.
      destruct (decide (f = file)) as [->|Hne]; [|tauto].
      rewrite Hfile. split; [tauto|]. intros [H|[_ H]]; [auto|discriminate].
Qed.

(** The files reported as new, by the test the scan makes. *)
Lemma new_files_spec (w : world) (f : string) :
  f ∈ (check_new_files w).1.1
  <-> f ∈ (glob_pdf w ++ glob_docx w)%list /\
      is_newer (getmtime w) (get_user_processed_files w) f = true.
Proof.
  unfold check_new_files.
  set (all_files := (glob_pdf w ++ glob_docx w)%list).
  set (ledger0 := get_user_processed_files w).
  set (removed := filter (fun f => f ∉ all_files) (fst <$> map_to_list ledger0)).
  set (pruned := foldl (fun m f => delete f m) ledger0 removed).
  pose proof (scan_new_spec (getmtime w) all_files [] pruned f) as Hnew.
  destruct (foldl (scan_file (getmtime w)) ([], pruned) all_files)
    as [new ledger] eqn:Hscan.
  simpl in Hnew |- *. rewrite Hnew.
  assert (Hp : f ∈ all_files -> pruned !! f = ledger0 !! f).
  { intros Hin. unfold pruned. rewrite prune_lookup.
    rewrite decide_False; [reflexivity|].
    intros Hr. apply removed_files_spec in Hr. tauto. }
  unfold is_newer. split.
  - intros [H|[Hin Hn]]; [apply elem_of_nil in H; destruct H|].
    split; [exact Hin|]. rewrite <- (Hp Hin). exact Hn.
  - intros [Hin Hn]. right. split; [exact Hin|]. rewrite (Hp Hin). exact Hn.
Qed.

(** A ledger in step with the folder: nothing is reported. *)
Lemma in_step_is_quiet (w : world) :
  in_step w -> (check_new_files w).1 = ([], []).
Proof.
  intros [Hdom Hrec]. unfold check_new_files.
  set (ledger := get_user_processed_files w) in *.
  set (all_files := (glob_pdf w ++ glob_docx w)%list) in *.
  assert (Hnone : filter (fun f => f ∉ all_files) (fst <$> map_to_list ledger) = []).
  { apply elem_of_nil_inv. intros f Hin. apply removed_files_spec in Hin.
    destruct Hin as [Hsome Hnin]. apply Hnin.
    apply (elem_of_list_to_set (C := gset string)). rewrite <- Hdom.
    apply elem_of_dom. exact Hsome. }
  rewrite Hnone. cbn [foldl].
  rewrite scan_stable; [reflexivity|].
  intros f Hin.
  assert (Hd : f ∈ dom ledger)
    by (rewrite Hdom; apply elem_of_list_to_set; exact Hin).
  apply elem_of_dom in Hd. destruct Hd as [t Ht].
  exists t. split; [exact Ht|]. eapply Hrec. exact Ht.
Qed.

(** Nothing is reported: the ledger was in step with the folder. *)
Lemma quiet_is_in_step (w : world) :
  (check_new_files w).1 = ([], []) -> in_step w.
Proof.
  intros Hquiet.
  assert (Hnew : forall f, f ∉ (check_new_files w).1.1)
    by (intros f; rewrite Hquiet; apply not_elem_of_nil).
  assert (Hremoved : forall f, f ∉ (check_new_files w).1.2)
    by (intros f; rewrite Hquiet; apply not_elem_of_nil).
  assert (Hlisted : forall f, is_Some (get_user_processed_files w !! f) ->
                              f ∈ (glob_pdf w ++ glob_docx w)%list).
  { intros f Hsome.
    destruct (decide (f ∈ (glob_pdf w ++ glob_docx w)%list)) as [Hin|Hnin];
      [exact Hin|].
    exfalso. apply (Hremoved f). unfold check_new_files.
    destruct (foldl _ _ _) as [new ledger]. simpl.
    apply removed_files_spec. split; [exact Hsome | exact Hnin]. }
  assert (Hold : forall f, f ∈ (glob_pdf w ++ glob_docx w)%list ->
            exists t, get_user_processed_files w !! f = Some t /\
                      (getmtime w f <= t)%Q).
  { intros f Hin.
    assert (Hn : is_newer (getmtime w) (get_user_processed_files w) f = false).
    { destruct (is_newer (getmtime w) (get_user_processed_files w) f) eqn:Hn;
        [|reflexivity].
      exfalso. apply (Hnew f). apply new_files_spec. split; [exact Hin | exact Hn]. }
    unfold is_newer in Hn.
    destruct (get_user_processed_files w !! f) as [t|]; [|discriminate].
    destruct (Qlt_le_dec t (getmtime w f)) as [_|Hle]; [discriminate|].
    exists t. split; [reflexivity | exact Hle]. }
  split.
  - apply set_eq. intros f. rewrite elem_of_dom, elem_of_list_to_set. split.
    + apply Hlisted.
    + intros Hin. destruct (Hold f Hin) as [t [Ht _]]. eauto.
  - intros f t Ht. destruct (Hold f) as [t' [Ht' Hle]].
    + apply Hlisted. eauto.
    + rewrite Ht in Ht'. injection Ht' as <-. exact Hle.
Qed.

(** C4 (as the code has it).  A second call on an unchanged file system
    reports no new and no removed file and leaves the ledger as the first
    call wrote it, whatever the first call reported.  The first call
    reports nothing exactly when the ledger it reads is in step with the
    folder, as the ledger is after any call; where the ledger file is
    there and in step, the call changes nothing. *)
Theorem check_new_files_second_call (w : world) :
  check_new_files (check_new_files w).2 = (([], []), (check_new_files w).2) /\
  ((check_new_files w).1 = ([], []) <-> in_step w) /\
  in_step (check_new_files w).2 /\
  ((exists ledger : gmap string Q,
       state_file w = Some ledger /\
       dom ledger = list_to_set (glob_pdf w ++ glob_docx w)%list /\
       (forall f t, ledger !! f = Some t -> (getmtime w f <= t)%Q)) ->
   check_new_files w = (([], []), w)).
Proof.
  assert (Hsync : forall w0 (ledger : gmap string Q),
             state_file w0 = Some ledger ->
             dom ledger = list_to_set (glob_pdf w0 ++ glob_docx w0)%list ->
             (forall f t, ledger !! f = Some t -> (getmtime w0 f <= t)%Q) ->
             check_new_files w0 = (([], []), w0)).
  { intros w0 ledger Hst Hdom Hrec. unfold check_new_files.
    unfold get_user_processed_files. rewrite Hst.
    set (all_files := (glob_pdf w0 ++ glob_docx w0)%list) in *.
    assert (Hnone : filter (fun f => f ∉ all_files) (fst <$> map_to_list ledger) = []).
    { apply elem_of_nil_inv. intros f Hin. apply removed_files_spec in Hin.
      destruct Hin as [Hsome Hnin]. apply Hnin.
      apply (elem_of_list_to_set (C := gset string)). rewrite <- Hdom.
      apply elem_of_dom. exact Hsome. }
    rewrite Hnone. cbn [foldl].
    rewrite scan_stable.
    - unfold save_user_processed_files, set_state_file. rewrite <- Hst.
      destruct w0; reflexivity.
    - intros f Hin.
      assert (Hd : f ∈ dom ledger)
        by (rewrite Hdom; apply elem_of_list_to_set; exact Hin).
      apply elem_of_dom in Hd. destruct Hd as [t Ht].
      exists t. split; [exact Ht|]. eapply Hrec. exact Ht. }
  destruct (check_new_files_in_step w) as [ledger [Hst [Hdom Hrec]]].
  assert (Hsame : forall w1, w1 = (check_new_files w).2 ->
            glob_pdf w1 = glob_pdf w /\ glob_docx w1 = glob_docx w /\
            getmtime w1 = getmtime w).
  { intros w1 ->. unfold check_new_files.
    destruct (foldl _ _ _) as [new l']. simpl. auto. }
  destruct (Hsame _ eq_refl) as [Hp [Hd Hm]].
  split; [|split; [|split]].
  - apply (Hsync _ ledger Hst).
    + rewrite Hp, Hd. exact Hdom.
    + intros f t Ht. rewrite Hm. exact (Hrec f t Ht).
  - split; [apply quiet_is_in_step | apply in_step_is_quiet].
  - unfold in_step, get_user_processed_files. rewrite Hst, Hp, Hd, Hm.
    split; [exact Hdom | exact Hrec].
  - intros [ledger' [Hst' [Hdom' Hrec']]]. eapply Hsync; eassumption.
Qed.

(** C4 as the specification words it fails on the first of the two
    calls whenever the folder has changed since it was last diffed.  A
    folder is diffed, a file is put into it, and the diff is called
    twice with nothing changing on disk: the first call reports the
    file as new, only the second reports nothing. *)
Lemma check_new_files_first_call_reports :
  (check_new_files uploaded_after_diff).1
    = (["user_data/u1/data_files_u1/slides.pdf"], []) /\
  (check_new_files (check_new_files uploaded_after_diff).2).1 = ([], []).
Proof. split; vm_compute; reflexivity. Qed.

(** *** The document pipeline *)

Section PipelineSpec.
Variable get_text_from_file : string -> outcome string.
Variable split_documents : list (string * string) -> list (string * string).
Variable store_truthy : list event -> bool.

(** C6. When the diff reports no new or updated file and the document
    folder still lists a supported file, [store_chroma_function]
    returns the handle it opened on the existing index (the index
    folder exists), after at most the deletions for removed files: the
    log holds no extraction, chunking, embedding or upsert call, and
    the world is as the diff left it. *)
Theorem store_chroma_no_new_files (w : world) :
  (check_new_files w).1.1 = [] ->
  (glob_pdf w ++ glob_docx w)%list <> [] ->
  vectordb_exists w = true ->
  exists log,
    store_chroma_function get_text_from_file split_documents store_truthy w
      = (Ret (Some Chroma), (check_new_files w).2, log) /\
    Forall (fun e => is_ingest_call e = false) log /\
    (log = [OpenStore] \/
     log = (OpenStore :: (DeleteSource <$> (check_new_files w).1.2))).
Proof.
  intros Hnew Hfiles Hdb. unfold store_chroma_function.
  destruct (check_new_files w) as [[new removed] w1] eqn:Hcheck.
  simpl in Hnew. subst new.
  assert (Hw1 : glob_pdf w1 = glob_pdf w /\ glob_docx w1 = glob_docx w /\
                vectordb_exists w1 = vectordb_exists w).
  { assert (Hw : w1 = (check_new_files w).2) by (rewrite Hcheck; reflexivity).
    rewrite Hw. unfold check_new_files.
    destruct (foldl _ _ _) as [new l']. simpl. auto. }
  destruct Hw1 as [Hp [Hd Hv]]. rewrite Hv, Hdb, Hp, Hd.
  rewrite (bool_decide_eq_false_2 _ Hfiles).
  rewrite (bool_decide_eq_true_2 ([] = []) eq_refl).
  simpl.
  destruct (negb (bool_decide (removed = [])) && store_truthy [OpenStore]).
  - eexists. split; [reflexivity|]. split; [|right; reflexivity].
    constructor; [reflexivity|].
    apply Forall_fmap. apply Forall_forall. intros x _. reflexivity.
  - eexists. split; [reflexivity|]. split; [|left; reflexivity].
    constructor; [reflexivity|constructor].
Qed.
End PipelineSpec.

Lemma store_chroma_no_new_files_witness :
  (check_new_files (check_new_files fresh_upload).2).1.1 = [] /\
  exists log,
    store_chroma_function (fun _ => Ret "text") (fun docs => docs) (fun _ => true)
      (check_new_files fresh_upload).2
    = (Ret (Some Chroma),
       (check_new_files (check_new_files fresh_upload).2).2, log) /\
    Forall (fun e => is_ingest_call e = false) log /\
    (log = [OpenStore] \/
     log = (OpenStore ::
              (DeleteSource <$>
                 (check_new_files (check_new_files fresh_upload).2).1.2))).
Proof.
  split; [vm_compute; reflexivity|].
  apply (store_chroma_no_new_files (fun _ => Ret "text") (fun docs => docs)
           (fun _ => true) (check_new_files fresh_upload).2).
  - vm_compute. reflexivity.
  - vm_compute. discriminate.
  - vm_compute. reflexivity.
Defined.

End IngestSpec.

(** ** Strings and paths *)
Module PathSpec.
Import Py Cache.

Lemma append_assoc (a b c : string) : (a ++ b) ++ c = a ++ b ++ c.
Proof.
  induction a as [|x a IH]; [reflexivity|].
  change (String x ((a ++ b) ++ c) = String x (a ++ b ++ c)).
  rewrite IH. reflexivity.
Qed.

Lemma append_empty_r (a : string) : a ++ "" = a.
Proof.
  induction a as [|x a IH]; [reflexivity|].
  change (String x (a ++ "") = String x a). rewrite IH. reflexivity.
Qed.

Lemma char_in_app (c : ascii) (a b : string) :
  char_in c (a ++ b) = char_in c a || char_in c b.
Proof.
  induction a as [|x a IH]; [reflexivity|].
  change (char_in c (String x (a ++ b)) = char_in c (String x a) || char_in c b).
  cbn [char_in]. destruct (Ascii.eqb c x); [reflexivity | exact IH].
Qed.

Lemma append_inj_l (p a b : string) : p ++ a = p ++ b -> a = b.
Proof.
  induction p as [|c p IH]; [auto|].
  change (String c (p ++ a) = String c (p ++ b) -> a = b).
  intros [= H]. exact (IH H).
Qed.

Lemma length_append (a b : string) :
  String.length (a ++ b) = (String.length a + String.length b)%nat.
Proof.
  induction a as [|c a IH]; [reflexivity|].
  change (S (String.length (a ++ b)) = S (String.length a + String.length b)).
  rewrite IH. reflexivity.
Qed.

Lemma append_inj_r (s : string) : forall a b : string, a ++ s = b ++ s -> a = b.
Proof.
  induction a as [|c a IH]; intros [|c' b] H.
  - reflexivity.
  - apply (f_equal String.length) in H.
    change (String.length s = S (String.length (b ++ s))) in H.
    rewrite length_append in H. lia.
  - apply (f_equal String.length) in H.
    change (S (String.length (a ++ s)) = String.length s) in H.
    rewrite length_append in H. lia.
  - change (String c (a ++ s) = String c' (b ++ s)) in H.
    injection H as -> H. f_equal. exact (IH _ H).
Qed.

(** A suffix without ["/"] changes the name of a path, not its
    directory. *)
Lemma dirname_app_plain (suffix : string) :
  char_in "/" suffix = false ->
  forall path, dirname (path ++ suffix) = dirname path.
Proof.
  intros Hplain. induction path as [|c path IH].
  - destruct suffix as [|c suffix]; [reflexivity|].
    change ("" ++ String c suffix) with (String c suffix).
    cbn [dirname]. rewrite Hplain. reflexivity.
  - change (String c path ++ suffix) with (String c (path ++ suffix)).
    cbn [dirname].
    assert (Hin : char_in "/" (String c (path ++ suffix))
                  = char_in "/" (String c path)).
    { cbn [char_in]. rewrite char_in_app, Hplain, orb_false_r. reflexivity. }
    rewrite Hin, IH. reflexivity.
Qed.

Lemma basename_app_plain (suffix : string) :
  char_in "/" suffix = false ->
  forall path, basename (path ++ suffix) = basename path ++ suffix.
Proof.
  intros Hplain. induction path as [|c path IH].
  - destruct suffix as [|c suffix]; [reflexivity|].
    change ("" ++ String c suffix) with (String c suffix).
    cbn [basename]. rewrite Hplain. reflexivity.
  - change (String c path ++ suffix) with (String c (path ++ suffix)).
    cbn [basename].
    assert (Hin : char_in "/" (String c (path ++ suffix))
                  = char_in "/" (String c path)).
    { cbn [char_in]. rewrite char_in_app, Hplain, orb_false_r. reflexivity. }
    rewrite Hin, IH. destruct (char_in "/" (String c path)); reflexivity.
Qed.

(** [os.path.join] looks at the first character of its second
    argument only. *)
Lemma path_join_app (a b c : string) :
  b <> "" -> path_join a (b ++ c) = path_join a b ++ c.
Proof.
  intros Hb. destruct b as [|x b]; [contradiction|].
  unfold path_join.
  change (String x b ++ c) with (String x (b ++ c)).
  assert (Hpre : String.prefix "/" (String x (b ++ c))
                 = String.prefix "/" (String x b)).
  { cbn [String.prefix]. destruct (ascii_dec "/"%char x); [|reflexivity].
    destruct b as [|y b]; [destruct c; reflexivity | reflexivity]. }
  rewrite Hpre. destruct (String.prefix "/" (String x b)); [reflexivity|].
  change (String x (b ++ c)) with (String x b ++ c).
  destruct (String.eqb a "" || endswith a "/").
  - symmetry. apply append_assoc.
  - rewrite !append_assoc. reflexivity.
Qed.

Lemma plain_not_absolute (k suffix : string) :
  char_in "/" k = false -> String.prefix "/" suffix = false ->
  String.prefix "/" (k ++ suffix) = false.
Proof.
  destruct k as [|c k]; [intros _ H; exact H|]. intros Hk _.
  change (String c k ++ suffix) with (String c (k ++ suffix)).
  cbn [char_in] in Hk. cbn [String.prefix].
  destruct (ascii_dec "/"%char c) as [<-|_]; [discriminate|reflexivity].
Qed.

(** The digits of a number hold no ["/"]. *)
Lemma pretty_N_char_plain (x : N) : Ascii.eqb "/" (pretty_N_char x) = false.
Proof.
  destruct x as [|p]; [reflexivity|].
  do 4 (try (destruct p as [p|p|]; try reflexivity)).
Qed.

Lemma pretty_N_go_plain (x : N) :
  forall s, char_in "/" s = false -> char_in "/" (pretty_N_go x s) = false.
Proof.
  induction (N.lt_wf_0 x) as [x _ IH]. intros s Hs.
  destruct (decide (0 < x)%N) as [Hpos|Hzero].
  - rewrite pretty_N_go_step by exact Hpos. apply IH.
    + apply N.div_lt; [exact Hpos|reflexivity].
    + cbn [char_in]. rewrite pretty_N_char_plain. exact Hs.
  - replace x with 0%N by lia. rewrite pretty_N_go_0. exact Hs.
Qed.

Lemma pretty_Z_plain (n : Z) : char_in "/" (pretty n) = false.
Proof.
  assert (Hpos : forall p : positive, char_in "/" (pretty (N.pos p)) = false).
  { intros p. unfold pretty, pretty_N.
    destruct (decide (N.pos p = 0%N)); [reflexivity|].
    apply pretty_N_go_plain. reflexivity. }
  destruct n as [|p|p]; [reflexivity | exact (Hpos p) |].
  change (pretty (Z.neg p)) with ("-" ++ pretty (N.pos p)).
  rewrite char_in_app, Hpos. reflexivity.
Qed.

Section Locate.
Variable fs : filesystem.
Variable cache_dir : string.

(** The cache file of an id with a suffix without ["/"] lies in the
    directory of the cache file of the id. *)
Lemma cache_path_sibling (cache_id suffix : string) :
  cache_id <> "" -> char_in "/" suffix = false ->
  dirname (_get_cache_path cache_dir (cache_id ++ suffix))
  = dirname (_get_cache_path cache_dir cache_id) /\
  basename (_get_cache_path cache_dir (cache_id ++ suffix))
  = basename (path_join cache_dir cache_id) ++ suffix ++ ".json".
Proof.
  intros Hne Hplain. unfold _get_cache_path.
  rewrite append_assoc, !path_join_app by exact Hne.
  assert (Hs : char_in "/" (suffix ++ ".json") = false)
    by (rewrite char_in_app, Hplain; reflexivity).
  rewrite (dirname_app_plain _ Hs), (basename_app_plain _ Hs).
  rewrite (dirname_app_plain ".json" eq_refl). split; reflexivity.
Qed.

(** The cache file of an id without ["/"] lies in the cache folder
    under the name [cache_id.json]. *)
Lemma cache_path_plain (cache_id : string) :
  char_in "/" cache_id = false ->
  dirname (_get_cache_path cache_dir cache_id) = dirname (path_join cache_dir "") /\
  basename (_get_cache_path cache_dir cache_id)
  = basename (path_join cache_dir "") ++ cache_id ++ ".json".
Proof.
  intros Hplain.
  assert (Hs : char_in "/" (cache_id ++ ".json") = false)
    by (rewrite char_in_app, Hplain; reflexivity).
  assert (Hrel : String.prefix "/" (cache_id ++ ".json") = false)
    by (apply plain_not_absolute; [exact Hplain | reflexivity]).
  assert (Hjoin : _get_cache_path cache_dir cache_id
                  = path_join cache_dir "" ++ cache_id ++ ".json").
  { unfold _get_cache_path, path_join. rewrite Hrel.
    change (String.prefix "/" "") with false.
    destruct (String.eqb cache_dir "" || endswith cache_dir "/").
    - rewrite append_empty_r. reflexivity.
    - rewrite !append_assoc. reflexivity. }
  rewrite Hjoin, (dirname_app_plain _ Hs), (basename_app_plain _ Hs).
  split; reflexivity.
Qed.

(** Where the cache file of an id can be located, so can the cache
    file of the id with a suffix without ["/"]. *)
Lemma sibling_is_located (cache_id suffix : string) :
  cache_id <> "" -> char_in "/" suffix = false ->
  accepts fs (_get_cache_path cache_dir (cache_id ++ suffix)) = true ->
  is_Some (locate fs (_get_cache_path cache_dir cache_id)) ->
  is_Some (locate fs (_get_cache_path cache_dir (cache_id ++ suffix))).
Proof.
  intros Hne Hplain Hok. unfold locate. rewrite Hok.
  destruct (cache_path_sibling cache_id suffix Hne Hplain) as [-> _].
  destruct (accepts fs (_get_cache_path cache_dir cache_id));
    [|intros [file Hfile]; discriminate].
  destruct (resolve_dir fs (dirname (_get_cache_path cache_dir cache_id)));
    [eauto | intros [file Hfile]; discriminate].
Qed.

Lemma locate_plain (cache_id : string) :
  char_in "/" cache_id = false ->
  locate fs (_get_cache_path cache_dir cache_id)
  = if accepts fs (_get_cache_path cache_dir cache_id) then
      match resolve_dir fs (dirname (path_join cache_dir "")) with
      | Some directory =>
          Some (directory ++ "/" ++ basename (path_join cache_dir "")
                ++ cache_id ++ ".json")
      | None => None
      end
    else None.
Proof.
  intros Hplain. unfold locate.
  destruct (cache_path_plain cache_id Hplain) as [-> ->]. reflexivity.
Qed.
End Locate.

End PathSpec.

Module CacheSpec.
Import Py Cache Terms PathSpec.

Section CacheManagerSpec.
Variable fs : filesystem.
Variable cache_dir : string.

Lemma get_fresh (files : store) (now t0 : Q) (data : json) (cache_id : string) :
  file_at fs files (_get_cache_path cache_dir cache_id)
    = Some (JObj [("timestamp", JNum t0); ("data", data)]) ->
  (now - t0 <= CACHE_TIMEOUT)%Q ->
  get_from_cache fs cache_dir files now cache_id = (Ret data, files).
Proof.
  unfold file_at, get_from_cache. intros Hfile Hage.
  destruct (locate fs (_get_cache_path cache_dir cache_id)) as [file|];
    [|discriminate].
  rewrite Hfile. simpl.
  destruct (Qlt_le_dec CACHE_TIMEOUT (now - t0)) as [Hlt|_]; [|reflexivity].
  exfalso. exact (Qlt_not_le _ _ Hlt Hage).
Qed.

Lemma get_expired (files : store) (now t0 : Q) (data : json)
    (cache_id file : string) :
  locate fs (_get_cache_path cache_dir cache_id) = Some file ->
  files !! file = Some (JObj [("timestamp", JNum t0); ("data", data)]) ->
  (CACHE_TIMEOUT < now - t0)%Q ->
  get_from_cache fs cache_dir files now cache_id
    = (Ret JNull, delete file files).
Proof.
  intros Hloc Hfile Hage. unfold get_from_cache. rewrite Hloc, Hfile. simpl.
  destruct (Qlt_le_dec CACHE_TIMEOUT (now - t0)) as [_|Hle]; [reflexivity|].
  exfalso. exact (Qlt_not_le _ _ Hage Hle).
Qed.

Lemma get_absent (files : store) (now : Q) (cache_id : string) :
  file_at fs files (_get_cache_path cache_dir cache_id) = None ->
  get_from_cache fs cache_dir files now cache_id = (Ret JNull, files).
Proof.
  unfold file_at, get_from_cache. intros Hfile.
  destruct (locate fs (_get_cache_path cache_dir cache_id)) as [file|];
    [|reflexivity].
  rewrite Hfile. reflexivity.
Qed.

(** The write succeeds exactly when the directory of the cache file
    exists. *)
Lemma save_located (files : store) (now : Q) (data : json)
    (cache_id file : string) :
  locate fs (_get_cache_path cache_dir cache_id) = Some file ->
  save_to_cache fs cache_dir files now data cache_id
  = (Ret tt, <[file := JObj [("timestamp", JNum now); ("data", data)]]> files).
Proof. intros Hloc. unfold save_to_cache. rewrite Hloc. reflexivity. Qed.

Lemma save_unlocated (files : store) (now : Q) (data : json)
    (cache_id : string) :
  locate fs (_get_cache_path cache_dir cache_id) = None ->
  save_to_cache fs cache_dir files now data cache_id = (Raise, files).
Proof. intros Hloc. unfold save_to_cache. rewrite Hloc. reflexivity. Qed.

Lemma file_at_located (files : store) (path file : string) :
  locate fs path = Some file ->
  file_at fs files path = files !! file.
Proof. intros Hloc. unfold file_at. rewrite Hloc. reflexivity. Qed.

Lemma file_at_unlocated (files : store) (path : string) :
  locate fs path = None -> file_at fs files path = None.
Proof. intros Hloc. unfold file_at. rewrite Hloc. reflexivity. Qed.
End CacheManagerSpec.




(** C3. [get_from_cache] returns [None] when the key has no file, and
    when the entry is older than the timeout; the read of an entry written
    at [t0], at any time past [t0 + CACHE_TIMEOUT], returns [None] and
    removes the entry's file, leaving the other files as they were. *)
Theorem cache_miss (fs : filesystem)
    (cache_dir : string) (files : store)
    (cache_id : string) (data : json) (t0 now : Q) :
  (CACHE_TIMEOUT < now - t0)%Q ->
  (forall absent : store,
     file_at fs absent (_get_cache_path cache_dir cache_id) = None ->
     get_from_cache fs cache_dir absent now cache_id
     = (Ret JNull, absent)) /\
  (forall file : string,
     locate fs (_get_cache_path cache_dir cache_id) = Some file ->
     get_from_cache fs cache_dir (delete file files) now cache_id
       = (Ret JNull, delete file files) /\
     get_from_cache fs cache_dir
         (save_to_cache fs cache_dir files t0 data cache_id).2
         now cache_id
       = (Ret JNull, delete file files) /\
     delete file files !! file = None /\
     (forall eps : Q, (0 < eps)%Q ->
        get_from_cache fs cache_dir
          (save_to_cache fs cache_dir files t0 data cache_id).2
          (t0 + CACHE_TIMEOUT + eps) cache_id
        = (Ret JNull, delete file files))).
Proof.
  intros Hage. split.
  - intros absent Habs. apply get_absent. exact Habs.
  - intros file Hloc.
    assert (Hexp : forall t, (CACHE_TIMEOUT < t - t0)%Q ->
              get_from_cache fs cache_dir
                (save_to_cache fs cache_dir files t0 data cache_id).2
                t cache_id
              = (Ret JNull, delete file files)).
    { intros t Ht.
      rewrite (save_located fs cache_dir files t0 data cache_id file Hloc).
      cbn [snd].
      rewrite (get_expired fs cache_dir _ t t0 data cache_id file Hloc).
      - rewrite delete_insert_eq. reflexivity.
      - apply lookup_insert_eq.
      - exact Ht. }
    split; [|split; [|split]].
    + apply get_absent. rewrite (file_at_located fs _ _ file Hloc).
      apply lookup_delete_eq.
    + apply Hexp. exact Hage.
    + apply lookup_delete_eq.
    + intros eps Heps. apply Hexp. unfold CACHE_TIMEOUT. lra.
Qed.

Lemma cache_miss_witness :
  (CACHE_TIMEOUT < 1700003601 - 1700000000)%Q /\
  get_from_cache only_cache_folder "cache"
    (saved ∅ 1700000000 (JStr "transcript") "yt_u1_abc")
    1700003601 "yt_u1_abc"
  = (Ret JNull, delete "cache/yt_u1_abc.json" ∅).
Proof.
  split; [vm_compute; reflexivity|].
  refine (proj1 (proj2 (proj2 (cache_miss only_cache_folder "cache" ∅ "yt_u1_abc"
                   (JStr "transcript") 1700000000 1700003601 _)
                   "cache/yt_u1_abc.json" eq_refl))).
  vm_compute. reflexivity.
Defined.

End CacheSpec.

Module QuizSpec.
Import Py Chunks Quiz Terms.

Lemma slice_to_length {A} (l : list A) (n : Z) :
  (0 <= n)%Z -> (Z.of_nat (length (slice_to l n)) <= n)%Z.
Proof.
  intros Hn. unfold slice_to.
  destruct (Z.ltb_spec n 0) as [Hneg|_]; [lia|].
  rewrite length_take. lia.
Qed.

Lemma chars_of_list_length (l : list ascii) :
  length (chars (string_of_list_ascii l)) = length l.
Proof. induction l as [|c l IH]; simpl; [reflexivity | rewrite IH; reflexivity]. Qed.

(** A truncated answer can be iterated, and yields at most [n] items. *)
Lemma truncate_items (n : Z) (questions v : json) :
  truncate n questions = Ret v ->
  exists items, iter_items v = Ret items /\
                ((0 <= n)%Z -> (Z.of_nat (length items) <= n)%Z).
Proof.
  destruct questions as [| | |s|qs|]; simpl; intros H; try discriminate;
    injection H as <-; simpl; eexists; (split; [reflexivity|]); intros Hn.
  - rewrite length_fmap. unfold str_slice_to. rewrite chars_of_list_length.
    apply slice_to_length. exact Hn.
  - apply slice_to_length. exact Hn.
Qed.

Section GeneratorSpec.
Variable tfidf_cosine : list string -> option (list (list Q)).
Variable transcript_prompt : string -> string.
Variable generate_content : string -> outcome string.
Variable json_loads : string -> option json.

Local Abbreviation from_batch :=
  (generate_quiz_from_batch transcript_prompt generate_content json_loads).
Local Abbreviation loop :=
  (quiz_loop transcript_prompt generate_content json_loads).
Local Abbreviation added :=
  (contribution transcript_prompt generate_content json_loads).
Local Abbreviation raw_of :=
  (raw_questions transcript_prompt generate_content json_loads).
Local Abbreviation fails :=
  (quiz_parse_fails transcript_prompt generate_content json_loads).

Lemma from_batch_ext (batch : string) (p p' : params) :
  num_questions p = num_questions p' -> difficulty p = difficulty p' ->
  from_batch batch p = from_batch batch p'.
Proof.
  intros Hn Hd. unfold generate_quiz_from_batch. rewrite Hn, Hd. reflexivity.
Qed.

Lemma from_batch_items (batch : string) (p : params) :
  num_questions p <> 0%Z ->
  exists items, iter_items (from_batch batch p) = Ret items /\
                ((0 <= num_questions p)%Z ->
                 (Z.of_nat (length items) <= num_questions p)%Z).
Proof.
  intros Hn. unfold generate_quiz_from_batch.
  assert (Hnil : exists items : list json,
             iter_items (JArr []) = Ret items /\
             ((0 <= num_questions p)%Z ->
              (Z.of_nat (length items) <= num_questions p)%Z)).
  { exists []. split; [reflexivity|]. simpl. lia. }
  destruct (generate_content _) as [text|]; [|exact Hnil].
  destruct (json_loads _) as [questions|]; [|exact Hnil].
  destruct (Z.eqb_spec (num_questions p) 0) as [|_]; [contradiction|].
  cbn [negb].
  destruct (if negb (String.eqb (difficulty p) "")
               && negb (String.eqb (difficulty p) "mixed")
            then filter_difficulty (difficulty p) questions
            else Ret questions) as [filtered|]; [|exact Hnil].
  cbn [bind].
  destruct (truncate (num_questions p) filtered) as [v|] eqn:Ht; [|exact Hnil].
  exact (truncate_items _ _ _ Ht).
Qed.

Lemma from_batch_parse_fails (batch : string) (p : params) :
  fails batch -> from_batch batch p = JArr [].
Proof.
  intros [text [Hgen Hparse]]. unfold generate_quiz_from_batch.
  rewrite Hgen, Hparse. reflexivity.
Qed.

Lemma slice_to_nil {A} (n : Z) : slice_to ([] : list A) n = [].
Proof. unfold slice_to. destruct (n <? 0)%Z; apply take_nil. Qed.

(** A batch whose answer is a list adds the first [num_questions] of
    the questions the difficulty filter lets through. *)
Lemma from_batch_kept (batch : string) (p : params) (qs : list json) :
  raw_of batch = Some qs ->
  num_questions p <> 0%Z ->
  from_batch batch p = JArr (slice_to (kept (difficulty p) qs) (num_questions p)).
Proof.
  unfold raw_questions, generate_quiz_from_batch, kept. intros Hraw Hn.
  destruct (generate_content _) as [text|]; [|discriminate].
  destruct (json_loads _) as [[| | | |l|]|]; try discriminate.
  injection Hraw as ->.
  destruct (Z.eqb_spec (num_questions p) 0) as [|_]; [contradiction|].
  cbn [negb].
  destruct (negb (String.eqb (difficulty p) "")
            && negb (String.eqb (difficulty p) "mixed")); [|reflexivity].
  cbn [filter_difficulty].
  destruct (for_each (keep_if_difficulty (difficulty p)) qs []) as [questions|];
    cbn [bind truncate]; [reflexivity|].
  rewrite slice_to_nil. reflexivity.
Qed.

Variable questions_needed : Z.

Lemma loop_enough (p : params) (batches : list string) all calls :
  (questions_needed <= Z.of_nat (length all))%Z ->
  loop p questions_needed batches all calls = (Ret all, calls).
Proof.
  intros Hen. destruct batches as [|b bs]; [reflexivity|]. simpl.
  destruct (Z.leb_spec questions_needed (Z.of_nat (length all))); [reflexivity|lia].
Qed.

(** The loop never raises; it calls a prefix of the batches, each with
    [min(remaining, 5)], and stops early only with enough questions. *)
Lemma loop_spec (batches : list string) :
  forall (p : params) (all : list json) (calls : list (string * Z)),
  exists more : list (string * Z),
    loop p questions_needed batches all calls
      = (Ret (all ++ concat (added p <$> more))%list,
         (calls ++ more)%list) /\
    more.*1 = take (length more) batches /\
    (forall k b n, more !! k = Some (b, n) ->
       let before := (all ++ concat (added p <$> take k more))%list in
       n = Z.min (questions_needed - Z.of_nat (length before)) 5 /\
       (1 <= n)%Z /\
       (Z.of_nat (length (added p (b, n))) <= n)%Z) /\
    ((length more < length batches)%nat ->
     (questions_needed
      <= Z.of_nat (length (all ++ concat (added p <$> more))%list))%Z).
Proof.
  induction batches as [|batch rest IH]; intros p all calls.
  - exists []. simpl. rewrite !app_nil_r.
    split; [reflexivity|]. split; [reflexivity|].
    split; [intros k b n Hk; discriminate | intros Hlt; simpl in Hlt; lia].
  - cbn [quiz_loop].
    destruct (Z.leb_spec questions_needed (Z.of_nat (length all))) as [Hen|Hless].
    + exists []. simpl. rewrite !app_nil_r.
      split; [reflexivity|]. split; [reflexivity|].
      split; [intros k b n Hk; discriminate | intros _; exact Hen].
    + set (n0 := Z.min (questions_needed - Z.of_nat (length all)) 5).
      assert (Hn0 : (1 <= n0)%Z) by (unfold n0; lia).
      destruct (from_batch_items batch (set_num_questions p n0))
        as [items [Hit Hlen]]; [simpl; lia|].
      cbn [num_questions set_num_questions]. fold n0.
      rewrite Hit.
      destruct (IH (set_num_questions p n0) (all ++ items)%list
                   (calls ++ [(batch, n0)])%list)
        as [more [Hrun [Hpre [Hcalls Hstop]]]].
      assert (Hc : forall c, added (set_num_questions p n0) c
                             = added p c) by reflexivity.
      assert (Hcs : forall l : list (string * Z),
                 added (set_num_questions p n0) <$> l
                 = added p <$> l).
      { intros l. apply list_fmap_ext. intros _ c _. apply Hc. }
      assert (Hfirst : added p (batch, n0) = items).
      { unfold contribution. simpl. rewrite Hit. reflexivity. }
      exists ((batch, n0) :: more).
      split; [|split; [|split]].
      * rewrite Hrun, Hcs. rewrite fmap_cons. cbn [concat].
        rewrite Hfirst, <- !app_assoc. reflexivity.
      * simpl. rewrite Hpre at 1. reflexivity.
      * intros k b n Hk. destruct k as [|k]; simpl in Hk.
        -- injection Hk as <- <-. cbn zeta. simpl. rewrite app_nil_r.
           split; [reflexivity|]. split; [exact Hn0|].
           rewrite Hfirst. apply Hlen. simpl. lia.
        -- specialize (Hcalls k b n Hk). cbn zeta in Hcalls |- *.
           rewrite Hcs, Hc in Hcalls.
           cbn [take fmap list_fmap concat]. rewrite Hfirst.
           rewrite <- app_assoc in Hcalls. exact Hcalls.
      * intros Hlt. rewrite fmap_cons. cbn [concat]. rewrite Hfirst.
        rewrite Hcs, <- app_assoc in Hstop. apply Hstop.
        simpl in Hlt. lia.
Qed.

(** The questions returned do not depend on the calls recorded so far,
    nor on the [num_questions] the loop is entered with. *)
Lemma loop_result_ext (batches : list string) :
  forall (p p' : params) all calls calls',
    difficulty p = difficulty p' ->
    (loop p questions_needed batches all calls).1
    = (loop p' questions_needed batches all calls').1.
Proof.
  induction batches as [|batch rest IH]; intros p p' all calls calls' Hd;
    [reflexivity|].
  cbn [quiz_loop].
  destruct (Z.leb_spec questions_needed (Z.of_nat (length all))); [reflexivity|].
  cbn [num_questions set_num_questions].
  set (n0 := Z.min (questions_needed - Z.of_nat (length all)) 5).
  rewrite (from_batch_ext batch (set_num_questions p n0) (set_num_questions p' n0))
    by (simpl; auto).
  destruct (iter_items _) as [items|]; [|reflexivity].
  apply IH. simpl. exact Hd.
Qed.

(** A batch whose answer does not parse adds nothing: the questions are
    those of the run without that batch. *)
Lemma loop_skips_failed (before : list string) (batch : string)
    (after : list string) :
  fails batch ->
  forall (p : params) all calls,
    (loop p questions_needed (before ++ batch :: after) all calls).1
    = (loop p questions_needed (before ++ after) all calls).1.
Proof.
  intros Hfail. induction before as [|b before IH]; intros p all calls.
  - cbn [app quiz_loop].
    destruct (Z.leb_spec questions_needed (Z.of_nat (length all))) as [Hen|Hless].
    + rewrite loop_enough by exact Hen. reflexivity.
    + rewrite (from_batch_parse_fails batch _ Hfail). cbn [iter_items].
      rewrite app_nil_r. apply loop_result_ext. reflexivity.
  - cbn [app quiz_loop].
    destruct (Z.leb_spec questions_needed (Z.of_nat (length all))); [reflexivity|].
    destruct (iter_items _) as [items|]; [|reflexivity].
    apply IH.
Qed.

(** With at most five questions asked for, the loop collects the first
    [questions_needed] of the questions the difficulty filter lets
    through, the batches' answers laid end to end. *)
Lemma loop_kept_prefix (batches : list string) (raws : list (list json)) :
  Forall2 (fun b raw => raw_of b = Some raw) batches raws ->
  (0 <= questions_needed <= 5)%Z ->
  forall (p : params) all calls,
    (length all <= Z.to_nat questions_needed)%nat ->
    exists final,
      (loop p questions_needed batches all calls).1 = Ret final /\
      slice_to final questions_needed
      = take (Z.to_nat questions_needed)
          (all ++ concat (kept (difficulty p) <$> raws))%list.
Proof.
  intros Hraws Hneed. induction Hraws as [|b raw batches raws Hb _ IH];
    intros p all calls Hall.
  - exists all. split; [reflexivity|]. simpl. rewrite app_nil_r.
    unfold slice_to. destruct (Z.ltb_spec questions_needed 0); [lia|reflexivity].
  - cbn [quiz_loop].
    destruct (Z.leb_spec questions_needed (Z.of_nat (length all))) as [Hen|Hless].
    + exists all. split; [reflexivity|].
      unfold slice_to. destruct (Z.ltb_spec questions_needed 0); [lia|].
      rewrite take_app_le by lia. reflexivity.
    + cbn [num_questions set_num_questions].
      set (n0 := Z.min (questions_needed - Z.of_nat (length all)) 5).
      assert (Hn0 : n0 = (questions_needed - Z.of_nat (length all))%Z)
        by (unfold n0; lia).
      rewrite (from_batch_kept b _ raw Hb) by (simpl; lia).
      cbn [iter_items num_questions difficulty set_num_questions].
      set (sel := kept (difficulty p) raw).
      destruct (IH (set_num_questions p n0)
                   (all ++ slice_to sel n0)%list
                   (calls ++ [(b, n0)])%list) as [final [Hrun Hfinal]].
      { rewrite length_app.
        pose proof (slice_to_length sel n0 ltac:(lia)). lia. }
      exists final. split; [exact Hrun|]. rewrite Hfinal.
      cbn [difficulty set_num_questions].
      rewrite fmap_cons. cbn [concat]. fold sel. rewrite <- !app_assoc.
      rewrite !(take_app all). f_equal.
      set (k := (Z.to_nat questions_needed - length all)%nat).
      assert (Hs : slice_to sel n0 = take k sel).
      { unfold slice_to. destruct (Z.ltb_spec n0 0); [lia|].
        f_equal. unfold k. lia. }
      rewrite Hs.
      rewrite !(take_app _ (concat (kept (difficulty p) <$> raws))),
        take_take, Nat.min_id.
      f_equal. rewrite length_take.
      destruct (Nat.le_gt_cases k (length sel)) as [Hle|Hgt].
      * replace (k - k `min` length sel)%nat with 0%nat by lia.
        replace (k - length sel)%nat with 0%nat by lia. reflexivity.
      * f_equal. lia.
Qed.

(** Without a difficulty filter every question is let through. *)
Lemma kept_unfiltered (d : string) (raws : list (list json)) :
  d = "mixed" \/ d = "" -> kept d <$> raws = raws.
Proof.
  intros Hd. rewrite <- (list_fmap_id raws) at 2.
  apply list_fmap_ext. intros _ raw _. unfold kept.
  destruct Hd as [-> | ->]; reflexivity.
Qed.
End GeneratorSpec.

(** C5 (as the code has it).  [generate_quiz] never raises once the
    chunks are deduplicated and batched.  It calls the batch generator on
    a prefix of the batches, in order; each call is made while fewer than
    [num_questions] questions are held, is given [min(remaining, 5)] as
    its own [num_questions] and adds at most that many; a batch is left
    out only when enough questions are held; at most [num_questions]
    questions are returned.  With [num_questions = 3] and batches whose
    answers hold 10 questions together, the first 3 of the questions that
    the difficulty filter lets through are returned: exactly the first 3
    of the ten when no filter is set, and fewer than 3 when fewer than 3
    pass the filter. *)
Theorem generate_quiz_batches
    (tfidf_cosine : list string -> option (list (list Q)))
    (transcript_prompt : string -> string)
    (generate_content : string -> outcome string)
    (json_loads : string -> option json)
    (text_chunks : list string) (p : params)
    (unique_chunks batched_chunks : list string) :
  deduplicate_chunks tfidf_cosine text_chunks (similarity_threshold p)
    = Some unique_chunks ->
  batch_chunks unique_chunks (batch_size p) = Some batched_chunks ->
  exists (calls : list (string * Z)) (all_questions : list json),
    let added := contribution transcript_prompt generate_content json_loads p in
    generate_quiz tfidf_cosine transcript_prompt generate_content json_loads
        text_chunks p
      = (Ret (slice_to all_questions (num_questions p)), calls) /\
    all_questions = concat (added <$> calls) /\
    calls.*1 = take (length calls) batched_chunks /\
    (forall k b n, calls !! k = Some (b, n) ->
       let held := Z.of_nat (length (concat (added <$> take k calls))) in
       (held < num_questions p)%Z /\
       n = Z.min (num_questions p - held) 5 /\
       (Z.of_nat (length (added (b, n))) <= n)%Z) /\
    ((length calls < length batched_chunks)%nat ->
     (num_questions p <= Z.of_nat (length all_questions))%Z) /\
    ((0 <= num_questions p)%Z ->
     (Z.of_nat (length (slice_to all_questions (num_questions p)))
      <= num_questions p)%Z) /\
    (forall raws : list (list json),
       Forall2 (fun b raw =>
                  raw_questions transcript_prompt generate_content json_loads b
                  = Some raw) batched_chunks raws ->
       num_questions p = 3%Z ->
       length (concat raws) = 10%nat ->
       let passing := concat (kept (difficulty p) <$> raws) in
       slice_to all_questions 3 = take 3 passing /\
       length (slice_to all_questions 3) = (3 `min` length passing)%nat /\
       (difficulty p = "mixed" \/ difficulty p = "" ->
        slice_to all_questions 3 = take 3 (concat raws) /\
        length (slice_to all_questions 3) = 3%nat)).
Proof.
  intros Hdedup Hbatch.
  destruct (loop_spec transcript_prompt generate_content json_loads
              (num_questions p) batched_chunks p [] [])
    as [calls [Hrun [Hpre [Hcalls Hstop]]]].
  simpl in Hrun, Hcalls, Hstop.
  exists calls, (concat (contribution transcript_prompt generate_content
                           json_loads p <$> calls)).
  cbn zeta. split; [|split; [|split; [|split; [|split; [|split]]]]].
  - unfold generate_quiz. rewrite Hdedup, Hbatch, Hrun. reflexivity.
  - reflexivity.
  - exact Hpre.
  - intros k b n Hk. destruct (Hcalls k b n Hk) as [Hn [Hone Hlen]].
    split; [lia|]. split; [exact Hn | exact Hlen].
  - exact Hstop.
  - apply slice_to_length.
  - intros raws Hraws Hthree Hten.
    destruct (loop_kept_prefix transcript_prompt generate_content json_loads
                (num_questions p) batched_chunks raws Hraws ltac:(lia)
                p [] [] ltac:(simpl; lia)) as [final [Hfin Hslice]].
    rewrite Hrun in Hfin. simpl in Hfin. injection Hfin as <-.
    rewrite Hthree in Hslice. simpl in Hslice.
    split; [exact Hslice|]. split.
    + rewrite Hslice, length_take. reflexivity.
    + intros Hd. rewrite Hslice, (kept_unfiltered _ raws Hd).
      split; [reflexivity|]. rewrite length_take. lia.
Qed.

Example generate_quiz_three_of_ten :
  generate_quiz two_by_five_tfidf (fun batch => batch)
    (fun _ => Ret "[...]") (fun _ => Some (JArr five_questions))
    ["alpha one"; "beta two"] three_of_ten
  = (Ret (take 3 five_questions), [("alpha one", 3%Z)]).
Proof. vm_compute. reflexivity. Qed.

Lemma generate_quiz_batches_witness :
  exists (calls : list (string * Z)) (all_questions : list json),
    generate_quiz two_by_five_tfidf (fun batch => batch)
      (fun _ => Ret "[...]") (fun _ => Some (JArr five_questions))
      ["alpha one"; "beta two"] three_of_ten
    = (Ret (slice_to all_questions 3), calls) /\
    calls.*1 = take (length calls) ["alpha one"; "beta two"] /\
    slice_to all_questions 3 = take 3 (five_questions ++ five_questions)%list.
Proof.
  destruct (generate_quiz_batches two_by_five_tfidf (fun batch => batch)
              (fun _ => Ret "[...]") (fun _ => Some (JArr five_questions))
              ["alpha one"; "beta two"] three_of_ten
              ["alpha one"; "beta two"] ["alpha one"; "beta two"]
              eq_refl eq_refl)
    as [calls [all_questions [Hrun [_ [Hpre [_ [_ [_ Hthree]]]]]]]].
  exists calls, all_questions. split; [exact Hrun|]. split; [exact Hpre|].
  refine (proj1 (Hthree [five_questions; five_questions] _ eq_refl eq_refl)).
  repeat constructor.
Defined.

(** C5 as the specification words it fails when a difficulty is asked
    for: the filter runs on each batch before the questions are counted.
    Two batches answer with five easy questions each, ten together; a
    request for 3 hard questions calls both batches and returns no
    question at all. *)
Lemma generate_quiz_three_hard_of_ten :
  generate_quiz two_by_five_tfidf (fun batch => batch)
    (fun _ => Ret "[...]") (fun _ => Some (JArr five_questions))
    ["alpha one"; "beta two"] three_hard_of_ten
  = (Ret [], [("alpha one", 3%Z); ("beta two", 3%Z)]).
Proof. vm_compute. reflexivity. Qed.

End QuizSpec.

Module NotesSpec.
Import Py Chunks Notes Terms.

Lemma for_each_app {A S} (step : S -> A -> outcome S) (xs ys : list A) :
  forall acc,
    for_each step (xs ++ ys)%list acc
    = bind (for_each step xs acc) (for_each step ys).
Proof.
  induction xs as [|x xs IH]; intros acc; [reflexivity|].
  simpl. destruct (step acc x) as [acc'|]; [apply IH | reflexivity].
Qed.

Section GeneratorSpec.
Variable notes_prompt : string -> string.
Variable generate_content : string -> outcome string.
Variable clean_json_response : string -> string.
Variable json_loads : string -> option json.

Local Abbreviation from_batch :=
  (generate_notes_from_batch notes_prompt generate_content
     clean_json_response json_loads).
Local Abbreviation batches_notes :=
  (notes_of_batches notes_prompt generate_content clean_json_response json_loads).
Local Abbreviation fails :=
  (notes_parse_fails notes_prompt generate_content clean_json_response json_loads).

Lemma notes_batch_parse_fails (batch : string) (idx total : nat) :
  fails batch -> from_batch batch idx total = EMPTY_NOTES.
Proof.
  intros [text [Hgen Hparse]]. unfold generate_notes_from_batch.
  rewrite Hgen, Hparse. reflexivity.
Qed.

Lemma batches_notes_map (batches : list string) :
  batches_notes batches = (fun b => from_batch b 0 0) <$> batches.
Proof. unfold notes_of_batches. apply (imap_const (fun b => from_batch b 0 0)). Qed.

(** What a batch returns can always be merged. *)
Lemma merge_step_returns (sections : list json) (batch : string) :
  exists sections',
    merge_step sections (from_batch batch 0 0) = Ret sections'.
Proof.
  unfold merge_step, generate_notes_from_batch.
  assert (Hempty : exists sections',
             match dict_get "sections" EMPTY_NOTES with
             | Some v => bind (iter_items v)
                           (fun items => Ret (sections ++ items)%list)
             | None => Ret sections
             end = Ret sections').
  { simpl. eauto. }
  destruct (generate_content _) as [text|]; [|exact Hempty].
  destruct (json_loads _) as [[| | | | |notes_data]|]; try exact Hempty.
  destruct (dict_get "sections" notes_data) as [v|] eqn:Hv.
  - destruct (has_len v) eqn:Hlen; [|exact Hempty].
    rewrite Hv. destruct v; try discriminate; simpl; eauto.
  - rewrite Hv. eauto.
Qed.

Lemma merge_all_returns (batches : list string) :
  forall sections,
    exists sections',
      for_each merge_step ((fun b => from_batch b 0 0) <$> batches) sections
      = Ret sections'.
Proof.
  induction batches as [|b batches IH]; intros sections; simpl; [eauto|].
  destruct (merge_step_returns sections b) as [s1 ->]. simpl. apply IH.
Qed.

Lemma merge_skips_failed (before : list string) (batch : string)
    (after : list string) :
  fails batch ->
  merge_notes (batches_notes (before ++ batch :: after)%list)
  = merge_notes (batches_notes (before ++ after)%list).
Proof.
  intros Hfail. unfold merge_notes. rewrite !batches_notes_map.
  rewrite !fmap_app, fmap_cons, !for_each_app.
  destruct (for_each merge_step _ []) as [sections|]; [|reflexivity].
  cbn [bind for_each].
  rewrite (notes_batch_parse_fails batch 0 0 Hfail).
  unfold merge_step at 1. simpl. rewrite app_nil_r. reflexivity.
Qed.
End GeneratorSpec.

(** C8. A batch whose answer does not parse as JSON counts as an empty
    batch and the generation goes on.  Quiz: the batch yields [[]], the
    loop over all batches returns (it never raises), and its questions
    are those of the same run without the failed batch.  Notes: the batch
    yields [{"sections": []}], the merge over all batches returns, and
    the merged document is that of the other batches alone. *)
Theorem failed_batch_counts_as_empty
    (transcript_prompt notes_prompt : string -> string)
    (generate_content : string -> outcome string)
    (clean_json_response : string -> string)
    (json_loads : string -> option json)
    (before : list string) (batch : string) (after : list string) :
  (quiz_parse_fails transcript_prompt generate_content json_loads batch ->
   (forall p,
      Quiz.generate_quiz_from_batch transcript_prompt generate_content
        json_loads batch p = JArr []) /\
   (forall p needed,
      exists all_questions,
        (Quiz.quiz_loop transcript_prompt generate_content json_loads
           p needed (before ++ batch :: after)%list [] []).1
          = Ret all_questions /\
        (Quiz.quiz_loop transcript_prompt generate_content json_loads
           p needed (before ++ after)%list [] []).1
          = Ret all_questions)) /\
  (notes_parse_fails notes_prompt generate_content clean_json_response json_loads batch ->
   (forall idx total,
      generate_notes_from_batch notes_prompt generate_content
        clean_json_response json_loads batch idx total = EMPTY_NOTES) /\
   (exists notes,
      merge_notes (notes_of_batches notes_prompt generate_content
                     clean_json_response json_loads
                     (before ++ batch :: after)%list) = Ret notes /\
      merge_notes (notes_of_batches notes_prompt generate_content
                     clean_json_response json_loads
                     (before ++ after)%list) = Ret notes)).
Proof.
  split.
  - intros Hfail. split.
    + intros p. apply QuizSpec.from_batch_parse_fails. exact Hfail.
    + intros p needed.
      destruct (QuizSpec.loop_spec transcript_prompt generate_content json_loads
                  needed (before ++ after)%list p [] [])
        as [more [Hrun _]].
      eexists. split.
      * rewrite (QuizSpec.loop_skips_failed _ _ _ needed before batch after Hfail).
        rewrite Hrun. reflexivity.
      * rewrite Hrun. reflexivity.
  - intros Hfail. split.
    + intros idx total. apply notes_batch_parse_fails. exact Hfail.
    + rewrite (merge_skips_failed _ _ _ _ before batch after Hfail).
      unfold merge_notes. rewrite batches_notes_map.
      destruct (merge_all_returns notes_prompt generate_content
                  clean_json_response json_loads (before ++ after)%list [])
        as [sections ->].
      eexists. split; reflexivity.
Qed.

Example quiz_goes_on_after_bad_batch :
  Quiz.quiz_loop (fun b => b) garbled_on_bad loads_ok_quiz
    {| Quiz.num_questions := 3; Quiz.difficulty := "mixed";
       Quiz.similarity_threshold := 85 # 100; Quiz.batch_size := 1 |}
    3 ["one"; "bad"; "two"] [] []
  = (Ret [JObj [("question", JStr "Q"); ("difficulty", JStr "easy")];
          JObj [("question", JStr "Q"); ("difficulty", JStr "easy")]],
     [("one", 3%Z); ("bad", 2%Z); ("two", 2%Z)]).
Proof. vm_compute. reflexivity. Qed.

Lemma failed_batch_counts_as_empty_witness :
  notes_parse_fails (fun b => b) garbled_on_bad (fun t => t) loads_ok "bad" /\
  exists notes,
    merge_notes (notes_of_batches (fun b => b) garbled_on_bad (fun t => t)
                   loads_ok ["one"; "bad"; "two"]) = Ret notes /\
    merge_notes (notes_of_batches (fun b => b) garbled_on_bad (fun t => t)
                   loads_ok ["one"; "two"]) = Ret notes.
Proof.
  assert (Hfail : notes_parse_fails (fun b => b) garbled_on_bad (fun t => t)
                    loads_ok "bad").
  { exists "I cannot help with that". split; reflexivity. }
  split; [exact Hfail|].
  exact (proj2 (proj2 (failed_batch_counts_as_empty (fun b => b) (fun b => b)
                         garbled_on_bad (fun t => t) loads_ok
                         ["one"] "bad" ["two"]) Hfail)).
Defined.

End NotesSpec.

Module AppSpec.
Import Py Cache App Terms.

Section HandlersSpec.
Variable fs : filesystem.
Variable cache_dir : string.
Variable extract_video_id : string -> option string.
Variable get_transcript : string -> outcome string.
Variable tfidf_cosine : list string -> option (list (list Q)).
Variable transcript_prompt : string -> string.
Variable generate_content : string -> outcome string.
Variable json_loads : string -> option json.
Variable vectorstore_documents : string -> doc_lookup.
Variable int_of_string : string -> option Z.
Variable float_of_string : string -> option Q.
Variable py_str : json -> string.

Local Abbreviation youtube :=
  (process_youtube fs cache_dir extract_video_id get_transcript).
Local Abbreviation quiz :=
  (generate_quiz fs cache_dir tfidf_cosine transcript_prompt
     generate_content json_loads vectorstore_documents int_of_string
     float_of_string py_str).
Local Abbreviation new_quiz :=
  (generate_new_quiz fs cache_dir tfidf_cosine transcript_prompt
     generate_content json_loads vectorstore_documents).

(** A fresh entry holding an empty transcript: the transcript is
    fetched again. *)
Lemma youtube_empty_transcript (user_id : string) (data : list (string * json))
    (url video_id : string) (files : store) (t0 now_read now_write : Q) :
  dict_get "url" data = Some (JStr url) ->
  extract_video_id url = Some video_id ->
  video_id <> "" ->
  file_at fs files
    (_get_cache_path cache_dir ("yt_" ++ user_id ++ "_" ++ video_id))
    = Some (entry t0 (JStr "")) ->
  (now_read - t0 <= CACHE_TIMEOUT)%Q ->
  youtube user_id (Some data) files now_read now_write
  = match get_transcript video_id with
    | Ret transcript =>
        (Reply 200 [("message", JStr "YouTube transcript processed successfully");
                    ("cache_id", JStr ("yt_" ++ user_id ++ "_" ++ video_id));
                    ("user_id", JStr user_id)],
         (save_to_cache fs cache_dir files now_write (JStr transcript)
            ("yt_" ++ user_id ++ "_" ++ video_id)).2,
         [video_id])
    | Raise => (ServerError, files, [video_id])
    end.
Proof.
  intros Hurl Hid Hne Hfile Hfresh. unfold process_youtube.
  destruct data as [|kv data]; [discriminate|].
  rewrite Hurl, Hid.
  destruct video_id as [|c video_id]; [contradiction|].
  rewrite (CacheSpec.get_fresh fs cache_dir files now_read t0 (JStr "")
             _ Hfile Hfresh).
  cbn [truthy]. destruct (get_transcript (String c video_id)) as [transcript|];
    [|reflexivity].
  unfold file_at in Hfile.
  destruct (locate fs
              (_get_cache_path cache_dir ("yt_" ++ user_id ++ "_" ++ String c video_id)))
    as [file|] eqn:Hloc; [|discriminate].
  rewrite (CacheSpec.save_located fs cache_dir files now_write
             (JStr transcript) _ file Hloc).
  reflexivity.
Qed.

(** The quiz handler up to its cache lookup, on a well-formed request. *)
Lemma quiz_after_lookup (user_id : string) (data : list (string * json))
    (cache_id difficulty : json) (ds : string) (n : Z) (threshold : Q)
    (files : store) (now_quiz now_transcript now_write : Q) :
  dict_get "cache_id" data = Some cache_id ->
  quiz_params int_of_string float_of_string data = Ret (n, difficulty, threshold) ->
  (n <= MAX_QUESTIONS_PER_QUIZ)%Z ->
  is_difficulty difficulty = Some ds ->
  quiz user_id (Some data) files now_quiz now_transcript now_write
  = match get_from_cache fs cache_dir files now_quiz
            (format py_str cache_id ++ "_" ++ pretty n ++ "_" ++ ds) with
    | (Raise, files) => (ServerError, files, [])
    | (Ret cached_quiz, files) =>
        if truthy cached_quiz then
          (Reply 200 [("message", JStr "Quiz retrieved from cache");
                      ("quiz", cached_quiz);
                      ("user_id", JStr user_id)],
           files, [])
        else
          new_quiz user_id cache_id
            {| Quiz.num_questions := n; Quiz.difficulty := ds;
               Quiz.similarity_threshold := threshold;
               Quiz.batch_size := DEFAULT_BATCH_SIZE |}
            (format py_str cache_id ++ "_" ++ pretty n ++ "_" ++ ds)
            files now_transcript now_write
    end.
Proof.
  intros Hid Hparams Hmax Hdiff. unfold generate_quiz.
  destruct data as [|kv data]; [discriminate|].
  rewrite Hid, Hparams.
  destruct (Z.ltb_spec MAX_QUESTIONS_PER_QUIZ n) as [Hgt|_]; [lia|].
  rewrite Hdiff. reflexivity.
Qed.
End HandlersSpec.

(** C10. Both handlers test the cached value for truth, not for
    presence.  A fresh entry holding the empty transcript makes
    [process_youtube] fetch the transcript again and write it again; a
    fresh entry holding the empty quiz makes [generate_quiz] run the
    generation path, exactly as it does when the key has no file at
    all. *)
Theorem empty_payload_is_a_miss
    (fs : filesystem)
    (cache_dir : string)
    (extract_video_id : string -> option string)
    (get_transcript : string -> outcome string)
    (tfidf_cosine : list string -> option (list (list Q)))
    (transcript_prompt : string -> string)
    (generate_content : string -> outcome string)
    (json_loads : string -> option json)
    (vectorstore_documents : string -> doc_lookup)
    (int_of_string : string -> option Z)
    (float_of_string : string -> option Q)
    (py_str : json -> string)
    (user_id : string) (data : list (string * json)) (files : store) (t0 : Q) :
  (forall url video_id now_read now_write,
     dict_get "url" data = Some (JStr url) ->
     extract_video_id url = Some video_id ->
     video_id <> "" ->
     file_at fs files
       (_get_cache_path cache_dir ("yt_" ++ user_id ++ "_" ++ video_id))
       = Some (entry t0 (JStr "")) ->
     (now_read - t0 <= CACHE_TIMEOUT)%Q ->
     process_youtube fs cache_dir extract_video_id get_transcript
       user_id (Some data) files now_read now_write
     = match get_transcript video_id with
       | Ret transcript =>
           (Reply 200 [("message", JStr "YouTube transcript processed successfully");
                       ("cache_id", JStr ("yt_" ++ user_id ++ "_" ++ video_id));
                       ("user_id", JStr user_id)],
            (save_to_cache fs cache_dir files now_write (JStr transcript)
               ("yt_" ++ user_id ++ "_" ++ video_id)).2,
            [video_id])
       | Raise => (ServerError, files, [video_id])
       end) /\
  (forall cache_id difficulty ds n threshold now_quiz now_transcript now_write,
     dict_get "cache_id" data = Some cache_id ->
     quiz_params int_of_string float_of_string data = Ret (n, difficulty, threshold) ->
     (n <= MAX_QUESTIONS_PER_QUIZ)%Z ->
     is_difficulty difficulty = Some ds ->
     let quiz_cache_id := format py_str cache_id ++ "_" ++ pretty n ++ "_" ++ ds in
     let regenerated :=
       generate_new_quiz fs cache_dir tfidf_cosine transcript_prompt
         generate_content json_loads vectorstore_documents user_id cache_id
         {| Quiz.num_questions := n; Quiz.difficulty := ds;
            Quiz.similarity_threshold := threshold;
            Quiz.batch_size := DEFAULT_BATCH_SIZE |}
         quiz_cache_id files now_transcript now_write in
     (file_at fs files (_get_cache_path cache_dir quiz_cache_id)
        = Some (entry t0 (JArr [])) ->
      (now_quiz - t0 <= CACHE_TIMEOUT)%Q ->
      generate_quiz fs cache_dir tfidf_cosine transcript_prompt
        generate_content json_loads vectorstore_documents int_of_string
        float_of_string py_str
        user_id (Some data) files now_quiz now_transcript now_write
      = regenerated) /\
     (file_at fs files (_get_cache_path cache_dir quiz_cache_id) = None ->
      generate_quiz fs cache_dir tfidf_cosine transcript_prompt
        generate_content json_loads vectorstore_documents int_of_string
        float_of_string py_str
        user_id (Some data) files now_quiz now_transcript now_write
      = regenerated)).
Proof.
  split.
  - intros url video_id now_read now_write. apply youtube_empty_transcript.
  - intros cache_id difficulty ds n threshold now_quiz now_transcript now_write
      Hid Hparams Hmax Hdiff. cbn zeta. split.
    + intros Hfile Hfresh.
      rewrite (quiz_after_lookup fs cache_dir tfidf_cosine transcript_prompt
                 generate_content json_loads vectorstore_documents
                 int_of_string float_of_string py_str user_id data cache_id
                 difficulty ds n threshold files now_quiz now_transcript
                 now_write Hid Hparams Hmax Hdiff).
      rewrite (CacheSpec.get_fresh fs cache_dir files now_quiz t0
                 (JArr []) _ Hfile Hfresh).
      reflexivity.
    + intros Hfile.
      rewrite (quiz_after_lookup fs cache_dir tfidf_cosine transcript_prompt
                 generate_content json_loads vectorstore_documents
                 int_of_string float_of_string py_str user_id data cache_id
                 difficulty ds n threshold files now_quiz now_transcript
                 now_write Hid Hparams Hmax Hdiff).
      rewrite (CacheSpec.get_absent fs cache_dir files now_quiz _ Hfile).
      reflexivity.
Qed.

Lemma empty_payload_is_a_miss_witness :
  process_youtube only_cache_folder "cache" (fun _ => Some "abc") (fun _ => Ret "")
    "u1" (Some [("url", JStr "https://youtu.be/abc")])
    silent_video_cache 1700000010 1700000011
  = (Reply 200 [("message", JStr "YouTube transcript processed successfully");
                ("cache_id", JStr "yt_u1_abc");
                ("user_id", JStr "u1")],
     saved silent_video_cache 1700000011 (JStr "") "yt_u1_abc",
     ["abc"]) /\
  generate_quiz only_cache_folder "cache" (fun _ => None) (fun batch => batch)
    (fun _ => Ret "[]") (fun _ => Some (JArr [])) (fun _ => NoStore)
    (fun _ => None) (fun _ => None) (fun _ => "")
    "u1" (Some [("cache_id", JStr "yt_u1_abc"); ("num_questions", JNum 3)])
    empty_quiz_cache 1700000010 1700000011 1700000012
  = (Reply 200 [("message", JStr "Quiz generated successfully");
                ("quiz", JArr []);
                ("user_id", JStr "u1")],
     saved empty_quiz_cache 1700000012 (JArr []) "yt_u1_abc_3_mixed",
     [("lecture text", 3%Z)]).
Proof.
  split.
  - refine (proj1 (empty_payload_is_a_miss only_cache_folder "cache"
                     (fun _ => Some "abc")
                     (fun _ => Ret "") (fun _ => None) (fun batch => batch)
                     (fun _ => Ret "[]") (fun _ => Some (JArr []))
                     (fun _ => NoStore) (fun _ => None) (fun _ => None)
                     (fun _ => "") "u1" [("url", JStr "https://youtu.be/abc")]
                     silent_video_cache 1700000000)
              "https://youtu.be/abc" "abc" 1700000010%Q 1700000011%Q
              eq_refl eq_refl _ _ _).
    + discriminate.
    + vm_compute. reflexivity.
    + vm_compute. discriminate.
  - etransitivity.
    + refine (proj1 (proj2 (empty_payload_is_a_miss only_cache_folder "cache"
                       (fun _ => Some "abc")
                       (fun _ => Ret "") (fun _ => None) (fun batch => batch)
                       (fun _ => Ret "[]") (fun _ => Some (JArr []))
                       (fun _ => NoStore) (fun _ => None) (fun _ => None)
                       (fun _ => "") "u1"
                       [("cache_id", JStr "yt_u1_abc"); ("num_questions", JNum 3)]
                       empty_quiz_cache 1700000005)
                (JStr "yt_u1_abc") (JStr "mixed") "mixed" 3%Z (85 # 100)
                1700000010%Q 1700000011%Q 1700000012%Q
                eq_refl eq_refl _ eq_refl) _ _).
      * vm_compute. discriminate.
      * vm_compute. reflexivity.
      * vm_compute. discriminate.
    + vm_compute. reflexivity.
Defined.

End AppSpec.

(** ** Deduplicator and batcher on inputs of any length *)
Module ChunksMore.
Import Py Chunks Terms MoreTerms.

Lemma filter_agree_on {A} (P1 P2 : A -> Prop)
    `{!forall x, Decision (P1 x), !forall x, Decision (P2 x)} (l : list A) :
  (forall x, x ∈ l -> (P1 x <-> P2 x)) -> filter P1 l = filter P2 l.
Proof.
  induction l as [|a l IH]; intros Hiff; [reflexivity|].
  assert (Ha : P1 a <-> P2 a) by (apply Hiff, elem_of_cons; auto).
  assert (Hl : filter P1 l = filter P2 l).
  { apply IH. intros x Hx. apply Hiff, elem_of_cons. auto. }
  destruct (decide (P1 a)) as [H1|H1].
  - rewrite !filter_cons_True by tauto. rewrite Hl. reflexivity.
  - rewrite !filter_cons_False by tauto. exact Hl.
Qed.

Lemma lookup_total_seq (chunks : list string) :
  (fun i => chunks !!! i) <$> seq 0 (length chunks) = chunks.
Proof.
  apply list_eq. intros i. rewrite list_lookup_fmap.
  destruct (Nat.lt_ge_cases i (length chunks)) as [Hlt|Hge].
  - rewrite lookup_seq_lt by exact Hlt. simpl.
    symmetry. apply list_lookup_lookup_total_lt. exact Hlt.
  - rewrite lookup_seq_ge by exact Hge. simpl.
    symmetry. apply lookup_ge_None. exact Hge.
Qed.

Section Loop.
Variable similarities : list (list Q).
Variable threshold : Q.
Variable n : nat.

Lemma mark_similar_spec (i : nat) (seen : gset nat) (j : nat) :
  j ∈ mark_similar similarities threshold n i seen
  <-> j ∈ seen \/
      ((i < j < n)%nat /\ exceeds (sim_at similarities i j) threshold = true).
Proof.
  unfold mark_similar, range2.
  assert (Hgen : forall (l : list nat) (s : gset nat),
             j ∈ foldl (fun seen j =>
                          if exceeds (sim_at similarities i j) threshold
                          then {[ j ]} ∪ seen else seen) s l
             <-> j ∈ s \/
                 (j ∈ l /\ exceeds (sim_at similarities i j) threshold = true)).
  { induction l as [|x l IH]; intros s; simpl.
    - split; [auto|]. intros [H|[H _]]; [exact H|]. apply elem_of_nil in H. tauto.
    - rewrite IH. rewrite elem_of_cons.
      destruct (exceeds (sim_at similarities i x) threshold) eqn:Hx.
      + rewrite elem_of_union, elem_of_singleton. split.
        * intros [[->|H]|[H1 H2]]; auto.
        * intros [H|[[->|H1] H2]]; auto.
      + split.
        * intros [H|[H1 H2]]; auto.
        * intros [H|[[->|H1] H2]]; auto. congruence. }
  rewrite Hgen, elem_of_seq. split.
  - intros [H|[H1 H2]]; [auto|]. right. split; [lia|exact H2].
  - intros [H|[H1 H2]]; [auto|]. right. split; [lia|exact H2].
Qed.

(** The state of the outer loop after the indices below [k]. *)
Lemma dedup_prefix (k : nat) :
  (k <= n)%nat ->
  forall keep seen,
    foldl (fun '((keep_indices, seen) : list nat * gset nat) i =>
             if bool_decide (i ∈ seen) then (keep_indices, seen)
             else ((keep_indices ++ [i])%list,
                   mark_similar similarities threshold n i seen))
          ([], ∅) (seq 0 k) = (keep, seen) ->
    keep = filter (fun i => i ∉ seen) (seq 0 k) /\
    (forall j, j ∈ seen <->
       exists i, i ∈ keep /\ (i < j < n)%nat /\
                 exceeds (sim_at similarities i j) threshold = true).
Proof.
  induction k as [|k IH]; intros Hk keep seen.
  - simpl. intros [= <- <-]. split; [reflexivity|]. intros j. split.
    + intros H. apply elem_of_empty in H. tauto.
    + intros [i [H _]]. apply elem_of_nil in H. tauto.
  - rewrite seq_S, foldl_app. simpl.
    destruct (foldl _ _ (seq 0 k)) as [keep0 seen0] eqn:Hrun.
    destruct (IH ltac:(lia) keep0 seen0 eq_refl) as [Hkeep Hseen].
    simpl. destruct (bool_decide (k ∈ seen0)) eqn:Hin.
    + apply bool_decide_eq_true in Hin. intros [= <- <-].
      split; [|exact Hseen].
      rewrite filter_app, filter_cons_False by tauto.
      rewrite filter_nil, app_nil_r. exact Hkeep.
    + apply bool_decide_eq_false in Hin. intros [= <- <-].
      assert (Hnew : forall j,
                 j ∈ mark_similar similarities threshold n k seen0 <->
                 j ∈ seen0 \/
                 ((k < j < n)%nat /\
                  exceeds (sim_at similarities k j) threshold = true))
        by (intros j; apply mark_similar_spec).
      split.
      * rewrite filter_app, filter_cons_True, filter_nil.
        -- f_equal. rewrite Hkeep. apply filter_agree_on.
           intros i Hi. apply elem_of_seq in Hi. rewrite Hnew.
           split; [|tauto]. intros Hn [H|[H _]]; [tauto|lia].
        -- rewrite Hnew. intros [H|[H _]]; [tauto|lia].
      * intros j. rewrite Hnew, Hseen. split.
        -- intros [[i [Hi H]]|H].
           ++ exists i. split; [apply elem_of_app; auto|exact H].
           ++ exists k. split; [|exact H].
              apply elem_of_app. right. apply list_elem_of_singleton. reflexivity.
        -- intros [i [Hi H]]. apply elem_of_app in Hi. destruct Hi as [Hi|Hi].
           ++ left. exists i. auto.
           ++ apply list_elem_of_singleton in Hi. subst i. right. exact H.
Qed.

Lemma dedup_loop_spec :
  let keep := (dedup_loop similarities threshold n).1 in
  let seen := (dedup_loop similarities threshold n).2 in
  keep = filter (fun i => i ∉ seen) (seq 0 n) /\
  (forall j, j ∈ seen <->
     exists i, i ∈ keep /\ (i < j < n)%nat /\
               exceeds (sim_at similarities i j) threshold = true).
Proof.
  cbn zeta. unfold dedup_loop, range2. rewrite Nat.sub_0_r.
  destruct (foldl _ _ (seq 0 n)) as [keep seen] eqn:Hrun.
  exact (dedup_prefix n (Nat.le_refl n) keep seen Hrun).
Qed.
End Loop.

(** X1. The chunks kept by [deduplicate_chunks] are a subsequence of the
    input, in the input's order, and the first chunk is always among
    them. *)
Theorem dedup_keeps_order
    (tfidf_cosine : list string -> option (list (list Q)))
    (chunks kept : list string) (threshold : Q) :
  deduplicate_chunks tfidf_cosine chunks threshold = Some kept ->
  kept `sublist_of` chunks /\ head kept = head chunks.
Proof.
  unfold deduplicate_chunks.
  destruct (Nat.leb_spec (length chunks) 1) as [Hshort|Hlong].
  - intros [= <-]. split; reflexivity.
  - destruct (tfidf_cosine chunks) as [similarities|]; [|discriminate].
    intros [= <-].
    destruct (dedup_loop_spec similarities threshold (length chunks))
      as [Hkeep Hseen].
    cbn zeta in Hkeep, Hseen. rewrite Hkeep. split.
    + rewrite <- (lookup_total_seq chunks) at 2.
      apply fmap_sublist, sublist_filter.
    + destruct chunks as [|c chunks]; [simpl in Hlong; lia|].
      cbn [length seq]. rewrite filter_cons_True; [reflexivity|].
      rewrite Hseen. intros [i [_ [Hlt _]]]. lia.
Qed.

Lemma dedup_keeps_order_witness :
  deduplicate_chunks (fun _ => Some [[1; 9 # 10; 0]; [9 # 10; 1; 0]; [0; 0; 1]]%Q)
    ["cats sit"; "cats sat"; "dogs run"] (85 # 100)
  = Some ["cats sit"; "dogs run"] /\
  ["cats sit"; "dogs run"] `sublist_of` ["cats sit"; "cats sat"; "dogs run"].
Proof.
  assert (Hrun : deduplicate_chunks
                   (fun _ => Some [[1; 9 # 10; 0]; [9 # 10; 1; 0]; [0; 0; 1]]%Q)
                   ["cats sit"; "cats sat"; "dogs run"] (85 # 100)
                 = Some ["cats sit"; "dogs run"])
    by (vm_compute; reflexivity).
  split; [exact Hrun|].
  exact (proj1 (dedup_keeps_order _ _ _ _ Hrun)).
Defined.

(** X2. Chunk [j] is dropped exactly when an earlier kept chunk [i] has
    [similarities[i][j] > threshold]; so no kept chunk exceeds the
    threshold against an earlier kept chunk. *)
Theorem dedup_drops_only_similar
    (similarities : list (list Q)) (threshold : Q) (n : nat) :
  let keep_indices := (dedup_loop similarities threshold n).1 in
  (forall j, (j < n)%nat ->
     (j ∈ keep_indices <->
      forall i, i ∈ keep_indices -> (i < j)%nat ->
                (sim_at similarities i j <= threshold)%Q)) /\
  (forall j, j ∈ keep_indices -> (j < n)%nat).
Proof.
  cbn zeta.
  destruct (dedup_loop_spec similarities threshold n) as [Hkeep Hseen].
  cbn zeta in Hkeep, Hseen.
  set (keep := (dedup_loop similarities threshold n).1) in *.
  set (seen := (dedup_loop similarities threshold n).2) in *.
  assert (Hmem : forall j, j ∈ keep <-> (j < n)%nat /\ j ∉ seen).
  { intros j. rewrite Hkeep at 1. rewrite list_elem_of_filter, elem_of_seq.
    split; intros [H1 H2]; split; auto; lia. }
  split.
  - intros j Hj. rewrite Hmem, Hseen. split.
    + intros [_ Hnone] i Hi Hlt.
      destruct (Qlt_le_dec threshold (sim_at similarities i j)) as [Hgt|Hle];
        [|exact Hle].
      exfalso. apply Hnone. exists i. split; [exact Hi|]. split; [lia|].
      apply ChunksSpec.exceeds_true. exact Hgt.
    + intros Hall. split; [exact Hj|]. intros [i [Hi [Hlt Hex]]].
      specialize (Hall i Hi ltac:(lia)).
      rewrite (ChunksSpec.exceeds_false _ _ Hall) in Hex. discriminate.
  - intros j Hj. apply Hmem in Hj. tauto.
Qed.

(** X3. When no pair of chunks is more similar than the threshold,
    nothing is dropped: with similarities that do not exceed 1, a
    threshold of 1.0 or more switches the deduplicator off. *)
Theorem dedup_nothing_above_threshold
    (tfidf_cosine : list string -> option (list (list Q)))
    (chunks : list string) (similarities : list (list Q)) (threshold : Q) :
  tfidf_cosine chunks = Some similarities ->
  (forall i j, (i < j < length chunks)%nat ->
               (sim_at similarities i j <= threshold)%Q) ->
  deduplicate_chunks tfidf_cosine chunks threshold = Some chunks.
Proof.
  intros Hfit Hall. unfold deduplicate_chunks.
  destruct (Nat.leb_spec (length chunks) 1); [reflexivity|].
  rewrite Hfit. f_equal.
  destruct (dedup_loop_spec similarities threshold (length chunks))
    as [Hkeep Hseen].
  cbn zeta in Hkeep, Hseen. rewrite Hkeep.
  rewrite (filter_agree_on _ (fun _ => True)).
  - assert (Hall_in : forall l : list nat, filter (fun _ => True) l = l).
    { induction l as [|x l IH]; [reflexivity|].
      rewrite filter_cons_True by exact I. rewrite IH. reflexivity. }
    rewrite Hall_in. apply lookup_total_seq.
  - intros j _. split; [auto|]. intros _. rewrite Hseen.
    intros [i [_ [Hlt Hex]]].
    rewrite (ChunksSpec.exceeds_false _ _ (Hall i j Hlt)) in Hex. discriminate.
Qed.

Lemma dedup_nothing_above_threshold_witness :
  deduplicate_chunks (fun _ => Some [[1; 9 # 10; 0]; [9 # 10; 1; 0]; [0; 0; 1]]%Q)
    ["cats sit"; "cats sat"; "dogs run"] 1
  = Some ["cats sit"; "cats sat"; "dogs run"].
Proof.
  apply (dedup_nothing_above_threshold _ _
           [[1; 9 # 10; 0]; [9 # 10; 1; 0]; [0; 0; 1]]%Q 1 eq_refl).
  intros i j Hij. simpl in Hij.
  destruct i as [|[|[|i]]]; destruct j as [|[|[|j]]]; try lia;
    vm_compute; discriminate.
Defined.

End ChunksMore.

Module BatcherMore.
Import Py Chunks Terms MoreTerms.

Lemma range_from_length (step : nat) :
  (0 < step)%nat ->
  forall fuel start stop,
    (stop - start <= fuel)%nat ->
    length (range_from fuel start stop step)
    = ((stop - start + step - 1) / step)%nat.
Proof.
  intros Hstep fuel. induction fuel as [|fuel IH]; intros start stop Hfuel.
  - simpl. replace (stop - start + step - 1)%nat with (step - 1)%nat by lia.
    symmetry. apply Nat.div_small. lia.
  - cbn [range_from]. destruct (Nat.ltb_spec start stop) as [Hlt|Hge].
    + cbn [length]. rewrite IH by lia.
      replace (stop - start + step - 1)%nat
        with ((stop - start - 1) + 1 * step)%nat by lia.
      rewrite Nat.div_add by lia.
      destruct (Nat.le_gt_cases step (stop - start)) as [Hbig|Hsmall].
      * replace (stop - (start + step) + step - 1)%nat
          with (stop - start - 1)%nat by lia. lia.
      * replace (stop - (start + step) + step - 1)%nat with (step - 1)%nat by lia.
        rewrite !Nat.div_small by lia. reflexivity.
    + simpl. replace (stop - start + step - 1)%nat with (step - 1)%nat by lia.
      symmetry. apply Nat.div_small. lia.
Qed.

(** X4. For a positive [batch_size], [batch_chunks] makes
    [ceil(len(chunks) / batch_size)] batches; chunks that fit into one
    batch come back as a single string, joined by the separator. *)
Theorem batch_chunks_count (chunks : list string) (batch_size : Z) :
  (0 < batch_size)%Z ->
  exists batches,
    batch_chunks chunks batch_size = Some batches /\
    Z.of_nat (length batches)
      = ((Z.of_nat (length chunks) + batch_size - 1) / batch_size)%Z /\
    (chunks <> [] -> (Z.of_nat (length chunks) <= batch_size)%Z ->
     batches = [String.concat SEPARATOR chunks]).
Proof.
  intros Hpos. exists (batch_chunks_pos chunks (Z.to_nat batch_size)).
  assert (Hn : (0 < Z.to_nat batch_size)%nat) by lia.
  split; [|split].
  - unfold batch_chunks.
    destruct (Z.eqb_spec batch_size 0); [lia|].
    destruct (Z.ltb_spec batch_size 0); [lia|]. reflexivity.
  - unfold batch_chunks_pos, range3. rewrite length_fmap.
    rewrite (range_from_length _ Hn) by lia.
    rewrite Nat.sub_0_r, Nat2Z.inj_div. f_equal; lia.
  - intros Hne Hfit. unfold batch_chunks_pos, range3.
    destruct chunks as [|c chunks]; [contradiction|].
    rewrite Nat.sub_0_r. cbn [length range_from Nat.ltb Nat.leb fmap list_fmap].
    assert (Hrest : range_from (length chunks) (0 + Z.to_nat batch_size)
                      (S (length chunks)) (Z.to_nat batch_size) = []).
    { destruct (length chunks) as [|k] eqn:Hk; [reflexivity|].
      cbn [range_from].
      destruct (Nat.ltb_spec (0 + Z.to_nat batch_size) (S (S k))) as [Hlt|_];
        [|reflexivity].
      simpl in Hfit. lia. }
    rewrite Hrest. cbn [fmap list_fmap]. f_equal. unfold slice.
    rewrite drop_0, take_ge; [reflexivity|]. simpl in Hfit |- *. lia.
Qed.

Lemma batch_chunks_count_witness :
  exists batches,
    batch_chunks ["a"; "b"; "c"; "d"; "e"; "f"; "g"] 3 = Some batches /\
    Z.of_nat (length batches) = 3%Z.
Proof.
  destruct (batch_chunks_count ["a"; "b"; "c"; "d"; "e"; "f"; "g"] 3 eq_refl)
    as [batches [Hrun [Hlen _]]].
  exists batches. split; [exact Hrun | exact Hlen].
Defined.

End BatcherMore.

Module QuizMore.
Import Py Chunks Quiz Terms MoreTerms.

(** *** Cleaning the model's answer *)

Lemma rstrip_app_nonempty (cs pre s : string) :
  rstrip cs s <> "" -> rstrip cs (pre ++ s) = pre ++ rstrip cs s.
Proof.
  intros Hne. induction pre as [|c pre IH]; [reflexivity|].
  change (String c pre ++ s) with (String c (pre ++ s)).
  change (String c pre ++ rstrip cs s) with (String c (pre ++ rstrip cs s)).
  cbn [rstrip]. rewrite IH.
  destruct (pre ++ rstrip cs s) as [|c' r] eqn:Hr; [|reflexivity].
  exfalso. destruct pre; simpl in Hr; [contradiction | discriminate].
Qed.

Lemma rstrip_wrapped (cs pre body tail : string) :
  rstrip cs tail <> "" ->
  rstrip cs (pre ++ body ++ tail) = pre ++ body ++ rstrip cs tail.
Proof.
  intros Hne.
  assert (Hbody : rstrip cs (body ++ tail) = body ++ rstrip cs tail)
    by (apply rstrip_app_nonempty; exact Hne).
  rewrite (rstrip_app_nonempty cs pre (body ++ tail)); rewrite Hbody;
    [reflexivity|].
  intros H. destruct body; [exact (Hne H) | discriminate].
Qed.

(** The three [strip] calls on a plain fenced answer and on a bare
    array. *)
Lemma clean_response_fenced (body : string) :
  clean_response (FENCE ++ "json" ++ NL ++ "[" ++ body ++ "]" ++ NL ++ FENCE)
    = "[" ++ body ++ "]" /\
  clean_response ("[" ++ body ++ "]") = "[" ++ body ++ "]".
Proof.
  assert (Hkeep : forall cs tail,
             char_in "]"%char cs = false -> rstrip cs tail = "" ->
             rstrip cs ("[" ++ body ++ "]" ++ tail) = "[" ++ body ++ "]").
  { intros cs tail Hc Ht.
    assert (Hlast : rstrip cs ("]" ++ tail) = "]")
      by (change ("]" ++ tail) with (String "]"%char tail); cbn [rstrip];
          rewrite Ht, Hc; reflexivity).
    rewrite (rstrip_app_nonempty cs "[" (body ++ "]" ++ tail)).
    - rewrite (rstrip_app_nonempty cs body ("]" ++ tail)); rewrite Hlast;
        [reflexivity | discriminate].
    - rewrite (rstrip_app_nonempty cs body ("]" ++ tail)); rewrite Hlast;
        [|discriminate]. destruct body; discriminate. }
  split.
  - unfold clean_response, strip.
    assert (H1 : lstrip (FENCE ++ "json")
                   (FENCE ++ "json" ++ NL ++ "[" ++ body ++ "]" ++ NL ++ FENCE)
                 = NL ++ "[" ++ body ++ "]" ++ NL ++ FENCE) by reflexivity.
    rewrite H1.
    assert (H2 : rstrip (FENCE ++ "json") (NL ++ "[" ++ body ++ "]" ++ NL ++ FENCE)
                 = NL ++ "[" ++ body ++ "]" ++ NL).
    { rewrite (rstrip_app_nonempty _ NL).
      - rewrite (rstrip_app_nonempty _ "[").
        + rewrite (rstrip_app_nonempty _ body); [reflexivity|].
          vm_compute. discriminate.
        + rewrite (rstrip_app_nonempty _ body); vm_compute; [|discriminate].
          destruct body; discriminate.
      - rewrite (rstrip_app_nonempty _ "[").
        + rewrite (rstrip_app_nonempty _ body); vm_compute; discriminate.
        + rewrite (rstrip_app_nonempty _ body); vm_compute; [|discriminate].
          destruct body; discriminate. }
    rewrite H2.
    assert (H3 : lstrip FENCE (NL ++ "[" ++ body ++ "]" ++ NL)
                 = NL ++ "[" ++ body ++ "]" ++ NL) by reflexivity.
    rewrite H3.
    assert (H4 : rstrip FENCE (NL ++ "[" ++ body ++ "]" ++ NL)
                 = NL ++ "[" ++ body ++ "]" ++ NL).
    { rewrite (rstrip_app_nonempty _ NL).
      - rewrite (rstrip_app_nonempty _ "[").
        + rewrite (rstrip_app_nonempty _ body); [reflexivity|].
          vm_compute. discriminate.
        + rewrite (rstrip_app_nonempty _ body); vm_compute; [|discriminate].
          destruct body; discriminate.
      - rewrite (rstrip_app_nonempty _ "[").
        + rewrite (rstrip_app_nonempty _ body); vm_compute; discriminate.
        + rewrite (rstrip_app_nonempty _ body); vm_compute; [|discriminate].
          destruct body; discriminate. }
    rewrite H4.
    assert (H5 : lstrip WHITESPACE (NL ++ "[" ++ body ++ "]" ++ NL)
                 = "[" ++ body ++ "]" ++ NL) by reflexivity.
    rewrite H5. apply Hkeep; reflexivity.
  - unfold clean_response, strip.
    assert (Hl : forall cs, char_in "["%char cs = false ->
                 lstrip cs ("[" ++ body ++ "]") = "[" ++ body ++ "]")
      by (intros cs Hc;
          change ("[" ++ body ++ "]") with (String "["%char (body ++ "]"));
          cbn [lstrip]; rewrite Hc; reflexivity).
    assert (Hr : forall cs, char_in "]"%char cs = false ->
                 rstrip cs ("[" ++ body ++ "]") = "[" ++ body ++ "]").
    { intros cs Hc. pose proof (Hkeep cs "" Hc eq_refl) as H.
      exact H. }
    rewrite (Hl (FENCE ++ "json")), (Hr (FENCE ++ "json")) by reflexivity.
    rewrite (Hl FENCE), (Hr FENCE) by reflexivity.
    rewrite (Hl WHITESPACE), (Hr WHITESPACE) by reflexivity.
    reflexivity.
Qed.

(** X5. [strip("```json").strip("```").strip()] unwraps an answer that
    is exactly [```json], newline, a JSON array, newline, [```], and
    leaves a bare array as it is.  It does not unwrap every fenced
    answer: with a newline after the closing fence the closing fence
    stays, and with a newline before the opening fence the opening fence
    stays. *)
Theorem clean_response_unfences (body : string) :
  clean_response (FENCE ++ "json" ++ NL ++ "[" ++ body ++ "]" ++ NL ++ FENCE)
    = "[" ++ body ++ "]" /\
  clean_response ("[" ++ body ++ "]") = "[" ++ body ++ "]" /\
  clean_response
    (FENCE ++ "json" ++ NL ++ "[" ++ body ++ "]" ++ NL ++ FENCE ++ NL)
    = "[" ++ body ++ "]" ++ NL ++ FENCE /\
  clean_response
    (NL ++ FENCE ++ "json" ++ NL ++ "[" ++ body ++ "]" ++ NL ++ FENCE)
    = FENCE ++ "json" ++ NL ++ "[" ++ body ++ "]".
Proof.
  destruct (clean_response_fenced body) as [Hfenced Hbare].
  split; [exact Hfenced|]. split; [exact Hbare|]. split.
  - unfold clean_response, strip.
    set (after := "]" ++ NL ++ FENCE ++ NL).
    assert (H1 : lstrip (FENCE ++ "json")
                   (FENCE ++ "json" ++ NL ++ "[" ++ body ++ after)
                 = (NL ++ "[") ++ body ++ after) by reflexivity.
    rewrite H1.
    rewrite (rstrip_wrapped (FENCE ++ "json") (NL ++ "[") body after)
      by (vm_compute; discriminate).
    assert (H2 : rstrip (FENCE ++ "json") after = after) by reflexivity.
    rewrite H2.
    assert (H3 : lstrip FENCE ((NL ++ "[") ++ body ++ after)
                 = (NL ++ "[") ++ body ++ after) by reflexivity.
    rewrite H3.
    rewrite (rstrip_wrapped FENCE (NL ++ "[") body after)
      by (vm_compute; discriminate).
    assert (H4 : rstrip FENCE after = after) by reflexivity.
    rewrite H4.
    assert (H5 : lstrip WHITESPACE ((NL ++ "[") ++ body ++ after)
                 = "[" ++ body ++ after) by reflexivity.
    rewrite H5.
    rewrite (rstrip_wrapped WHITESPACE "[" body after)
      by (vm_compute; discriminate).
    reflexivity.
  - unfold clean_response, strip.
    set (opening := NL ++ FENCE ++ "json" ++ NL ++ "[").
    assert (H1 : lstrip (FENCE ++ "json")
                   (NL ++ FENCE ++ "json" ++ NL ++ "[" ++ body ++ "]" ++ NL ++ FENCE)
                 = opening ++ body ++ "]" ++ NL ++ FENCE) by reflexivity.
    rewrite H1.
    rewrite (rstrip_wrapped (FENCE ++ "json") opening body ("]" ++ NL ++ FENCE))
      by (vm_compute; discriminate).
    assert (H2 : rstrip (FENCE ++ "json") ("]" ++ NL ++ FENCE) = "]" ++ NL)
      by reflexivity.
    rewrite H2.
    assert (H3 : lstrip FENCE (opening ++ body ++ "]" ++ NL)
                 = opening ++ body ++ "]" ++ NL) by reflexivity.
    rewrite H3.
    rewrite (rstrip_wrapped FENCE opening body ("]" ++ NL))
      by (vm_compute; discriminate).
    assert (H4 : rstrip FENCE ("]" ++ NL) = "]" ++ NL) by reflexivity.
    rewrite H4.
    assert (H5 : lstrip WHITESPACE (opening ++ body ++ "]" ++ NL)
                 = (FENCE ++ "json" ++ NL ++ "[") ++ body ++ "]" ++ NL)
      by reflexivity.
    rewrite H5.
    rewrite (rstrip_wrapped WHITESPACE (FENCE ++ "json" ++ NL ++ "[") body
               ("]" ++ NL)) by (vm_compute; discriminate).
    reflexivity.
Qed.

(** *** The difficulty filter *)

Lemma keep_if_difficulty_sound (d : string) (qs : list json) :
  forall kept l,
    for_each (keep_if_difficulty d) qs kept = Ret l ->
    Forall (has_difficulty d) kept -> Forall (has_difficulty d) l.
Proof.
  induction qs as [|q qs IH]; intros kept l; simpl.
  - intros [= <-] Hk. exact Hk.
  - destruct q as [| | | | |items]; try discriminate. simpl.
    destruct (dict_get "difficulty" items) as [[| | |s| |]|] eqn:Hd;
      try discriminate; simpl; try (apply IH).
    intros Hrun Hk. apply (IH _ _ Hrun).
    destruct (String.eqb_spec s d) as [->|_]; [|exact Hk].
    apply Forall_app. split; [exact Hk|].
    constructor; [|constructor]. exists items. auto.
Qed.

Lemma keep_if_difficulty_raises (d : string) (qs : list json) (q : json) :
  q ∈ qs -> unreadable q ->
  forall kept, for_each (keep_if_difficulty d) qs kept = Raise.
Proof.
  intros Hin Hbad. induction qs as [|x qs IH]; intros kept.
  - apply elem_of_nil in Hin. destruct Hin.
  - apply elem_of_cons in Hin. simpl.
    destruct (keep_if_difficulty d kept x) as [kept'|] eqn:Hstep; [|reflexivity].
    simpl. destruct Hin as [<-|Hin]; [|apply IH; exact Hin].
    exfalso. unfold keep_if_difficulty in Hstep.
    destruct q as [| | | | |items]; try discriminate.
    rewrite (Hbad items eq_refl) in Hstep. discriminate.
Qed.

Section FilterSpec.
Variable transcript_prompt : string -> string.
Variable generate_content : string -> outcome string.
Variable json_loads : string -> option json.

(** X6. With a difficulty other than ['mixed'] (and not empty), a batch
    returns a list, and every question in it carries exactly that
    difficulty. *)
Theorem batch_respects_difficulty (batch : string) (p : params) :
  difficulty p <> "" -> difficulty p <> "mixed" ->
  exists questions,
    generate_quiz_from_batch transcript_prompt generate_content json_loads
      batch p = JArr questions /\
    Forall (has_difficulty (difficulty p)) questions.
Proof.
  intros He Hm. unfold generate_quiz_from_batch.
  assert (Hnil : exists questions : list json,
             JArr [] = JArr questions /\
             Forall (has_difficulty (difficulty p)) questions)
    by (exists []; split; [reflexivity | constructor]).
  destruct (generate_content _) as [text|]; [|exact Hnil].
  destruct (json_loads _) as [answer|]; [|exact Hnil].
  destruct (String.eqb_spec (difficulty p) "") as [|_]; [contradiction|].
  destruct (String.eqb_spec (difficulty p) "mixed") as [|_]; [contradiction|].
  cbn [negb andb].
  assert (Hf : forall v, filter_difficulty (difficulty p) answer = Ret v ->
               exists l, v = JArr l /\ Forall (has_difficulty (difficulty p)) l).
  { intros v. unfold filter_difficulty.
    destruct answer as [| | |s|qs|items]; try discriminate.
    - destruct s; [|discriminate]. intros [= <-]. exists []. split; [auto|constructor].
    - destruct (for_each _ qs []) as [l|] eqn:Hrun; [|discriminate].
      simpl. intros [= <-]. exists l. split; [reflexivity|].
      apply (keep_if_difficulty_sound _ _ _ _ Hrun). constructor.
    - destruct items; [|discriminate]. intros [= <-].
      exists []. split; [auto|constructor]. }
  destruct (filter_difficulty (difficulty p) answer) as [v|]; [|exact Hnil].
  destruct (Hf v eq_refl) as [l [-> Hl]]. cbn [bind].
  destruct (negb (num_questions p =? 0)%Z); simpl.
  - eexists. split; [reflexivity|]. unfold slice_to.
    destruct (num_questions p <? 0)%Z; apply Forall_take; exact Hl.
  - exists l. auto.
Qed.

(** X7. With a difficulty filter on, one question the filter cannot read
    (no ['difficulty'] key, or not an object) voids the whole batch: the
    batch returns no question at all. *)
Theorem unreadable_question_voids_batch (batch : string) (p : params)
    (response_text : string) (answer : list json) (q : json) :
  generate_content (transcript_prompt batch) = Ret response_text ->
  json_loads (clean_response response_text) = Some (JArr answer) ->
  q ∈ answer -> unreadable q ->
  difficulty p <> "" -> difficulty p <> "mixed" ->
  generate_quiz_from_batch transcript_prompt generate_content json_loads
    batch p = JArr [].
Proof.
  intros Hgen Hparse Hin Hbad He Hm. unfold generate_quiz_from_batch.
  rewrite Hgen, Hparse.
  destruct (String.eqb_spec (difficulty p) "") as [|_]; [contradiction|].
  destruct (String.eqb_spec (difficulty p) "mixed") as [|_]; [contradiction|].
  cbn [negb andb]. unfold filter_difficulty.
  rewrite (keep_if_difficulty_raises _ _ _ Hin Hbad). reflexivity.
Qed.
End FilterSpec.

Lemma batch_respects_difficulty_witness :
  generate_quiz_from_batch (fun b => b) (fun _ => Ret "[...]")
    (fun _ => Some (JArr mixed_answer)) "text" hard_only
  = JArr [JObj [("question", JStr "Q1"); ("difficulty", JStr "hard")];
          JObj [("question", JStr "Q3"); ("difficulty", JStr "hard")]] /\
  exists questions,
    generate_quiz_from_batch (fun b => b) (fun _ => Ret "[...]")
      (fun _ => Some (JArr mixed_answer)) "text" hard_only = JArr questions /\
    Forall (has_difficulty "hard") questions.
Proof.
  split; [vm_compute; reflexivity|].
  apply (batch_respects_difficulty (fun b => b) (fun _ => Ret "[...]")
           (fun _ => Some (JArr mixed_answer)) "text" hard_only);
    discriminate.
Defined.

Lemma unreadable_question_voids_batch_witness :
  generate_quiz_from_batch (fun b => b) (fun _ => Ret "[...]")
    (fun _ => Some (JArr (mixed_answer ++ [JObj [("question", JStr "Q4")]])%list))
    "text" hard_only
  = JArr [].
Proof.
  apply (unreadable_question_voids_batch (fun b => b) (fun _ => Ret "[...]")
           (fun _ => Some (JArr (mixed_answer ++ [JObj [("question", JStr "Q4")]])%list))
           "text" hard_only "[...]"
           (mixed_answer ++ [JObj [("question", JStr "Q4")]])%list
           (JObj [("question", JStr "Q4")]) eq_refl eq_refl).
  - apply elem_of_app. right. apply list_elem_of_singleton. reflexivity.
  - intros items [= <-]. reflexivity.
  - discriminate.
  - discriminate.
Defined.

(** *** How many questions a quiz can hold *)

Lemma slice_to_no_longer {A} (l : list A) (n : Z) :
  (length (slice_to l n) <= length l)%nat.
Proof. unfold slice_to. destruct (n <? 0)%Z; rewrite length_take; lia. Qed.

Lemma concat_length_bound {A B} (f : A -> list B) (m : nat) (l : list A) :
  (forall k c, l !! k = Some c -> (length (f c) <= m)%nat) ->
  (length (concat (f <$> l)) <= m * length l)%nat.
Proof.
  induction l as [|c l IH]; intros Hall; [simpl; lia|].
  rewrite fmap_cons. cbn [concat]. rewrite length_app. cbn [length].
  pose proof (Hall 0%nat c eq_refl).
  assert (length (concat (f <$> l)) <= m * length l)%nat
    by (apply IH; intros k c' Hk; apply (Hall (S k) c' Hk)).
  lia.
Qed.

(** X8. A batch adds at most five questions, so a quiz holds at most
    five questions per batch, whatever [num_questions] asks for; a
    single chunk (a video transcript) makes a single batch and so at
    most five questions. *)
Theorem quiz_five_per_batch
    (tfidf_cosine : list string -> option (list (list Q)))
    (transcript_prompt : string -> string)
    (generate_content : string -> outcome string)
    (json_loads : string -> option json)
    (text_chunks : list string) (p : params)
    (unique_chunks batched_chunks : list string) :
  deduplicate_chunks tfidf_cosine text_chunks (similarity_threshold p)
    = Some unique_chunks ->
  batch_chunks unique_chunks (batch_size p) = Some batched_chunks ->
  exists quiz calls,
    generate_quiz tfidf_cosine transcript_prompt generate_content json_loads
      text_chunks p = (Ret quiz, calls) /\
    (length calls <= length batched_chunks)%nat /\
    (length quiz <= 5 * length calls)%nat /\
    ((length text_chunks <= 1)%nat -> (length quiz <= 5)%nat).
Proof.
  intros Hdedup Hbatch.
  destruct (QuizSpec.loop_spec transcript_prompt generate_content json_loads
              (num_questions p) batched_chunks p [] [])
    as [calls [Hrun [Hpre [Hcalls _]]]].
  simpl in Hrun.
  assert (Hlen : (length calls <= length batched_chunks)%nat).
  { apply (f_equal length) in Hpre. rewrite length_fmap, length_take in Hpre. lia. }
  assert (Hall : (length (concat (contribution transcript_prompt generate_content
                                    json_loads p <$> calls))
                  <= 5 * length calls)%nat).
  { apply concat_length_bound. intros k [b n] Hk.
    destruct (Hcalls k b n Hk) as [Hn [_ Hadd]]. lia. }
  eexists _, calls. split; [|split; [exact Hlen|split]].
  - unfold generate_quiz. rewrite Hdedup, Hbatch, Hrun. reflexivity.
  - pose proof (slice_to_no_longer
                  (concat (contribution transcript_prompt generate_content
                             json_loads p <$> calls)) (num_questions p)). lia.
  - intros Hone.
    assert (Hb : (length batched_chunks <= 1)%nat).
    { unfold deduplicate_chunks in Hdedup.
      destruct (Nat.leb_spec (length text_chunks) 1) as [_|]; [|lia].
      injection Hdedup as <-. unfold batch_chunks in Hbatch.
      destruct (batch_size p =? 0)%Z; [discriminate|].
      destruct (batch_size p <? 0)%Z; injection Hbatch as <-; [simpl; lia|].
      unfold batch_chunks_pos, range3. rewrite length_fmap.
      destruct text_chunks as [|t [|t' rest]]; [simpl; lia| |simpl in Hone; lia].
      simpl. destruct (Z.to_nat (batch_size p)); simpl; lia. }
    pose proof (slice_to_no_longer
                  (concat (contribution transcript_prompt generate_content
                             json_loads p <$> calls)) (num_questions p)). lia.
Qed.

Lemma quiz_five_per_batch_witness :
  generate_quiz two_by_five_tfidf (fun b => b) (fun _ => Ret "[...]")
    (fun _ => Some (JArr (five_questions ++ five_questions)%list))
    ["one long transcript"] ten_from_one
  = (Ret five_questions, [("one long transcript", 5%Z)]) /\
  exists quiz calls,
    generate_quiz two_by_five_tfidf (fun b => b) (fun _ => Ret "[...]")
      (fun _ => Some (JArr (five_questions ++ five_questions)%list))
      ["one long transcript"] ten_from_one = (Ret quiz, calls) /\
    (length quiz <= 5)%nat.
Proof.
  split; [vm_compute; reflexivity|].
  destruct (quiz_five_per_batch two_by_five_tfidf (fun b => b)
              (fun _ => Ret "[...]")
              (fun _ => Some (JArr (five_questions ++ five_questions)%list))
              ["one long transcript"] ten_from_one
              ["one long transcript"] ["one long transcript"]
              eq_refl eq_refl)
    as [quiz [calls [Hrun [_ [_ Hfive]]]]].
  exists quiz, calls. split; [exact Hrun|]. apply Hfive. simpl. lia.
Defined.

(** X9. Asking for no question, or for a negative number of questions,
    returns the empty quiz without a single call to the model. *)
Theorem quiz_nothing_asked
    (tfidf_cosine : list string -> option (list (list Q)))
    (transcript_prompt : string -> string)
    (generate_content : string -> outcome string)
    (json_loads : string -> option json)
    (text_chunks : list string) (p : params)
    (unique_chunks batched_chunks : list string) :
  deduplicate_chunks tfidf_cosine text_chunks (similarity_threshold p)
    = Some unique_chunks ->
  batch_chunks unique_chunks (batch_size p) = Some batched_chunks ->
  (num_questions p <= 0)%Z ->
  generate_quiz tfidf_cosine transcript_prompt generate_content json_loads
    text_chunks p = (Ret [], []).
Proof.
  intros Hdedup Hbatch Hn. unfold generate_quiz. rewrite Hdedup, Hbatch.
  rewrite QuizSpec.loop_enough by (simpl; lia).
  unfold slice_to. destruct (num_questions p <? 0)%Z; rewrite take_nil; reflexivity.
Qed.

Lemma quiz_nothing_asked_witness :
  generate_quiz two_by_five_tfidf (fun b => b) (fun _ => Ret "[...]")
    (fun _ => Some (JArr five_questions)) ["alpha one"; "beta two"]
    {| num_questions := -2; difficulty := "mixed";
       similarity_threshold := 85 # 100; batch_size := 1 |}
  = (Ret [], []).
Proof.
  apply (quiz_nothing_asked two_by_five_tfidf (fun b => b) (fun _ => Ret "[...]")
           (fun _ => Some (JArr five_questions)) ["alpha one"; "beta two"]
           {| num_questions := -2; difficulty := "mixed";
              similarity_threshold := 85 # 100; batch_size := 1 |}
           ["alpha one"; "beta two"] ["alpha one"; "beta two"] eq_refl eq_refl).
  simpl. lia.
Defined.

End QuizMore.

Module NotesMore.
Import Py Chunks Notes Terms MoreTerms PathSpec.

Lemma merge_lists (batches : list (list (string * json))) (lists : list (list json)) :
  Forall2 (fun d l => dict_get "sections" d = Some (JArr l)) batches lists ->
  forall sections,
    for_each merge_step batches sections = Ret (sections ++ concat lists)%list.
Proof.
  induction 1 as [|d l batches lists Hd _ IH]; intros sections; simpl.
  - rewrite app_nil_r. reflexivity.
  - unfold merge_step at 1. rewrite Hd. simpl. rewrite IH, app_assoc. reflexivity.
Qed.

(** X10. When every batch carries a list of sections, [merge_notes]
    returns one document whose sections are those lists laid end to end,
    batch after batch, under the title ['Generated Notes']; the other
    keys of a batch are dropped. *)
Theorem merge_notes_concatenates
    (batches : list (list (string * json))) (lists : list (list json)) :
  Forall2 (fun d l => dict_get "sections" d = Some (JArr l)) batches lists ->
  merge_notes batches = Ret (notes_document (concat lists)).
Proof.
  intros Hall. unfold merge_notes. rewrite (merge_lists _ _ Hall). reflexivity.
Qed.

Lemma merge_notes_concatenates_witness :
  merge_notes [[("sections", JArr [JStr "s1"; JStr "s2"]); ("title", JStr "A")];
               [("sections", JArr [])];
               [("sections", JArr [JStr "s3"])]]
  = Ret (notes_document [JStr "s1"; JStr "s2"; JStr "s3"]).
Proof.
  apply (merge_notes_concatenates _ [[JStr "s1"; JStr "s2"]; []; [JStr "s3"]]).
  repeat constructor.
Defined.

Section GenerateSpec.
Variable tfidf_cosine : list string -> option (list (list Q)).
Variable notes_prompt : string -> string.
Variable generate_content : string -> outcome string.
Variable clean : string -> string.
Variable json_loads : string -> option json.

Local Abbreviation notes_of :=
  (generate_notes tfidf_cosine notes_prompt generate_content clean json_loads).
Local Abbreviation fails :=
  (notes_parse_fails notes_prompt generate_content clean json_loads).

Lemma merge_failed_batches (batches : list string) :
  Forall fails batches ->
  forall sections,
    for_each merge_step
      ((fun b => generate_notes_from_batch notes_prompt generate_content
                   clean json_loads b 0 0) <$> batches) sections
    = Ret sections.
Proof.
  induction 1 as [|b batches Hb _ IH]; intros sections; [reflexivity|].
  rewrite fmap_cons. cbn [for_each].
  rewrite (NotesSpec.notes_batch_parse_fails _ _ _ _ b 0 0 Hb).
  unfold merge_step at 1. simpl. rewrite app_nil_r. apply IH.
Qed.

(** X11. Once the chunks are deduplicated and batched, [generate_notes]
    cannot raise, whatever the model answers: it returns a document with
    the title ['Generated Notes'] and a list of sections. *)
Theorem generate_notes_returns (text_chunks : list string)
    (similarity_threshold : Q) (batch_size : Z)
    (unique_chunks batched_chunks : list string) :
  deduplicate_chunks tfidf_cosine text_chunks similarity_threshold
    = Some unique_chunks ->
  batch_chunks unique_chunks batch_size = Some batched_chunks ->
  exists sections,
    notes_of text_chunks similarity_threshold batch_size
    = Ret (notes_document sections).
Proof.
  intros Hdedup Hbatch. unfold generate_notes. rewrite Hdedup, Hbatch.
  unfold merge_notes. rewrite NotesSpec.batches_notes_map.
  destruct (NotesSpec.merge_all_returns notes_prompt generate_content clean
              json_loads batched_chunks []) as [sections ->].
  exists sections. reflexivity.
Qed.

(** X12. The batch size is not checked: a negative [batch_size] makes no
    batch at all, so the notes come back empty without a call to the
    model; [batch_size = 0] raises. *)
Theorem generate_notes_batch_size_not_positive (text_chunks : list string)
    (similarity_threshold : Q) (batch_size : Z) (unique_chunks : list string) :
  deduplicate_chunks tfidf_cosine text_chunks similarity_threshold
    = Some unique_chunks ->
  (batch_size <= 0)%Z ->
  notes_of text_chunks similarity_threshold batch_size
  = if (batch_size =? 0)%Z then Raise else Ret (notes_document []).
Proof.
  intros Hdedup Hneg. unfold generate_notes, batch_chunks. rewrite Hdedup.
  destruct (Z.eqb_spec batch_size 0); [reflexivity|].
  destruct (Z.ltb_spec batch_size 0); [reflexivity|lia].
Qed.
End GenerateSpec.

Lemma generate_notes_returns_witness :
  exists sections,
    generate_notes two_by_five_tfidf (fun b => b) garbled_on_bad (fun t => t)
      loads_ok ["one"; "bad"] (85 # 100) 1
    = Ret (notes_document sections).
Proof.
  apply (generate_notes_returns two_by_five_tfidf (fun b => b) garbled_on_bad
           (fun t => t) loads_ok ["one"; "bad"] (85 # 100) 1
           ["one"; "bad"] ["one"; "bad"] eq_refl eq_refl).
Defined.

Lemma generate_notes_batch_size_not_positive_witness :
  generate_notes two_by_five_tfidf (fun b => b) garbled_on_bad (fun t => t)
    loads_ok ["one"; "two"] (85 # 100) (-1)
  = Ret (notes_document []).
Proof.
  apply (generate_notes_batch_size_not_positive two_by_five_tfidf (fun b => b)
           garbled_on_bad (fun t => t) loads_ok ["one"; "two"] (85 # 100) (-1)
           ["one"; "two"] eq_refl).
  lia.
Defined.

(** *** Rendering to Markdown *)

(** A loop whose every turn appends to the text only appends. *)
Lemma for_each_appends {A} (step : string -> A -> outcome string) (xs : list A) :
  (forall acc x acc', step acc x = Ret acc' -> exists suffix, acc' = acc ++ suffix) ->
  forall acc acc',
    for_each step xs acc = Ret acc' -> exists suffix, acc' = acc ++ suffix.
Proof.
  intros Hstep. induction xs as [|x xs IH]; intros acc acc'; simpl.
  - intros [= <-]. exists "". symmetry. apply append_empty_r.
  - destruct (step acc x) as [acc1|] eqn:H1; [|discriminate]. simpl.
    intros H2. destruct (Hstep _ _ _ H1) as [s1 ->].
    destruct (IH _ _ H2) as [s2 ->]. exists (s1 ++ s2). apply append_assoc.
Qed.

Section MarkdownSpec.
Variable py_str : json -> string.

Local Abbreviation to_markdown := (convert_notes_to_markdown py_str).
Local Abbreviation section_step := (render_section py_str).

Lemma render_subsection_appends acc x acc' :
  render_subsection py_str acc x = Ret acc' -> exists suffix, acc' = acc ++ suffix.
Proof.
  unfold render_subsection. destruct x as [| | | | |sub]; try discriminate.
  destruct (iter_items _) as [points|]; [|discriminate]. cbn [bind].
  destruct (for_each _ points _) as [md|] eqn:Hpts; [|discriminate].
  cbn [bind]. intros [= <-].
  apply for_each_appends in Hpts.
  - destruct Hpts as [s ->]. eexists. rewrite !append_assoc. reflexivity.
  - intros a p a'. unfold render_point. intros [= <-]. eauto.
Qed.

Lemma render_term_appends acc x acc' :
  render_term py_str acc x = Ret acc' -> exists suffix, acc' = acc ++ suffix.
Proof.
  unfold render_term. destruct x as [| | | | |t]; try discriminate.
  intros [= <-]. eauto.
Qed.

Lemma render_examples_append (xs : list json) :
  forall acc idx acc',
    for_each (render_example py_str) xs (acc, idx) = Ret acc' ->
    exists suffix, acc'.1 = acc ++ suffix.
Proof.
  induction xs as [|x xs IH]; intros acc idx acc'; simpl.
  - intros [= <-]. exists "". symmetry. apply append_empty_r.
  - intros H. destruct (IH _ _ _ H) as [s Hs]. rewrite Hs.
    eexists. rewrite !append_assoc. reflexivity.
Qed.

(** A rendered section is the text so far, the heading, and more. *)
Lemma render_section_heading acc (sec : list (string * json)) acc' :
  section_step acc (JObj sec) = Ret acc' ->
  exists more, acc' = acc ++ heading py_str sec ++ more.
Proof.
  unfold render_section, heading.
  set (titled := acc ++ "## "
                   ++ fmt py_str (get_or sec "title" (JStr "Untitled Section"))
                   ++ NL ++ NL).
  set (with_content :=
         if truthy (get_or sec "content" JNull)
         then titled ++ fmt py_str (get_or sec "content" JNull) ++ NL ++ NL
         else titled).
  assert (H0 : exists s, with_content = titled ++ s).
  { unfold with_content. destruct (truthy _); [eauto|].
    exists "". symmetry. apply append_empty_r. }
  destruct H0 as [s0 H0]. rewrite H0. clear H0 with_content.
  destruct (iter_items (get_or sec "subsections" (JArr []))) as [subs|];
    [|discriminate]. cbn [bind].
  destruct (for_each _ subs _) as [md1|] eqn:H1; [|discriminate]. cbn [bind].
  apply (for_each_appends _ _ render_subsection_appends) in H1.
  destruct H1 as [s1 ->].
  assert (H2 : forall md2,
             (if truthy (get_or sec "key_terms" JNull)
              then bind (iter_items (get_or sec "key_terms" JNull))
                     (fun terms =>
                        for_each (render_term py_str) terms
                          (((titled ++ s0) ++ s1) ++ "#### Key Terms" ++ NL ++ NL))
              else Ret ((titled ++ s0) ++ s1)) = Ret md2 ->
             exists s2, md2 = ((titled ++ s0) ++ s1) ++ s2).
  { intros md2. destruct (truthy _).
    - destruct (iter_items _) as [terms|]; [|discriminate]. cbn [bind].
      intros H. apply (for_each_appends _ _ render_term_appends) in H.
      destruct H as [s ->]. eexists. rewrite !append_assoc. reflexivity.
    - intros [= <-]. exists "". symmetry. apply append_empty_r. }
  destruct (if truthy (get_or sec "key_terms" JNull) then _ else _)
    as [md2|]; [|discriminate].
  destruct (H2 md2 eq_refl) as [s2 ->]. clear H2. cbn [bind].
  assert (H3 : forall md3,
             (if truthy (get_or sec "examples" JNull)
              then bind (iter_items (get_or sec "examples" JNull))
                     (fun examples =>
                        bind (for_each (render_example py_str) examples
                                ((((titled ++ s0) ++ s1) ++ s2)
                                   ++ "#### Examples" ++ NL ++ NL, 1%nat))
                          (fun acc => Ret (acc.1 ++ NL)))
              else Ret (((titled ++ s0) ++ s1) ++ s2)) = Ret md3 ->
             exists s3, md3 = (((titled ++ s0) ++ s1) ++ s2) ++ s3).
  { intros md3. destruct (truthy _).
    - destruct (iter_items _) as [examples|]; [|discriminate]. cbn [bind].
      destruct (for_each _ examples _) as [acc3|] eqn:H; [|discriminate].
      cbn [bind]. intros [= <-].
      apply render_examples_append in H. destruct H as [s ->].
      eexists. rewrite !append_assoc. reflexivity.
    - intros [= <-]. exists "". symmetry. apply append_empty_r. }
  destruct (if truthy (get_or sec "examples" JNull) then _ else _)
    as [md3|]; [|discriminate].
  destruct (H3 md3 eq_refl) as [s3 ->]. clear H3. cbn [bind].
  intros [= <-]. unfold titled. eexists. rewrite !append_assoc. reflexivity.
Qed.

Lemma render_sections_headings (sections : list json) :
  forall acc md,
    for_each section_step sections acc = Ret md ->
    (exists more, md = acc ++ more) /\
    (forall sec, JObj sec ∈ sections -> occurs (heading py_str sec) md).
Proof.
  induction sections as [|x sections IH]; intros acc md; simpl.
  - intros [= <-]. split.
    + exists "". symmetry. apply append_empty_r.
    + intros sec Hin. apply elem_of_nil in Hin. destruct Hin.
  - destruct (section_step acc x) as [md1|] eqn:H1; [|discriminate]. simpl.
    intros H2. destruct (IH _ _ H2) as [[more2 ->] Hrest].
    assert (Hx : exists sec, x = JObj sec)
      by (destruct x; try discriminate; eauto).
    destruct Hx as [secx ->].
    destruct (render_section_heading _ _ _ H1) as [more1 ->].
    split.
    + eexists. rewrite !append_assoc. reflexivity.
    + intros sec Hin. apply elem_of_cons in Hin. destruct Hin as [Heq|Hin].
      * injection Heq as <-. exists acc, (more1 ++ more2).
        rewrite !append_assoc. reflexivity.
      * apply Hrest. exact Hin.
Qed.

Lemma render_sections_objects (sections : list json) :
  forall acc md,
    for_each section_step sections acc = Ret md ->
    forall section, section ∈ sections -> exists sec, section = JObj sec.
Proof.
  induction sections as [|x sections IH]; intros acc md Hrun section Hin.
  - apply elem_of_nil in Hin. destruct Hin.
  - apply elem_of_cons in Hin. simpl in Hrun.
    destruct (section_step acc x) as [md1|] eqn:H1; [|discriminate].
    destruct Hin as [->|Hin].
    + destruct x; try discriminate. eauto.
    + exact (IH _ _ Hrun section Hin).
Qed.

(** X13. When [convert_notes_to_markdown] returns, the text opens with
    the title as a first-level heading, and every section of the
    document has its title in it as a second-level heading (['Untitled
    Section'] when it has none), followed by a blank line. *)
Theorem markdown_has_headings (notes : list (string * json))
    (sections : list json) (markdown : string) :
  get_or notes "sections" (JArr []) = JArr sections ->
  to_markdown (JObj notes) = Ret markdown ->
  (exists rest,
     markdown = "# " ++ fmt py_str (get_or notes "title" (JStr "Notes"))
                  ++ NL ++ NL ++ rest) /\
  (forall section, section ∈ sections ->
     exists sec, section = JObj sec /\ occurs (heading py_str sec) markdown).
Proof.
  intros Hsec. unfold convert_notes_to_markdown. rewrite Hsec. cbn [iter_items bind].
  intros Hrun. destruct (render_sections_headings _ _ _ Hrun) as [[more ->] Hall].
  split.
  - exists more. rewrite !append_assoc. reflexivity.
  - intros section Hin.
    destruct (render_sections_objects _ _ _ Hrun section Hin) as [sec Hobj].
    assert (Hobj' : exists sec, section = JObj sec) by eauto. clear sec Hobj.
    rename Hobj' into Hobj.
    destruct Hobj as [sec ->]. exists sec. split; [reflexivity|].
    apply Hall. exact Hin.
Qed.
End MarkdownSpec.

Lemma markdown_has_headings_witness :
  convert_notes_to_markdown (fun _ => "?")
    (JObj [("title", JStr "Generated Notes");
           ("sections", JArr [JObj [("title", JStr "Cells");
                                    ("examples", JArr [JStr "yeast"])]])])
  = Ret ("# Generated Notes" ++ NL ++ NL ++ "## Cells" ++ NL ++ NL
         ++ "#### Examples" ++ NL ++ NL ++ "1. yeast" ++ NL ++ NL
         ++ "---" ++ NL ++ NL) /\
  exists sec,
    JObj [("title", JStr "Cells"); ("examples", JArr [JStr "yeast"])] = JObj sec /\
    occurs (heading (fun _ => "?") sec)
      ("# Generated Notes" ++ NL ++ NL ++ "## Cells" ++ NL ++ NL
       ++ "#### Examples" ++ NL ++ NL ++ "1. yeast" ++ NL ++ NL
       ++ "---" ++ NL ++ NL).
Proof.
  split; [vm_compute; reflexivity|].
  refine (proj2 (markdown_has_headings (fun _ => "?")
                   [("title", JStr "Generated Notes");
                    ("sections", JArr [JObj [("title", JStr "Cells");
                                             ("examples", JArr [JStr "yeast"])]])]
                   [JObj [("title", JStr "Cells"); ("examples", JArr [JStr "yeast"])]]
                   _ eq_refl _) _ _).
  - vm_compute. reflexivity.
  - apply list_elem_of_singleton. reflexivity.
Defined.

(** X14. When the answer of every batch fails to parse, the notes are
    the empty document, and its Markdown is the title line alone. *)
Theorem failed_generation_is_empty_notes
    (tfidf_cosine : list string -> option (list (list Q)))
    (notes_prompt : string -> string)
    (generate_content : string -> outcome string)
    (clean : string -> string)
    (json_loads : string -> option json)
    (py_str : json -> string)
    (text_chunks : list string) (similarity_threshold : Q) (batch_size : Z)
    (unique_chunks batched_chunks : list string) :
  deduplicate_chunks tfidf_cosine text_chunks similarity_threshold
    = Some unique_chunks ->
  batch_chunks unique_chunks batch_size = Some batched_chunks ->
  Forall (notes_parse_fails notes_prompt generate_content clean json_loads)
    batched_chunks ->
  generate_notes tfidf_cosine notes_prompt generate_content clean json_loads
    text_chunks similarity_threshold batch_size
  = Ret (notes_document []) /\
  convert_notes_to_markdown py_str (notes_document [])
  = Ret ("# Generated Notes" ++ NL ++ NL).
Proof.
  intros Hdedup Hbatch Hfail. split; [|reflexivity].
  unfold generate_notes. rewrite Hdedup, Hbatch.
  unfold merge_notes. rewrite NotesSpec.batches_notes_map.
  rewrite (merge_failed_batches _ _ _ _ _ Hfail). reflexivity.
Qed.

Lemma failed_generation_is_empty_notes_witness :
  generate_notes two_by_five_tfidf (fun b => b) garbled_on_bad (fun t => t)
    loads_ok ["bad"] (85 # 100) 7
  = Ret (notes_document []).
Proof.
  refine (proj1 (failed_generation_is_empty_notes two_by_five_tfidf (fun b => b)
                   garbled_on_bad (fun t => t) loads_ok (fun _ => "")
                   ["bad"] (85 # 100) 7 ["bad"] ["bad"] eq_refl eq_refl _)).
  constructor; [|constructor].
  exists "I cannot help with that". split; reflexivity.
Defined.

(** *** Cleaning the model's answer *)

(** Text without a backquote passes the fence removal untouched. *)
Lemma remove_fences_plain (fence' plain rest : string) :
  char_in "`"%char plain = false ->
  remove_fences (String "`"%char fence') 0 false (plain ++ rest)
  = plain ++ remove_fences (String "`"%char fence') 0 false rest.
Proof.
  induction plain as [|c plain IH]; intros Hplain; [reflexivity|].
  cbn [char_in] in Hplain.
  destruct (Ascii.eqb_spec "`"%char c) as [|Hne]; [discriminate|].
  change (String c plain ++ rest) with (String c (plain ++ rest)).
  change (String c plain ++ remove_fences (String "`"%char fence') 0 false rest)
    with (String c (plain ++ remove_fences (String "`"%char fence') 0 false rest)).
  cbn [remove_fences andb String.prefix].
  destruct (ascii_dec "`"%char c) as [Heq|_]; [contradiction|].
  rewrite IH by exact Hplain. reflexivity.
Qed.

Lemma from_first_brace_skips (before rest : string) :
  char_in "{"%char before = false ->
  from_first_brace (before ++ "{" ++ rest) = Some ("{" ++ rest).
Proof.
  induction before as [|c before IH]; intros Hb; [reflexivity|].
  cbn [char_in] in Hb.
  change (String c before ++ "{" ++ rest) with (String c (before ++ "{" ++ rest)).
  cbn [from_first_brace].
  destruct (Ascii.eqb_spec c "{"%char) as [->|_].
  - rewrite Ascii.eqb_refl in Hb. discriminate.
  - destruct (Ascii.eqb "{"%char c); [discriminate|]. apply IH. exact Hb.
Qed.

Lemma upto_last_brace_none (after : string) :
  char_in "}"%char after = false -> upto_last_brace after = None.
Proof.
  induction after as [|c after IH]; intros Ha; [reflexivity|].
  cbn [char_in] in Ha. cbn [upto_last_brace].
  destruct (Ascii.eqb_spec "}"%char c) as [|Hne]; [discriminate|].
  rewrite IH by exact Ha.
  destruct (Ascii.eqb_spec c "}"%char) as [->|_]; [contradiction|reflexivity].
Qed.

Lemma upto_last_brace_app (a rest found : string) :
  upto_last_brace rest = Some found ->
  upto_last_brace (a ++ rest) = Some (a ++ found).
Proof.
  intros Hrest. induction a as [|c a IH]; [exact Hrest|].
  change (String c a ++ rest) with (String c (a ++ rest)).
  change (String c a ++ found) with (String c (a ++ found)).
  cbn [upto_last_brace]. rewrite IH. reflexivity.
Qed.

Lemma search_object_finds (body after : string) :
  char_in "}"%char after = false ->
  search_object ("{" ++ body ++ "}" ++ after) = Some ("{" ++ body ++ "}").
Proof.
  intros Ha. unfold search_object.
  change ("{" ++ body ++ "}" ++ after) with (String "{"%char (body ++ "}" ++ after)).
  cbn [from_first_brace Ascii.eqb Bool.eqb].
  change (String "{"%char (body ++ "}" ++ after)) with ("{" ++ body ++ "}" ++ after).
  apply (upto_last_brace_app "{"). apply upto_last_brace_app.
  change ("}" ++ after) with (String "}"%char after).
  cbn [upto_last_brace]. rewrite (upto_last_brace_none _ Ha). reflexivity.
Qed.

Lemma strip_object (body : string) :
  strip WHITESPACE ("{" ++ body ++ "}") = "{" ++ body ++ "}".
Proof.
  unfold strip.
  assert (Hl : lstrip WHITESPACE ("{" ++ body ++ "}") = "{" ++ body ++ "}")
    by reflexivity.
  rewrite Hl.
  rewrite (QuizMore.rstrip_app_nonempty WHITESPACE "{" (body ++ "}")).
  - rewrite (QuizMore.rstrip_app_nonempty WHITESPACE body "}"); [reflexivity|].
    vm_compute. discriminate.
  - rewrite (QuizMore.rstrip_app_nonempty WHITESPACE body "}");
      [|vm_compute; discriminate].
    destruct body; discriminate.
Qed.

(** X15. [clean_json_response] hands back the JSON object alone: out of
    a Markdown code fence ([```json], newline, object, newline, [```]),
    and out of surrounding prose (with no brace of its own on the
    outside), for an object that holds no backquote. *)
Theorem clean_json_response_extracts (body : string) :
  char_in "`"%char body = false ->
  clean_json_response
    (Quiz.FENCE ++ "json" ++ NL ++ "{" ++ body ++ "}" ++ NL ++ Quiz.FENCE)
    = "{" ++ body ++ "}" /\
  (forall before after,
     char_in "`"%char before = false -> char_in "`"%char after = false ->
     char_in "{"%char before = false -> char_in "}"%char after = false ->
     clean_json_response (before ++ "{" ++ body ++ "}" ++ after)
     = "{" ++ body ++ "}").
Proof.
  intros Hbody. split.
  - unfold clean_json_response.
    change (Quiz.FENCE ++ "json") with (String "`"%char "``json").
    change Quiz.FENCE with (String "`"%char "``").
    assert (H1 : remove_fences (String "`"%char "``json") 0 false
                   (String "`"%char "``" ++ "json" ++ NL ++ "{" ++ body ++ "}"
                      ++ NL ++ String "`"%char "``")
                 = "{" ++ remove_fences (String "`"%char "``json") 0 false
                            (body ++ "}" ++ NL ++ String "`"%char "``"))
      by reflexivity.
    rewrite H1.
    rewrite (remove_fences_plain _ body _ Hbody).
    assert (H2 : remove_fences (String "`"%char "``json") 0 false
                   ("}" ++ NL ++ String "`"%char "``")
                 = "}" ++ NL ++ String "`"%char "``") by reflexivity.
    rewrite H2.
    assert (H3 : remove_fences (String "`"%char "``") 0 false
                   ("{" ++ body ++ "}" ++ NL ++ String "`"%char "``")
                 = "{" ++ remove_fences (String "`"%char "``") 0 false
                            (body ++ "}" ++ NL ++ String "`"%char "``"))
      by reflexivity.
    rewrite H3.
    rewrite (remove_fences_plain _ body _ Hbody).
    assert (H4 : remove_fences (String "`"%char "``") 0 false
                   ("}" ++ NL ++ String "`"%char "``")
                 = "}" ++ NL) by reflexivity.
    rewrite H4.
    rewrite (search_object_finds body NL eq_refl). apply strip_object.
  - intros before after Hb Ha Hob Hca. unfold clean_json_response.
    assert (Hplain : char_in "`"%char (before ++ "{" ++ body ++ "}" ++ after) = false).
    { rewrite !char_in_app, Hb, Hbody, Ha. reflexivity. }
    assert (Hid : forall fence',
               remove_fences (String "`"%char fence') 0 false
                 (before ++ "{" ++ body ++ "}" ++ after)
               = before ++ "{" ++ body ++ "}" ++ after).
    { intros fence'.
      rewrite <- (append_empty_r (before ++ "{" ++ body ++ "}" ++ after)) at 1.
      rewrite (remove_fences_plain _ _ "" Hplain). apply append_empty_r. }
    change (Quiz.FENCE ++ "json") with (String "`"%char "``json").
    change Quiz.FENCE with (String "`"%char "``").
    rewrite !Hid. unfold search_object.
    rewrite (from_first_brace_skips _ _ Hob).
    fold (search_object ("{" ++ body ++ "}" ++ after)).
    pose proof (search_object_finds body after Hca) as Hfind.
    unfold search_object in Hfind |- *.
    change ("{" ++ body ++ "}" ++ after)
      with (String "{"%char (body ++ "}" ++ after)) in Hfind.
    cbn [from_first_brace Ascii.eqb Bool.eqb] in Hfind.
    change (String "{"%char (body ++ "}" ++ after))
      with ("{" ++ body ++ "}" ++ after) in Hfind.
    rewrite Hfind. apply strip_object.
Qed.

Lemma clean_json_response_extracts_witness :
  clean_json_response
    ("Here are your notes: " ++ "{" ++ "'sections': []" ++ "}" ++ " Enjoy!")
  = "{" ++ "'sections': []" ++ "}".
Proof.
  refine (proj2 (clean_json_response_extracts "'sections': []" eq_refl)
            "Here are your notes: " " Enjoy!" eq_refl eq_refl eq_refl eq_refl).
Defined.

End NotesMore.

Module CacheMore.
Import Py Cache Terms MoreTerms PathSpec.

(** *** Entries and files *)

Section Reads.
Variable fs : filesystem.
Variable cache_dir : string.

(** What a read returns depends on the file of its key alone. *)
Lemma read_depends_on_own_file (files files' : store) (now : Q) (k : string) :
  file_at fs files (_get_cache_path cache_dir k)
  = file_at fs files' (_get_cache_path cache_dir k) ->
  (get_from_cache fs cache_dir files now k).1
  = (get_from_cache fs cache_dir files' now k).1.
Proof.
  unfold file_at, get_from_cache.
  destruct (locate fs (_get_cache_path cache_dir k)) as [file|];
    [|reflexivity].
  intros H. rewrite H.
  destruct (files' !! file) as [[| | | | |d]|]; try reflexivity.
  destruct (dict_get "timestamp" d) as [ts|]; [|reflexivity].
  destruct (as_number ts) as [t|]; [|reflexivity].
  destruct (Qlt_le_dec CACHE_TIMEOUT (now - t)); [reflexivity|].
  destruct (dict_get "data" d); reflexivity.
Qed.

(** A write to another file, or a write that raises, leaves the file of
    a path as it was. *)
Lemma save_keeps_other_files (files : store) (t : Q) (data : json)
    (k path : string) :
  (forall file, locate fs (_get_cache_path cache_dir k) = Some file ->
                locate fs path <> Some file) ->
  file_at fs (save_to_cache fs cache_dir files t data k).2 path
  = file_at fs files path.
Proof.
  intros Hne. unfold save_to_cache, file_at.
  destruct (locate fs (_get_cache_path cache_dir k)) as [file|];
    [|reflexivity].
  cbn [snd]. destruct (locate fs path) as [file'|] eqn:Hloc;
    [|reflexivity].
  apply lookup_insert_ne. intros ->. exact (Hne file' eq_refl eq_refl).
Qed.

(** X16. Two different ids without ["/"] have different cache files:
    saving under one leaves what a read under the other returns as it
    was.  An id is not a file, though: when the paths of two ids lead
    to the same file, as those of [a] and [./a] do, what is saved under
    one is what a read under the other returns. *)
Theorem cache_ids_do_not_interfere (files : store) (k1 k2 : string)
    (data : json) (t now : Q) :
  k1 <> k2 ->
  (char_in "/" k1 = false -> char_in "/" k2 = false ->
   (get_from_cache fs cache_dir
      (save_to_cache fs cache_dir files t data k1).2 now k2).1
   = (get_from_cache fs cache_dir files now k2).1) /\
  (forall file : string,
     locate fs (_get_cache_path cache_dir k1) = Some file ->
     locate fs (_get_cache_path cache_dir k2) = Some file ->
     (now - t <= CACHE_TIMEOUT)%Q ->
     (get_from_cache fs cache_dir
        (save_to_cache fs cache_dir files t data k1).2 now k2).1
     = Ret data).
Proof.
  intros Hne. split.
  - intros H1 H2. apply read_depends_on_own_file, save_keeps_other_files.
    intros file.
    rewrite (locate_plain fs cache_dir k1 H1).
    rewrite (locate_plain fs cache_dir k2 H2).
    destruct (accepts fs (_get_cache_path cache_dir k1)); [|discriminate].
    destruct (accepts fs (_get_cache_path cache_dir k2)); [|discriminate].
    destruct (resolve_dir fs (dirname (path_join cache_dir ""))) as [directory|];
      [|discriminate].
    intros [= <-] [= Heq]. apply Hne.
    apply append_inj_l in Heq. apply (append_inj_l "/") in Heq.
    apply append_inj_l in Heq. symmetry. exact (append_inj_r _ _ _ Heq).
  - intros file Hloc1 Hloc2 Hfresh.
    rewrite (CacheSpec.save_located fs cache_dir files t data k1 file Hloc1).
    cbn [snd].
    rewrite (CacheSpec.get_fresh fs cache_dir _ now t data k2);
      [reflexivity| |exact Hfresh].
    rewrite (CacheSpec.file_at_located fs _ _ file Hloc2).
    apply lookup_insert_eq.
Qed.
End Reads.

Lemma cache_ids_do_not_interfere_witness :
  (get_from_cache cache_folder_and_dot "cache"
     (save_to_cache cache_folder_and_dot "cache" ∅ 1700000001 (JStr "new")
        "yt_u1_abc").2 1700000002 "./yt_u1_abc").1
  = Ret (JStr "new").
Proof.
  refine (proj2 (cache_ids_do_not_interfere cache_folder_and_dot "cache" ∅
                   "yt_u1_abc" "./yt_u1_abc" (JStr "new")
                   1700000001 1700000002 _)
            "cache/yt_u1_abc.json" eq_refl eq_refl _).
  - discriminate.
  - vm_compute. discriminate.
Defined.

(** *** The sweep *)

Section Sweep.
Variable fs : filesystem.
Variable cache_dir : string.
Variable now : Q.

Local Abbreviation path := (path_join cache_dir).

Lemma file_at_delete_ne (files : store) (file p : string) :
  locate fs p <> Some file ->
  file_at fs (delete file files) p = file_at fs files p.
Proof.
  intros Hne. unfold file_at.
  destruct (locate fs p) as [file'|]; [|reflexivity].
  apply lookup_delete_ne. congruence.
Qed.

Lemma sweep_spec (listing : list string) :
  NoDup ((fun name => locate fs (path name)) <$> listing) ->
  forall files,
    holds_entries fs cache_dir files listing ->
    exists swept,
      clear_expired_cache fs cache_dir files listing now = (Ret tt, swept) /\
      (forall f, swept !! f = files !! f \/
                 (swept !! f = None /\
                  exists t d, files !! f = Some (entry t d) /\
                              (CACHE_TIMEOUT < now - t)%Q)) /\
      (forall name t d,
         name ∈ listing -> endswith name ".json" = true ->
         file_at fs files (path name) = Some (entry t d) ->
         ((CACHE_TIMEOUT < now - t)%Q ->
          file_at fs swept (path name) = None) /\
         ((now - t <= CACHE_TIMEOUT)%Q ->
          file_at fs swept (path name) = Some (entry t d))).
Proof.
  induction listing as [|name listing IH]; intros Hdup files Hent.
  - exists files. split; [reflexivity|]. split; [auto|].
    intros name t d Hin. apply elem_of_nil in Hin. destruct Hin.
  - rewrite fmap_cons in Hdup. apply NoDup_cons in Hdup.
    destruct Hdup as [Hfresh Hdup].
    assert (Hother : forall name', name' ∈ listing ->
              locate fs (path name') <> locate fs (path name)).
    { intros name' Hin Heq. apply Hfresh. rewrite <- Heq.
      apply (list_elem_of_fmap_2 (fun name => locate fs (path name))).
      exact Hin. }
    cbn [clear_expired_cache]. unfold sweep_file.
    destruct (endswith name ".json") eqn:Hjson; cbn [negb].
    + destruct (Hent name) as [t [d Hfile]]; [apply elem_of_cons; auto|exact Hjson|].
      unfold file_at in Hfile.
      destruct (locate fs (path name)) as [file|] eqn:Hloc; [|discriminate].
      rewrite Hfile. unfold entry. cbn [dict_get String.eqb Ascii.eqb Bool.eqb as_number].
      fold (entry t d).
      destruct (Qlt_le_dec CACHE_TIMEOUT (now - t)) as [Hexp|Hok].
      * destruct (IH Hdup (delete file files)) as [swept [Hrun [Hsub Hnames]]].
        { intros name' Hin Hj. destruct (Hent name') as [t' [d' H']];
            [apply elem_of_cons; auto|exact Hj|].
          exists t', d'. rewrite file_at_delete_ne by (apply Hother, Hin).
          exact H'. }
        exists swept. split; [exact Hrun|]. split.
        -- intros p. destruct (decide (p = file)) as [->|Hp].
           ++ right. split; [|eauto].
              destruct (Hsub file) as [H|[H _]]; [|exact H].
              rewrite H. apply lookup_delete_eq.
           ++ destruct (Hsub p) as [H|[H [t' [d' [H' Ht']]]]].
              ** left. rewrite H. apply lookup_delete_ne. congruence.
              ** right. split; [exact H|]. exists t', d'.
                 rewrite lookup_delete_ne in H' by congruence. auto.
        -- intros name' t' d' Hin Hj Hf. apply elem_of_cons in Hin.
           destruct Hin as [->|Hin].
           ++ unfold file_at in Hf |- *. rewrite Hloc in Hf |- *.
              rewrite Hfile in Hf. injection Hf as <- <-.
              split; [|intros Hle; exfalso; exact (Qlt_not_le _ _ Hexp Hle)].
              intros _. destruct (Hsub file) as [H|[H _]]; [|exact H].
              rewrite H. apply lookup_delete_eq.
           ++ apply (Hnames name' t' d' Hin Hj).
              rewrite file_at_delete_ne by (apply Hother, Hin). exact Hf.
      * destruct (IH Hdup files) as [swept [Hrun [Hsub Hnames]]].
        { intros name' Hin Hj. apply Hent; [apply elem_of_cons; auto|exact Hj]. }
        exists swept. split; [exact Hrun|]. split; [exact Hsub|].
        intros name' t' d' Hin Hj Hf. apply elem_of_cons in Hin.
        destruct Hin as [->|Hin]; [|exact (Hnames name' t' d' Hin Hj Hf)].
        unfold file_at in Hf |- *. rewrite Hloc in Hf |- *.
        rewrite Hfile in Hf. injection Hf as <- <-.
        split; [intros Hlt; exfalso; exact (Qlt_not_le _ _ Hlt Hok)|].
        intros _. destruct (Hsub file) as [H|[_ [t' [d' [H' Ht']]]]].
        -- rewrite H. exact Hfile.
        -- rewrite Hfile in H'. injection H' as <- <-.
           exfalso. exact (Qlt_not_le _ _ Ht' Hok).
    + destruct (IH Hdup files) as [swept [Hrun [Hsub Hnames]]].
      { intros name' Hin Hj. apply Hent; [apply elem_of_cons; auto|exact Hj]. }
      exists swept. split; [exact Hrun|]. split; [exact Hsub|].
      intros name' t' d' Hin Hj Hf. apply elem_of_cons in Hin.
      destruct Hin as [->|Hin]; [congruence|].
      exact (Hnames name' t' d' Hin Hj Hf).
Qed.

(** X17. Over a cache folder whose [.json] files were all written by
    [save_to_cache], the sweep does not raise; it removes the listed
    entries that are older than the timeout, and nothing else: every
    other file is left as it was. *)
Theorem sweep_removes_expired_only (files : store) (listing : list string) :
  NoDup ((fun name => locate fs (path name)) <$> listing) ->
  holds_entries fs cache_dir files listing ->
  exists swept,
    clear_expired_cache fs cache_dir files listing now = (Ret tt, swept) /\
    (forall f, swept !! f = files !! f \/
               (swept !! f = None /\
                exists t d, files !! f = Some (entry t d) /\
                            (CACHE_TIMEOUT < now - t)%Q)) /\
    (forall name t d,
       name ∈ listing -> endswith name ".json" = true ->
       file_at fs files (path name) = Some (entry t d) ->
       ((CACHE_TIMEOUT < now - t)%Q ->
        file_at fs swept (path name) = None) /\
       ((now - t <= CACHE_TIMEOUT)%Q ->
        file_at fs swept (path name) = Some (entry t d))).
Proof. intros Hdup Hent. exact (sweep_spec listing Hdup files Hent). Qed.

(** X18. Over a cache folder whose [.json] files were all written by
    [save_to_cache], the sweep that runs before a request does not
    change what the request reads from the cache: at any later clock
    reading, a read after the sweep returns what the read without the
    sweep returns. *)
Theorem sweep_keeps_reads (files : store) (listing : list string)
    (later : Q) (cache_id : string) :
  NoDup ((fun name => locate fs (path name)) <$> listing) ->
  holds_entries fs cache_dir files listing ->
  (now <= later)%Q ->
  (get_from_cache fs cache_dir
     (clear_expired_cache fs cache_dir files listing now).2
     later cache_id).1
  = (get_from_cache fs cache_dir files later cache_id).1.
Proof.
  intros Hdup Hent Hlater.
  destruct (sweep_spec listing Hdup files Hent) as [swept [Hrun [Hsub _]]].
  rewrite Hrun. cbn [snd].
  destruct (locate fs (_get_cache_path cache_dir cache_id))
    as [file|] eqn:Hloc.
  - destruct (Hsub file) as [Hsame|[Hgone [t [d [Hfile Hexp]]]]].
    + apply read_depends_on_own_file.
      rewrite !(CacheSpec.file_at_located fs _ _ file Hloc). exact Hsame.
    + rewrite (CacheSpec.get_absent fs cache_dir swept later cache_id)
        by (rewrite (CacheSpec.file_at_located fs _ _ file Hloc);
            exact Hgone).
      rewrite (CacheSpec.get_expired fs cache_dir files later t d
                 cache_id file Hloc Hfile).
      * reflexivity.
      * unfold CACHE_TIMEOUT in *. lra.
  - apply read_depends_on_own_file.
    rewrite !(CacheSpec.file_at_unlocated fs _ _ Hloc). reflexivity.
Qed.
End Sweep.

Lemma sweep_removes_expired_only_witness :
  clear_expired_cache only_cache_folder "cache" mixed_cache
    ["README.txt"; "yt_u1_old.json"; "yt_u1_new.json"] 1700005400
  = (Ret tt, delete "cache/yt_u1_old.json" mixed_cache) /\
  exists swept,
    clear_expired_cache only_cache_folder "cache" mixed_cache
      ["README.txt"; "yt_u1_old.json"; "yt_u1_new.json"] 1700005400
    = (Ret tt, swept) /\
    swept !! "cache/yt_u1_new.json" = Some (entry 1700005340 (JStr "new")).
Proof.
  split; [vm_compute; reflexivity|].
  destruct (sweep_removes_expired_only only_cache_folder "cache" 1700005400
              mixed_cache ["README.txt"; "yt_u1_old.json"; "yt_u1_new.json"])
    as [swept [Hrun [_ Hnames]]].
  - vm_compute. repeat constructor; not_listed.
  - intros name Hin Hj.
    repeat (apply elem_of_cons in Hin; destruct Hin as [->|Hin]);
      [discriminate | | | apply elem_of_nil in Hin; destruct Hin];
      eexists _, _; vm_compute; reflexivity.
  - exists swept. split; [exact Hrun|].
    refine (proj2 (Hnames "yt_u1_new.json" 1700005340%Q (JStr "new") _ eq_refl _) _).
    + apply elem_of_cons; right. apply elem_of_cons; right.
      apply elem_of_cons; left. reflexivity.
    + vm_compute. reflexivity.
    + vm_compute. discriminate.
Defined.

Lemma sweep_keeps_reads_witness :
  (get_from_cache only_cache_folder "cache"
     (clear_expired_cache only_cache_folder "cache" mixed_cache
        ["README.txt"; "yt_u1_old.json"; "yt_u1_new.json"] 1700005400).2
     1700005401 "yt_u1_old").1
  = (get_from_cache only_cache_folder "cache" mixed_cache 1700005401 "yt_u1_old").1.
Proof.
  apply (sweep_keeps_reads only_cache_folder "cache" 1700005400 mixed_cache
           ["README.txt"; "yt_u1_old.json"; "yt_u1_new.json"]
           1700005401 "yt_u1_old").
  - vm_compute. repeat constructor; not_listed.
  - intros name Hin Hj.
    repeat (apply elem_of_cons in Hin; destruct Hin as [->|Hin]);
      [discriminate | | | apply elem_of_nil in Hin; destruct Hin];
      eexists _, _; vm_compute; reflexivity.
  - vm_compute. discriminate.
Defined.

End CacheMore.

Module IngestMore.
Import Py Ingest Terms MoreTerms.

(** *** What the diff reports *)

(** X19. The diff reports a file as new exactly when it is listed and
    the ledger has no record of it or an older one, and as removed
    exactly when the ledger has a record of it and it is no longer
    listed.  A changed file whose modification time did not move is not
    reported. *)
Theorem check_new_files_reports (w : world) (f : string) :
  (f ∈ (check_new_files w).1.1 <->
   f ∈ (glob_pdf w ++ glob_docx w)%list /\
   newer_on_disk (getmtime w) (get_user_processed_files w) f) /\
  (f ∈ (check_new_files w).1.2 <->
   is_Some (get_user_processed_files w !! f) /\
   f ∉ (glob_pdf w ++ glob_docx w)%list).
Proof.
  unfold check_new_files.
  set (all_files := (glob_pdf w ++ glob_docx w)%list).
  set (ledger0 := get_user_processed_files w).
  set (removed := filter (fun f => f ∉ all_files) (fst <$> map_to_list ledger0)).
  set (pruned := foldl (fun m f => delete f m) ledger0 removed).
  pose proof (IngestSpec.scan_new_spec (getmtime w) all_files [] pruned f) as Hnew.
  destruct (foldl (scan_file (getmtime w)) ([], pruned) all_files)
    as [new ledger] eqn:Hscan.
  simpl in Hnew |- *. split.
  - rewrite Hnew, IngestSpec.is_newer_spec.
    assert (Hp : f ∈ all_files -> pruned !! f = ledger0 !! f).
    { intros Hin. unfold pruned. rewrite IngestSpec.prune_lookup.
      rewrite decide_False; [reflexivity|].
      intros Hr. apply IngestSpec.removed_files_spec in Hr. tauto. }
    unfold newer_on_disk. split.
    + intros [H|[Hin Hn]]; [apply elem_of_nil in H; destruct H|].
      split; [exact Hin|]. rewrite <- (Hp Hin). exact Hn.
    + intros [Hin Hn]. right. split; [exact Hin|]. rewrite (Hp Hin). exact Hn.
  - apply IngestSpec.removed_files_spec.
Qed.

(** *** The ledger once the diff has run *)

Lemma check_new_files_keeps_listing (w : world) :
  glob_pdf (check_new_files w).2 = glob_pdf w /\
  glob_docx (check_new_files w).2 = glob_docx w /\
  getmtime (check_new_files w).2 = getmtime w /\
  vectordb_exists (check_new_files w).2 = vectordb_exists w.
Proof.
  unfold check_new_files. destruct (foldl _ _ _) as [new l']. simpl. auto.
Qed.

Lemma check_in_step_is_quiet (w : world) (ledger : gmap string Q) :
  state_file w = Some ledger ->
  dom ledger = list_to_set (glob_pdf w ++ glob_docx w)%list ->
  (forall f t, ledger !! f = Some t -> (getmtime w f <= t)%Q) ->
  check_new_files w = (([], []), w).
Proof.
  intros Hst Hdom Hrec. unfold check_new_files.
  unfold get_user_processed_files. rewrite Hst.
  set (all_files := (glob_pdf w ++ glob_docx w)%list) in *.
  assert (Hnone : filter (fun f => f ∉ all_files) (fst <$> map_to_list ledger) = []).
  { apply elem_of_nil_inv. intros f Hin. apply IngestSpec.removed_files_spec in Hin.
    destruct Hin as [Hsome Hnin]. apply Hnin.
    apply (elem_of_list_to_set (C := gset string)). rewrite <- Hdom.
    apply elem_of_dom. exact Hsome. }
  rewrite Hnone. cbn [foldl].
  rewrite IngestSpec.scan_stable.
  - unfold save_user_processed_files, set_state_file. rewrite <- Hst.
    destruct w; reflexivity.
  - intros f Hin.
    assert (Hd : f ∈ dom ledger)
      by (rewrite Hdom; apply elem_of_list_to_set; exact Hin).
    apply elem_of_dom in Hd. destruct Hd as [t Ht].
    exists t. split; [exact Ht|]. eapply Hrec. exact Ht.
Qed.

Lemma check_after_check (w : world) :
  check_new_files (check_new_files w).2 = (([], []), (check_new_files w).2).
Proof.
  destruct (IngestSpec.check_new_files_in_step w) as [ledger [Hst [Hdom Hrec]]].
  destruct (check_new_files_keeps_listing w) as [Hp [Hd [Hm _]]].
  apply (check_in_step_is_quiet _ ledger Hst).
  - rewrite Hp, Hd. exact Hdom.
  - intros f t Ht. rewrite Hm. exact (Hrec f t Ht).
Qed.

Section PipelineMore.
Variable get_text_from_file : string -> outcome string.
Variable split_documents : list (string * string) -> list (string * string).
Variable store_truthy : list event -> bool.

Local Abbreviation ingest :=
  (store_chroma_function get_text_from_file split_documents store_truthy).

(** X20. With no supported file left in the document folder, the
    pipeline returns no store, removes the index folder and the ledger
    file, and extracts, splits and embeds nothing. *)
Theorem store_chroma_empty_folder (w : world) :
  (glob_pdf w ++ glob_docx w)%list = [] ->
  exists after log,
    ingest w = (Ret None, after, log) /\
    state_file after = None /\
    vectordb_exists after = false /\
    Forall (fun e => is_ingest_call e = false) log.
Proof.
  intros Hempty. unfold store_chroma_function.
  destruct (check_new_files_keeps_listing w) as [Hp [Hd [_ Hv]]].
  assert (Hst : exists ledger, state_file (check_new_files w).2 = Some ledger).
  { destruct (IngestSpec.check_new_files_ledger w) as [ledger [H _]]. eauto. }
  destruct (check_new_files w) as [[new removed] w1]. simpl in *.
  destruct Hst as [ledger Hst].
  rewrite Hp, Hd, Hempty. rewrite (bool_decide_eq_true_2 ([] = []) eq_refl).
  assert (Hlog : forall l : list string,
             Forall (fun e => is_ingest_call e = false) (DeleteSource <$> l)).
  { intros l. apply Forall_fmap, Forall_forall. intros x _. reflexivity. }
  destruct (vectordb_exists w1) eqn:Hdb.
  - destruct (negb (bool_decide (removed = [])) && store_truthy [OpenStore]);
      destruct (store_truthy _); cbn [state_file set_vectordb_exists];
      rewrite Hst;
      eexists _, _; (split; [reflexivity|]); (split; [reflexivity|]);
      (split; [reflexivity|]);
      repeat (first [apply Forall_app; split | apply Forall_cons; split
                    | apply Forall_nil | apply Hlog | reflexivity]).
  - rewrite andb_false_r. rewrite Hst. simpl.
    eexists _, _. split; [reflexivity|]. split; [reflexivity|].
    split; [exact Hdb|]. repeat constructor.
Qed.

(** X21. A file is picked up once.  After any diff, the ledger is in
    step with the folder, so when the extraction of a new file raises,
    the pipeline raises with the ledger already written, and the next
    run, whatever the extraction would then return, finds nothing new
    and extracts, splits and embeds nothing. *)
Theorem failed_ingest_is_not_retried (w : world)
    (get_text_again : string -> outcome string)
    (split_again : list (string * string) -> list (string * string))
    (truthy_again : list event -> bool) :
  (ingest w).1.1 = Raise ->
  (ingest w).1.2 = (check_new_files w).2 /\
  Forall (fun e => is_ingest_call e = false)
    (store_chroma_function get_text_again split_again truthy_again
       (check_new_files w).2).2.
Proof.
  intros Hraise. split.
  - revert Hraise. unfold store_chroma_function.
    destruct (check_new_files w) as [[new removed] w1]. simpl.
    destruct (vectordb_exists w1);
      destruct (negb (bool_decide (removed = [])) && _);
      destruct (bool_decide _); simpl;
      repeat (match goal with
              | |- context [if ?b then _ else _] => destruct b
              | |- context [match state_file ?x with _ => _ end] =>
                  destruct (state_file x)
              | |- context [extract_all ?a ?b ?c] =>
                  destruct (extract_all a b c) as [[?|] ?]
              end; simpl); try discriminate; reflexivity.
  - unfold store_chroma_function. rewrite check_after_check.
    assert (Hnil : bool_decide (@nil string = []) = true)
      by (apply bool_decide_eq_true_2; reflexivity).
    rewrite Hnil. cbn [negb andb].
    destruct (vectordb_exists (check_new_files w).2);
      destruct (bool_decide _); simpl;
      repeat (match goal with
              | |- context [if ?b then _ else _] => destruct b
              | |- context [match state_file ?x with _ => _ end] =>
                  destruct (state_file x)
              end; simpl); repeat constructor.
Qed.
Lemma extract_all_returns (new_files : list string) (texts : list string) :
  Forall2 (fun f text => get_text_from_file f = Ret text) new_files texts ->
  forall docs log,
    extract_all get_text_from_file new_files docs log
    = (Ret (docs ++ zip texts new_files)%list,
       (log ++ (ExtractText <$> new_files))%list).
Proof.
  induction 1 as [|f text new_files texts Hf _ IH]; intros docs log.
  - simpl. rewrite !app_nil_r. reflexivity.
  - cbn [extract_all]. rewrite Hf, IH. cbn [zip zip_with fmap list_fmap].
    rewrite <- !app_assoc. reflexivity.
Qed.

(** X22. When the diff reports new files and their texts can be
    extracted, the pipeline extracts each new file once, in the order
    reported, splits the documents once, and hands the chunks to the
    store once (added to the store, or a new store built from them); it
    returns the store, and the ledger stays as the diff wrote it. *)
Theorem store_chroma_ingests_new_files (w : world) (texts : list string) :
  (check_new_files w).1.1 <> [] ->
  Forall2 (fun f text => get_text_from_file f = Ret text)
    (check_new_files w).1.1 texts ->
  exists after before upsert,
    let docs := zip texts (check_new_files w).1.1 in
    ingest w
    = (Ret (Some Chroma), after,
       (before ++ (ExtractText <$> (check_new_files w).1.1)
          ++ [SplitDocuments docs; upsert])%list) /\
    Forall (fun e => is_ingest_call e = false) before /\
    (upsert = AddDocuments (split_documents docs) \/
     upsert = FromDocuments (split_documents docs)) /\
    state_file after = state_file (check_new_files w).2.
Proof.
  intros Hnew Htexts. unfold store_chroma_function.
  destruct (check_new_files_keeps_listing w) as [Hp [Hd [_ Hv]]].
  assert (Hst : exists ledger, state_file (check_new_files w).2 = Some ledger).
  { destruct (IngestSpec.check_new_files_ledger w) as [ledger [H _]]. eauto. }
  assert (Hfiles : (glob_pdf w ++ glob_docx w)%list <> []).
  { intros Hempty. apply Hnew. unfold check_new_files. rewrite Hempty.
    reflexivity. }
  destruct (check_new_files w) as [[new removed] w1]. simpl in *.
  destruct Hst as [ledger Hst].
  rewrite Hp, Hd. rewrite (bool_decide_eq_false_2 _ Hfiles).
  rewrite (bool_decide_eq_false_2 _ Hnew).
  assert (Hlog : forall l : list string,
             Forall (fun e => is_ingest_call e = false) (DeleteSource <$> l)).
  { intros l. apply Forall_fmap, Forall_forall. intros x _. reflexivity. }
  assert (Hsave : forall b, state_file
                    (save_user_processed_files (set_vectordb_exists w1 b)
                       (get_user_processed_files (set_vectordb_exists w1 b)))
                  = Some ledger).
  { intros b. unfold save_user_processed_files, get_user_processed_files.
    cbn [state_file set_state_file set_vectordb_exists]. rewrite Hst. reflexivity. }
  assert (Hsave' : state_file
                     (save_user_processed_files w1 (get_user_processed_files w1))
                   = Some ledger).
  { unfold save_user_processed_files, get_user_processed_files.
    cbn [state_file set_state_file]. rewrite Hst. reflexivity. }
  assert (Hfinish : forall before vs,
    Forall (fun e => is_ingest_call e = false) before ->
    exists after before' upsert,
      (let '(vs, w0, log) :=
         if match vs with
            | Some _ =>
                store_truthy ((before ++ (ExtractText <$> new))
                                ++ [SplitDocuments ([] ++ zip texts new)])
            | None => false
            end
         then (vs, w1,
               (((before ++ (ExtractText <$> new))
                   ++ [SplitDocuments ([] ++ zip texts new)])
                  ++ [AddDocuments (split_documents ([] ++ zip texts new))])%list)
         else (Some Chroma, set_vectordb_exists w1 true,
               (((before ++ (ExtractText <$> new))
                   ++ [SplitDocuments ([] ++ zip texts new)])
                  ++ [FromDocuments (split_documents ([] ++ zip texts new))])%list)
       in (Ret vs, save_user_processed_files w0 (get_user_processed_files w0), log))
      = (Ret (Some Chroma), after,
         (before' ++ (ExtractText <$> new)
            ++ [SplitDocuments (zip texts new); upsert])%list) /\
      Forall (fun e => is_ingest_call e = false) before' /\
      (upsert = AddDocuments (split_documents (zip texts new)) \/
       upsert = FromDocuments (split_documents (zip texts new))) /\
      state_file after = state_file w1).
  { intros before vs Hbefore. rewrite Hst. cbn [app].
    destruct vs as [[]|].
    - destruct (store_truthy _).
      + eexists _, before, _. split; [rewrite <- !app_assoc; reflexivity|].
        split; [exact Hbefore|]. split; [left; reflexivity | exact Hsave'].
      + eexists _, before, _. split; [rewrite <- !app_assoc; reflexivity|].
        split; [exact Hbefore|]. split; [right; reflexivity | apply Hsave].
    - eexists _, before, _. split; [rewrite <- !app_assoc; reflexivity|].
      split; [exact Hbefore|]. split; [right; reflexivity | apply Hsave]. }
  destruct (vectordb_exists w1).
  - destruct (negb (bool_decide (removed = [])) && _);
      rewrite (extract_all_returns _ _ Htexts);
      apply (Hfinish _ (Some Chroma));
      repeat (first [apply Forall_app; split | apply Forall_cons; split
                    | apply Forall_nil | apply Hlog | reflexivity]).
  - rewrite andb_false_r, (extract_all_returns _ _ Htexts).
    apply (Hfinish [] None). constructor.
Qed.
End PipelineMore.

Lemma store_chroma_empty_folder_witness :
  store_chroma_function (fun _ => Ret "text") (fun docs => docs) (fun _ => true)
    emptied_folder
  = (Ret None,
     {| glob_pdf := []; glob_docx := []; getmtime := getmtime emptied_folder;
        state_file := None; vectordb_exists := false |},
     [OpenStore; DeleteSource "user_data/u1/data_files_u1/notes.pdf";
      DeleteAll; CloseStore; RemoveTree; RemoveStateFile]) /\
  exists after log,
    store_chroma_function (fun _ => Ret "text") (fun docs => docs) (fun _ => true)
      emptied_folder = (Ret None, after, log) /\
    state_file after = None.
Proof.
  split; [vm_compute; reflexivity|].
  destruct (store_chroma_empty_folder (fun _ => Ret "text") (fun docs => docs)
              (fun _ => true) emptied_folder eq_refl)
    as [after [log [Hrun [Hst _]]]].
  exists after, log. split; [exact Hrun | exact Hst].
Defined.

Lemma failed_ingest_is_not_retried_witness :
  (store_chroma_function (fun _ => Raise) (fun docs => docs) (fun _ => true)
     fresh_upload).1.1 = Raise /\
  Forall (fun e => is_ingest_call e = false)
    (store_chroma_function (fun _ => Ret "text") (fun docs => docs) (fun _ => true)
       (check_new_files fresh_upload).2).2.
Proof.
  split; [vm_compute; reflexivity|].
  refine (proj2 (failed_ingest_is_not_retried (fun _ => Raise) (fun docs => docs)
                   (fun _ => true) fresh_upload (fun _ => Ret "text")
                   (fun docs => docs) (fun _ => true) _)).
  vm_compute. reflexivity.
Defined.

Lemma store_chroma_ingests_new_files_witness :
  exists after before upsert,
    store_chroma_function (fun _ => Ret "text") (fun docs => docs) (fun _ => true)
      fresh_upload
    = (Ret (Some Chroma), after,
       (before ++ [ExtractText "user_data/u1/data_files_u1/notes.pdf"]
          ++ [SplitDocuments [("text", "user_data/u1/data_files_u1/notes.pdf")];
              upsert])%list) /\
    Forall (fun e => is_ingest_call e = false) before.
Proof.
  destruct (store_chroma_ingests_new_files (fun _ => Ret "text") (fun docs => docs)
              (fun _ => true) fresh_upload ["text"])
    as [after [before [upsert [Hrun [Hbefore _]]]]].
  - vm_compute. discriminate.
  - vm_compute. repeat constructor.
  - exists after, before, upsert. split; [exact Hrun | exact Hbefore].
Defined.

End IngestMore.

Module AppMore.
Import Py Cache App Terms MoreTerms PathSpec.

(** *** Uploaded file names *)

Lemma after_last_dot_none (name : string) :
  char_in "."%char name = false -> after_last_dot name = None.
Proof.
  induction name as [|c name IH]; intros H; [reflexivity|].
  cbn [char_in] in H. cbn [after_last_dot].
  destruct (Ascii.eqb_spec "."%char c) as [|Hne]; [discriminate|].
  rewrite IH by exact H.
  destruct (Ascii.eqb_spec c "."%char) as [->|_]; [contradiction|reflexivity].
Qed.

Lemma after_last_dot_app (stem extension : string) :
  char_in "."%char extension = false ->
  after_last_dot (stem ++ "." ++ extension) = Some extension.
Proof.
  intros Hext. induction stem as [|c stem IH].
  - change ("" ++ "." ++ extension) with (String "."%char extension).
    cbn [after_last_dot]. rewrite (after_last_dot_none _ Hext). reflexivity.
  - change (String c stem ++ "." ++ extension)
      with (String c (stem ++ "." ++ extension)).
    cbn [after_last_dot]. rewrite IH. reflexivity.
Qed.

(** X23. [allowed_file] looks at the text after the last dot only, and
    without regard to letter case: a name is accepted exactly when that
    text, in lower case, is [pdf] or [docx]; a name without a dot is
    refused.  So [NOTES.PDF] is accepted. *)
Theorem allowed_file_by_extension (stem extension : string) :
  char_in "."%char extension = false ->
  allowed_file (stem ++ "." ++ extension)
    = existsb (String.eqb (lower extension)) ["pdf"; "docx"] /\
  allowed_file extension = false /\
  allowed_file (stem ++ ".PDF") = true /\
  allowed_file (stem ++ ".pdf.exe") = false.
Proof.
  intros Hext. split; [|split; [|split]].
  - unfold allowed_file. rewrite (after_last_dot_app _ _ Hext). reflexivity.
  - unfold allowed_file. rewrite (after_last_dot_none _ Hext). reflexivity.
  - unfold allowed_file. change (stem ++ ".PDF") with (stem ++ "." ++ "PDF").
    rewrite (after_last_dot_app stem "PDF" eq_refl). reflexivity.
  - unfold allowed_file.
    assert (H : stem ++ ".pdf.exe" = (stem ++ ".pdf") ++ "." ++ "exe")
      by (symmetry; apply (PathSpec.append_assoc stem ".pdf" ".exe")).
    rewrite H, (after_last_dot_app _ "exe" eq_refl). reflexivity.
Qed.

Lemma allowed_file_by_extension_witness :
  allowed_file ("Lecture 1" ++ "." ++ "DocX") = true.
Proof.
  exact (proj1 (allowed_file_by_extension "Lecture 1" "DocX" eq_refl)).
Defined.

(** *** Transcripts *)

Lemma join_snippets (snippets : list string) :
  forall text,
    foldl (fun full_text snippet => full_text ++ snippet ++ " ") text snippets
    = text ++ foldl (fun full_text snippet => full_text ++ snippet ++ " ")
                "" snippets.
Proof.
  induction snippets as [|s snippets IH]; intros text; simpl.
  - symmetry. apply PathSpec.append_empty_r.
  - rewrite IH. rewrite (IH ("" ++ s ++ " ")).
    change ("" ++ s ++ " ") with (s ++ " ").
    rewrite !PathSpec.append_assoc. reflexivity.
Qed.

Lemma append_space_not_empty (s rest : string) :
  truthy (JStr ((s ++ " ") ++ rest)) = true.
Proof.
  rewrite PathSpec.append_assoc. destruct s; reflexivity.
Qed.

(** X24. The transcript is the snippets' texts, each followed by a
    space; it is the empty string, which the handlers take for a missing
    transcript, exactly when the video has no snippet. *)
Theorem transcript_empty_without_snippets
    (fetch : string -> outcome (list string)) (video_id : string)
    (snippets : list string) :
  fetch video_id = Ret snippets ->
  exists transcript,
    Youtube.get_transcript fetch video_id = Ret transcript /\
    transcript = String.concat "" ((fun s => s ++ " ") <$> snippets) /\
    truthy (JStr transcript) = negb (bool_decide (snippets = [])).
Proof.
  intros Hfetch. unfold Youtube.get_transcript. rewrite Hfetch.
  eexists. split; [reflexivity|]. split.
  - induction snippets as [|s snippets IH] in |- *; [reflexivity|].
    cbn [foldl fmap list_fmap]. rewrite join_snippets.
    change ("" ++ s ++ " ") with (s ++ " ").
    rewrite IH. clear IH.
    destruct snippets as [|s' snippets]; [|reflexivity].
    apply PathSpec.append_empty_r.
  - destruct snippets as [|s snippets]; [reflexivity|].
    cbn [foldl]. rewrite join_snippets.
    change ("" ++ s ++ " ") with (s ++ " ").
    rewrite append_space_not_empty. reflexivity.
Qed.

Lemma transcript_empty_without_snippets_witness :
  exists transcript,
    Youtube.get_transcript (fun _ => Ret ["hello"; "world"]) "abc" = Ret transcript /\
    transcript = "hello world ".
Proof.
  destruct (transcript_empty_without_snippets (fun _ => Ret ["hello"; "world"])
              "abc" ["hello"; "world"] eq_refl) as [transcript [Hrun [Htext _]]].
  exists transcript. split; [exact Hrun | exact Htext].
Defined.

Lemma joined_snippets_truthy (snippets : list string) :
  snippets <> [] ->
  truthy (JStr (foldl (fun full_text snippet => full_text ++ snippet ++ " ")
                  "" snippets)) = true.
Proof.
  destruct snippets as [|s snippets]; [contradiction|]. intros _.
  cbn [foldl]. rewrite join_snippets.
  change ("" ++ s ++ " ") with (s ++ " ").
  apply append_space_not_empty.
Qed.

(** *** The handlers and the cache *)

Lemma is_difficulty_plain (difficulty : json) (ds : string) :
  is_difficulty difficulty = Some ds -> char_in "/" ds = false.
Proof.
  unfold is_difficulty. destruct difficulty as [| | |s| |]; try discriminate.
  destruct (existsb (String.eqb s) ["mixed"; "easy"; "medium"; "hard"]) eqn:Hin;
    [|discriminate].
  intros [= <-]. cbn [existsb] in Hin.
  repeat (apply orb_true_iff in Hin; destruct Hin as [Hin|Hin]);
    try discriminate; apply String.eqb_eq in Hin; subst s; reflexivity.
Qed.

Section HandlersMore.
Variable fs : filesystem.
Variable cache_dir : string.
Variable extract_video_id : string -> option string.
Variable fetch : string -> outcome (list string).
Variable tfidf_cosine : list string -> option (list (list Q)).
Variable transcript_prompt : string -> string.
Variable generate_content : string -> outcome string.
Variable json_loads : string -> option json.
Variable vectorstore_documents : string -> doc_lookup.
Variable int_of_string : string -> option Z.
Variable float_of_string : string -> option Q.
Variable py_str : json -> string.

Local Abbreviation youtube :=
  (process_youtube fs cache_dir extract_video_id
     (Youtube.get_transcript fetch)).
Local Abbreviation quiz :=
  (generate_quiz fs cache_dir tfidf_cosine transcript_prompt
     generate_content json_loads vectorstore_documents int_of_string
     float_of_string py_str).

(** X25. A request for a video with at least one snippet and no cached
    transcript fetches the transcript.  Where the directory of the
    video's cache file exists, the transcript is cached, and the same
    request again, within the timeout of that write, is answered from
    the cache without a fetch and without touching the cache.  Where it
    does not exist (a video id with a ["/"] in it), the request is
    answered with the server error after the fetch, and nothing is
    cached. *)
Theorem youtube_second_request_is_a_hit (user_id : string)
    (data : list (string * json)) (url video_id : string)
    (snippets : list string) (files : store)
    (now_read1 now_write1 now_read2 now_write2 : Q) :
  dict_get "url" data = Some (JStr url) ->
  extract_video_id url = Some video_id ->
  video_id <> "" ->
  fetch video_id = Ret snippets ->
  snippets <> [] ->
  file_at fs files
    (_get_cache_path cache_dir ("yt_" ++ user_id ++ "_" ++ video_id)) = None ->
  (now_read2 - now_write1 <= CACHE_TIMEOUT)%Q ->
  let cache_id := "yt_" ++ user_id ++ "_" ++ video_id in
  let first := youtube user_id (Some data) files now_read1 now_write1 in
  first.2 = [video_id] /\
  (is_Some (locate fs (_get_cache_path cache_dir cache_id)) ->
   first.1.1
   = Reply 200 [("message", JStr "YouTube transcript processed successfully");
                ("cache_id", JStr cache_id);
                ("user_id", JStr user_id)] /\
   youtube user_id (Some data) first.1.2 now_read2 now_write2
   = (Reply 200 [("message", JStr "Transcript retrieved from cache");
                 ("cache_id", JStr cache_id);
                 ("user_id", JStr user_id)],
      first.1.2, [])) /\
  (locate fs (_get_cache_path cache_dir cache_id) = None ->
   first = (ServerError, files, [video_id])).
Proof.
  intros Hurl Hid Hne Hfetch Hsome Hmiss Hfresh. cbn zeta.
  unfold process_youtube.
  destruct data as [|kv data]; [discriminate|].
  rewrite Hurl, Hid.
  destruct video_id as [|c video_id]; [contradiction|].
  rewrite (CacheSpec.get_absent fs cache_dir files now_read1 _ Hmiss).
  cbn [truthy]. unfold Youtube.get_transcript. rewrite Hfetch.
  set (cache_id := "yt_" ++ user_id ++ "_" ++ String c video_id).
  set (transcript := foldl (fun full_text snippet => full_text ++ snippet ++ " ")
                       "" snippets).
  destruct (locate fs (_get_cache_path cache_dir cache_id))
    as [file|] eqn:Hloc.
  - rewrite (CacheSpec.save_located fs cache_dir files now_write1
               (JStr transcript) cache_id file Hloc).
    cbn [fst snd]. split; [reflexivity|]. split; [|discriminate].
    intros _. split; [reflexivity|].
    rewrite (CacheSpec.get_fresh fs cache_dir _ now_read2 now_write1
               (JStr transcript) cache_id);
      [| rewrite (CacheSpec.file_at_located fs _ _ file Hloc);
         apply lookup_insert_eq
       | exact Hfresh].
    unfold transcript. rewrite (joined_snippets_truthy _ Hsome). reflexivity.
  - rewrite (CacheSpec.save_unlocated fs cache_dir files now_write1
               (JStr transcript) cache_id Hloc).
    cbn [fst snd]. split; [reflexivity|]. split; [|reflexivity].
    intros [file Hfile]. discriminate.
Qed.

(** X26. A cached quiz is served before the form of [cache_id] is
    looked at: whoever asks, under whatever [user_id], gets a fresh,
    non-empty cached quiz, with no call to the model; only without one
    is a [cache_id] that carries neither of the user's prefixes refused. *)
Theorem cached_quiz_is_served_to_anyone (user_id : string)
    (data : list (string * json)) (cache_id difficulty : json) (ds : string)
    (n : Z) (threshold : Q) (files : store)
    (now_quiz now_transcript now_write : Q) :
  dict_get "cache_id" data = Some cache_id ->
  quiz_params int_of_string float_of_string data = Ret (n, difficulty, threshold) ->
  (n <= MAX_QUESTIONS_PER_QUIZ)%Z ->
  is_difficulty difficulty = Some ds ->
  let quiz_cache_id := format py_str cache_id ++ "_" ++ pretty n ++ "_" ++ ds in
  (forall t0 cached,
     file_at fs files (_get_cache_path cache_dir quiz_cache_id)
       = Some (entry t0 cached) ->
     (now_quiz - t0 <= CACHE_TIMEOUT)%Q ->
     truthy cached = true ->
     quiz user_id (Some data) files now_quiz now_transcript now_write
     = (Reply 200 [("message", JStr "Quiz retrieved from cache");
                   ("quiz", cached);
                   ("user_id", JStr user_id)],
        files, [])) /\
  (forall c,
     file_at fs files (_get_cache_path cache_dir quiz_cache_id) = None ->
     cache_id = JStr c ->
     String.prefix ("yt_" ++ user_id ++ "_") c = false ->
     String.prefix ("doc_" ++ user_id ++ "_") c = false ->
     quiz user_id (Some data) files now_quiz now_transcript now_write
     = (error 400 "Invalid cache ID format", files, [])).
Proof.
  intros Hid Hparams Hmax Hdiff. cbn zeta.
  pose proof (AppSpec.quiz_after_lookup fs cache_dir tfidf_cosine
                transcript_prompt generate_content json_loads
                vectorstore_documents int_of_string float_of_string py_str
                user_id data cache_id difficulty ds n threshold files now_quiz
                now_transcript now_write Hid Hparams Hmax Hdiff) as Hrun.
  split.
  - intros t0 cached Hfile Hfresh Htrue. rewrite Hrun.
    rewrite (CacheSpec.get_fresh fs cache_dir files now_quiz t0 cached
               _ Hfile Hfresh).
    rewrite Htrue. reflexivity.
  - intros c Hfile -> Hyt Hdoc. rewrite Hrun.
    rewrite (CacheSpec.get_absent fs cache_dir files now_quiz _ Hfile).
    cbn [truthy]. unfold generate_new_quiz. rewrite Hyt, Hdoc. reflexivity.
Qed.

(** X27. The number of questions has no lower bound: a request for no
    question, or for a negative number, on a cached transcript is taken
    and makes no call to the model; the empty quiz is written to the
    cache and the request is answered with it.  The quiz goes into the
    directory of the transcript's file, so the write succeeds whenever
    the file system takes the path of the quiz file; were it to raise,
    the answer would be the server error. *)
Theorem nothing_asked_is_accepted (user_id : string)
    (data : list (string * json)) (c : string) (difficulty : json) (ds : string)
    (n : Z) (threshold : Q) (files : store) (t1 : Q) (transcript : string)
    (now_quiz now_transcript now_write : Q) :
  dict_get "cache_id" data = Some (JStr c) ->
  quiz_params int_of_string float_of_string data = Ret (n, difficulty, threshold) ->
  (n <= 0)%Z ->
  is_difficulty difficulty = Some ds ->
  String.prefix ("yt_" ++ user_id ++ "_") c = true ->
  file_at fs files
    (_get_cache_path cache_dir (c ++ "_" ++ pretty n ++ "_" ++ ds)) = None ->
  file_at fs files (_get_cache_path cache_dir c)
    = Some (entry t1 (JStr transcript)) ->
  transcript <> "" ->
  (now_transcript - t1 <= CACHE_TIMEOUT)%Q ->
  let quiz_cache_id := c ++ "_" ++ pretty n ++ "_" ++ ds in
  let written :=
    save_to_cache fs cache_dir files now_write (JArr []) quiz_cache_id in
  quiz user_id (Some data) files now_quiz now_transcript now_write
  = (match written.1 with
     | Ret _ => Reply 200 [("message", JStr "Quiz generated successfully");
                           ("quiz", JArr []);
                           ("user_id", JStr user_id)]
     | Raise => ServerError
     end, written.2, []) /\
  (accepts fs (_get_cache_path cache_dir quiz_cache_id) = true ->
   written.1 = Ret tt /\
   quiz user_id (Some data) files now_quiz now_transcript now_write
   = (Reply 200 [("message", JStr "Quiz generated successfully");
                 ("quiz", JArr []);
                 ("user_id", JStr user_id)],
      written.2, [])).
Proof.
  intros Hid Hparams Hn Hdiff Hyt Hmiss Hfile Hne Hfresh. cbn zeta.
  assert (Hrun :
    quiz user_id (Some data) files now_quiz now_transcript now_write
    = (match (save_to_cache fs cache_dir files now_write (JArr [])
                (c ++ "_" ++ pretty n ++ "_" ++ ds)).1 with
       | Ret _ => Reply 200 [("message", JStr "Quiz generated successfully");
                             ("quiz", JArr []);
                             ("user_id", JStr user_id)]
       | Raise => ServerError
       end,
       (save_to_cache fs cache_dir files now_write (JArr [])
          (c ++ "_" ++ pretty n ++ "_" ++ ds)).2, [])).
  2:{ split; [exact Hrun|]. intros Hok.
      assert (Hsaved : (save_to_cache fs cache_dir files now_write (JArr [])
                          (c ++ "_" ++ pretty n ++ "_" ++ ds)).1 = Ret tt);
        [|split; [exact Hsaved | rewrite Hrun, Hsaved; reflexivity]].
      destruct (sibling_is_located fs cache_dir c ("_" ++ pretty n ++ "_" ++ ds))
        as [file Hloc].
      - intros ->. destruct user_id; discriminate.
      - rewrite !char_in_app, pretty_Z_plain, (is_difficulty_plain _ _ Hdiff).
        reflexivity.
      - exact Hok.
      - unfold file_at in Hfile.
        destruct (locate fs (_get_cache_path cache_dir c));
          [eauto|discriminate].
      - rewrite (CacheSpec.save_located fs cache_dir files now_write (JArr [])
                   _ file Hloc). reflexivity. }
  rewrite (AppSpec.quiz_after_lookup fs cache_dir tfidf_cosine
             transcript_prompt generate_content json_loads
             vectorstore_documents int_of_string float_of_string py_str
             user_id data (JStr c) difficulty ds n threshold files now_quiz
             now_transcript now_write Hid Hparams
             ltac:(unfold MAX_QUESTIONS_PER_QUIZ; lia) Hdiff).
  cbn [format].
  rewrite (CacheSpec.get_absent fs cache_dir files now_quiz _ Hmiss).
  cbn [truthy]. unfold generate_new_quiz. rewrite Hyt.
  rewrite (CacheSpec.get_fresh fs cache_dir files now_transcript t1
             (JStr transcript) c Hfile Hfresh).
  assert (Htrue : truthy (JStr transcript) = true)
    by (destruct transcript; [contradiction | reflexivity]).
  rewrite Htrue. cbn [negb]. unfold run_quiz, Quiz.generate_quiz.
  assert (Hbatch : Chunks.deduplicate_chunks tfidf_cosine [transcript] threshold
                   = Some [transcript]) by reflexivity.
  cbn [Quiz.similarity_threshold Quiz.batch_size Quiz.num_questions].
  rewrite Hbatch.
  assert (Hone : Chunks.batch_chunks [transcript] DEFAULT_BATCH_SIZE
                 = Some [transcript]) by reflexivity.
  rewrite Hone.
  rewrite QuizSpec.loop_enough by (simpl; lia).
  assert (Hnone : slice_to ([] : list json) n = []).
  { unfold slice_to. destruct (n <? 0)%Z; cbn [length Z.of_nat Z.add Z.max];
      rewrite ?take_nil; reflexivity. }
  rewrite Hnone.
  destruct (save_to_cache fs cache_dir files now_write (JArr [])
              (c ++ "_" ++ pretty n ++ "_" ++ ds)) as [[[]|] files'];
    reflexivity.
Qed.
End HandlersMore.

Lemma youtube_second_request_is_a_hit_witness :
  (process_youtube only_cache_folder "cache" (fun _ => Some "abc")
     (Youtube.get_transcript (fun _ => Ret ["hello"; "world"]))
     "u1" (Some [("url", JStr "https://youtu.be/abc")]) ∅
     1700000000 1700000001).2 = ["abc"] /\
  process_youtube only_cache_folder "cache" (fun _ => Some "abc")
    (Youtube.get_transcript (fun _ => Ret ["hello"; "world"]))
    "u1" (Some [("url", JStr "https://youtu.be/abc")])
    (saved ∅ 1700000001 (JStr "hello world ") "yt_u1_abc")
    1700000900 1700000901
  = (Reply 200 [("message", JStr "Transcript retrieved from cache");
                ("cache_id", JStr "yt_u1_abc");
                ("user_id", JStr "u1")],
     saved ∅ 1700000001 (JStr "hello world ") "yt_u1_abc", []).
Proof.
  pose proof (youtube_second_request_is_a_hit only_cache_folder "cache"
                (fun _ => Some "abc") (fun _ => Ret ["hello"; "world"]) "u1"
                [("url", JStr "https://youtu.be/abc")] "https://youtu.be/abc"
                "abc" ["hello"; "world"] ∅ 1700000000%Q 1700000001%Q
                1700000900%Q 1700000901%Q eq_refl eq_refl
                ltac:(discriminate) eq_refl ltac:(discriminate) eq_refl
                ltac:(vm_compute; discriminate)) as [Hfetch [Hhit _]].
  split; [exact Hfetch|].
  refine (proj2 (Hhit _)). vm_compute. eauto.
Defined.

Lemma cached_quiz_is_served_to_anyone_witness :
  generate_quiz only_cache_folder "cache" (fun _ => None) (fun batch => batch)
    (fun _ => Raise) (fun _ => None) (fun _ => NoStore)
    (fun _ => None) (fun _ => None) (fun _ => "")
    "u2" (Some [("cache_id", JStr "yt_u1_abc"); ("num_questions", JNum 3)])
    cached_quiz_of_u1 1700000010 1700000011 1700000012
  = (Reply 200 [("message", JStr "Quiz retrieved from cache");
                ("quiz", JArr five_questions);
                ("user_id", JStr "u2")],
     cached_quiz_of_u1, []).
Proof.
  refine (proj1 (cached_quiz_is_served_to_anyone only_cache_folder "cache"
                   (fun _ => None)
                   (fun batch => batch) (fun _ => Raise) (fun _ => None)
                   (fun _ => NoStore) (fun _ => None) (fun _ => None)
                   (fun _ => "") "u2"
                   [("cache_id", JStr "yt_u1_abc"); ("num_questions", JNum 3)]
                   (JStr "yt_u1_abc") (JStr "mixed") "mixed" 3%Z (85 # 100)
                   cached_quiz_of_u1 1700000010%Q 1700000011%Q 1700000012%Q
                   eq_refl eq_refl _ eq_refl)
            1700000005%Q (JArr five_questions) _ _ eq_refl).
  - vm_compute. discriminate.
  - vm_compute. reflexivity.
  - vm_compute. discriminate.
Defined.

Lemma nothing_asked_is_accepted_witness :
  generate_quiz only_cache_folder "cache" (fun _ => None) (fun batch => batch)
    (fun _ => Raise) (fun _ => None) (fun _ => NoStore)
    (fun _ => None) (fun _ => None) (fun _ => "")
    "u1" (Some [("cache_id", JStr "yt_u1_abc"); ("num_questions", JNum (-4))])
    (saved ∅ 1700000000 (JStr "lecture text") "yt_u1_abc")
    1700000010 1700000011 1700000012
  = (Reply 200 [("message", JStr "Quiz generated successfully");
                ("quiz", JArr []);
                ("user_id", JStr "u1")],
     saved (saved ∅ 1700000000 (JStr "lecture text") "yt_u1_abc")
       1700000012 (JArr []) "yt_u1_abc_-4_mixed",
     []).
Proof.
  refine (proj1 (nothing_asked_is_accepted only_cache_folder "cache"
            (fun _ => None) (fun batch => batch)
            (fun _ => Raise) (fun _ => None) (fun _ => NoStore)
            (fun _ => None) (fun _ => None) (fun _ => "") "u1"
            [("cache_id", JStr "yt_u1_abc"); ("num_questions", JNum (-4))]
            "yt_u1_abc" (JStr "mixed") "mixed" (-4)%Z (85 # 100)
            (saved ∅ 1700000000 (JStr "lecture text") "yt_u1_abc")
            1700000000%Q "lecture text" 1700000010%Q 1700000011%Q 1700000012%Q
            eq_refl eq_refl _ eq_refl eq_refl _ _ _ _)).
  - vm_compute. discriminate.
  - vm_compute. reflexivity.
  - vm_compute. reflexivity.
  - discriminate.
  - vm_compute. discriminate.
Defined.

End AppMore.
